(** * pyreadr: the type inference and coercion engine of the writer

    A shallow embedding of [src/pyreadr/_pyreadr_writer.py] and of the two
    write entry points of [src/pyreadr/pyreadr.py].

    The Python code works on pandas objects.  The embedding keeps what the
    code observes of them:
    - a scalar is a [value]: its runtime class ([type(x)]), whether
      [pd.isna] holds of it, and its payload;
    - a [Series] is a view: a dtype, an index (row labels) and a reference
      to a value buffer in the [heap]; [df[name]] is a view on the frame's
      own buffer, [.copy()] and [.astype()] allocate a new buffer, and
      [.loc[mask] = ...] writes through the reference;
    - a [DataFrame] carries pandas' default [RangeIndex] (labels
      [0 .. nrows-1]) and string column labels;
    - an exception is the [Raise] case of [outcome].

    What pandas and numpy do where the source leaves it to them is a
    parameter of the development: [str], [strftime] and [int] of an
    element, narrowing outside the 32-bit range, the assignment into a
    series whose dtype is not object, and [tolist] on a categorical
    series or one of a dtype the writer does not name.

    The native [librdata.Writer] is outside this repository's Python code:
    its methods are recorded as [call]s and it may reject any of them. *)

From Stdlib Require Import ZArith Lia.
From stdpp Require Import base option list gmap strings.

Open Scope string_scope.
Open Scope list_scope.

(** ** Exceptions and outcomes *)

Inductive exn :=
| KeyError
| IndexError
| TypeError
| ValueError
| OverflowError
| AttributeError
| PyreadrError (msg : string)
| WriterError (code : nat).

Inductive outcome (A : Type) :=
| Ok (a : A)
| Raise (e : exn).
Arguments Ok {A} a.
Arguments Raise {A} e.

#[global] Instance outcome_ret : MRet outcome := fun A a => Ok a.
#[global] Instance outcome_bind : MBind outcome := fun A B f m =>
  match m with
  | Ok a => f a
  | Raise e => Raise e
  end.

(** ** Element types *)

(** numpy dtypes a frame column can declare.  [N_other] stands for every
    dtype the writer does not name (float32, float16, complex, timedelta,
    ...). *)
Inductive npdtype :=
| N_int8 | N_int16 | N_int32 | N_uint8 | N_uint16
| N_int64 | N_uint64 | N_uint32 | N_float64
| N_bool
| N_datetime64ns
| N_object
| N_other (k : nat).

(** Integer classes: Python's [int] and numpy's fixed-width scalars. *)
Inductive int_class :=
| I_py
| I_int8 | I_int16 | I_int32 | I_uint8 | I_uint16
| I_int64 | I_uint64 | I_uint32.

(** Runtime classes ([type(x)]).  [np.float], [np.bool] and [np.object] are
    numpy's aliases of the builtins [float], [bool] and [object]. *)
Inductive pytype :=
| T_int (c : int_class)
| T_float
| T_bool
| T_str
| T_date
| T_datetime
| T_NoneType
| T_NaTType
| T_class (k : nat).

(** What the configuration sets hold: dtype instances and classes. *)
Inductive type_obj :=
| Dt (d : npdtype)
| Cls (c : pytype).

#[global] Instance npdtype_eq_dec : EqDecision npdtype.
Proof. solve_decision. Defined.
#[global] Instance int_class_eq_dec : EqDecision int_class.
Proof. solve_decision. Defined.
#[global] Instance pytype_eq_dec : EqDecision pytype.
Proof. solve_decision. Defined.
#[global] Instance type_obj_eq_dec : EqDecision type_obj.
Proof. solve_decision. Defined.

(** ** Values *)

(** A Python float: not-a-number, an infinity, or the number [m * 2^e]. *)
Inductive pyfloat :=
| FNaN
| FInf (negative : bool)
| FNum (m e : Z).

Inductive value :=
| VNone
| VNaT
| VInt (c : int_class) (z : Z)
| VFloat (f : pyfloat)
| VBool (b : bool)
| VStr (s : string)
| VDate (y m d : nat)
| VDatetime (y m d hh mm ss : nat)
| VObj (cls : nat) (ident : nat).

(** [type(x)] *)
Definition type_of (x : value) : pytype :=
  match x with
  | VNone => T_NoneType
  | VNaT => T_NaTType
  | VInt c _ => T_int c
  | VFloat _ => T_float
  | VBool _ => T_bool
  | VStr _ => T_str
  | VDate _ _ _ => T_date
  | VDatetime _ _ _ _ _ _ => T_datetime
  | VObj cls _ => T_class cls
  end.

(** [pd.isna(x)] on a scalar: [None], [NaN] and [NaT]. *)
Definition isna (x : value) : bool :=
  match x with
  | VNone | VNaT | VFloat FNaN => true
  | _ => false
  end.

(** [pd.notnull(x)] *)
Definition notnull (x : value) : bool := negb (isna x).

#[global] Instance pyfloat_eq_dec : EqDecision pyfloat.
Proof. solve_decision. Defined.
#[global] Instance value_eq_dec : EqDecision value.
Proof. solve_decision. Defined.

(** The dtype a column declares: a numpy dtype, or pandas'
    [CategoricalDtype] with its categories; for the latter we also keep
    the dtype that [np.asarray(df[col_name])] has. *)
Inductive pd_dtype :=
| Plain (d : npdtype)
| Categorical (materialised : npdtype) (categories : list value).

#[global] Instance pd_dtype_eq_dec : EqDecision pd_dtype.
Proof. solve_decision. Defined.

(** ** Configuration *)

(** Membership in a Python set is by hash and equality: a dtype instance
    and a class are found only where listed. *)
Definition int_types : list type_obj :=
  [Dt N_int32; Dt N_int16; Dt N_int8; Dt N_uint8; Dt N_uint16;
   Cls (T_int I_int32); Cls (T_int I_int16); Cls (T_int I_int8);
   Cls (T_int I_uint8); Cls (T_int I_uint16)].

Definition float_types : list type_obj :=
  [Dt N_int64; Dt N_uint64; Dt N_uint32; Dt N_float64;
   Cls (T_int I_int64); Cls (T_int I_uint64); Cls (T_int I_uint32);
   Cls T_float].

Definition datetime_types : list type_obj :=
  [Cls T_datetime; Dt N_datetime64ns].

(** [x in s] *)
Definition py_in (x : type_obj) (s : list type_obj) : bool :=
  bool_decide (x ∈ s).

(** [t == np.bool]: the dtype [bool] or the class [bool]. *)
Definition eq_np_bool (t : type_obj) : bool :=
  match t with
  | Dt N_bool | Cls T_bool => true
  | _ => false
  end.

(** [t == np.dtype('<M8[ns]') or t == np.datetime64] on a dtype. *)
Definition eq_datetime64 (t : type_obj) : bool :=
  match t with
  | Dt N_datetime64ns => true
  | _ => false
  end.

(** [t == np.object] on a dtype. *)
Definition eq_np_object (t : type_obj) : bool :=
  match t with
  | Dt N_object => true
  | _ => false
  end.

(** The dict of semantic tags to librdata's primitives, in source order. *)
Definition pyreadr_to_librdata_types : list (string * string) :=
  [("INTEGER", "INTEGER"); ("NUMERIC", "NUMERIC");
   ("LOGICAL", "LOGICAL"); ("CHARACTER", "CHARACTER");
   ("OBJECT", "CHARACTER"); ("DATE", "CHARACTER");
   ("DATETIME", "CHARACTER")].

Definition librdata_min_integer : Z := -2147483648.

(** ** Ordered dictionaries with string keys *)

Definition odict := list (string * string).

(** [d[k]] *)
Fixpoint od_get (k : string) (d : odict) : outcome string :=
  match d with
  | [] => Raise KeyError
  | (k', v) :: d' => if decide (k' = k) then Ok v else od_get k d'
  end.

(** [d[k] = v]: a present key keeps its place, a new key goes last. *)
Fixpoint od_set (k v : string) (d : odict) : odict :=
  match d with
  | [] => [(k, v)]
  | (k', v') :: d' =>
      if decide (k' = k) then (k, v) :: d' else (k', v') :: od_set k v d'
  end.

(** ** Frames, series and the heap of value buffers *)

Definition loc := nat.

Record column := Column {
  col_name : string;
  col_dtype : pd_dtype;
  col_data : loc
}.

Record DataFrame := Frame {
  df_nrows : nat;
  df_columns : list column
}.

Record Series := MkSeries {
  s_dtype : pd_dtype;
  s_index : list nat;
  s_data : loc
}.

(** The buffer at [l]; a location never allocated holds no value. *)
Definition buffer (h : gmap loc (list value)) (l : loc) : list value :=
  default [] (h !! l).

(** [df[name]]: a view on the frame's own buffer.  (Where several
    columns bear the label pandas hands out a frame of them instead of a
    series; that case is outside this development, whose well-formed
    frames bear distinct labels, see [frame_wf].) *)
Definition df_getitem (df : DataFrame) (name : string) : outcome Series :=
  match find (fun c => bool_decide (col_name c = name)) (df_columns df) with
  | Some c => Ok (MkSeries (col_dtype c) (seq 0 (df_nrows df)) (col_data c))
  | None => Raise KeyError
  end.

(** The rows of a series: label and value. *)
Definition items (h : gmap loc (list value)) (s : Series)
    : list (nat * value) :=
  zip (s_index s) (buffer h (s_data s)).

(** [series.dropna()]: the rows whose value is not missing, labels kept. *)
Definition dropna (rows : list (nat * value)) : list (nat * value) :=
  List.filter (fun r => notnull r.2) rows.

(** [series[key]] for an integer key on an integer index: the row whose
    LABEL is [key]. *)
Definition series_getitem (rows : list (nat * value)) (key : nat)
    : outcome value :=
  match List.find (fun r => Nat.eqb r.1 key) rows with
  | Some r => Ok r.2
  | None => Raise KeyError
  end.

(** ** Column Type Classifier *)

(** The chain on the reference runtime type of a homogeneous object column
    (source lines 83-96). *)
Definition tag_of_curtype (curtype : pytype) : string :=
  if py_in (Cls curtype) int_types then "INTEGER"
  else if py_in (Cls curtype) float_types then "NUMERIC"
  else if eq_np_bool (Cls curtype) then "LOGICAL"
  else if bool_decide (curtype = T_str) then "CHARACTER"
  else if bool_decide (curtype = T_date) then "DATE"
  else if bool_decide (curtype = T_datetime) then "DATETIME"
  else "OBJECT".

(** [np.all(col.apply(lambda x: type(x) == curtype))] *)
Definition all_of_type (curtype : pytype) (rows : list (nat * value)) : bool :=
  forallb (fun r => bool_decide (type_of r.2 = curtype)) rows.

(** [np.all(equal)] for [equal = col.apply(lambda x: type(x) == curtype)]
    on a series of the declared dtype [declared].  On a categorical
    series [apply] maps the categories: when their images are distinct
    pandas returns a Categorical, of which [np.all] raises [TypeError];
    otherwise, and on every other series, [equal] holds one boolean per
    row. *)
Definition np_all_equal (declared : pd_dtype) (curtype : pytype)
    (rows : list (nat * value)) : outcome bool :=
  match declared with
  | Categorical _ categories =>
      if bool_decide
           (NoDup (map (fun x => bool_decide (type_of x = curtype))
                       categories))
      then Raise TypeError
      else Ok (all_of_type curtype rows)
  | Plain _ => Ok (all_of_type curtype rows)
  end.

(** The branch [elif col_type == np.object] (source lines 62-96) on the
    rows of [df[col_name]], a series of the declared dtype [declared]:
    the tag and the column's entry of [has_missing_values]. *)
Definition object_column_type (declared : pd_dtype)
    (rows : list (nat * value)) : outcome (string * bool) :=
  let missing := map (fun r => isna r.2) rows in
  if existsb id missing then
    let col := dropna rows in
    if negb (Nat.eqb (length col) 0) then
      x ← series_getitem col 0;
      let curtype := type_of x in
      equal ← np_all_equal declared curtype col;
      if negb equal then Ok ("OBJECT", true)
      else Ok (tag_of_curtype curtype, true)
    else Ok ("LOGICAL", true)
  else
    x ← series_getitem rows 0;
    let curtype := type_of x in
    equal ← np_all_equal declared curtype rows;
    if negb equal then Ok ("OBJECT", false)
    else Ok (tag_of_curtype curtype, false).

(** One iteration of the loop of [get_pyreadr_column_types]: the tag stored
    under the column's name and the column's entry of
    [has_missing_values] when the iteration ends. *)
Definition column_type (h : gmap loc (list value)) (df : DataFrame)
    (col_name : string) (col_type : pd_dtype) : outcome (string * bool) :=
  let declared := col_type in
  col_type ← match col_type with
             | Categorical materialised _ =>
                 _ ← df_getitem df col_name; Ok materialised
             | Plain d => Ok d
             end;
  if py_in (Dt col_type) int_types then Ok ("INTEGER", false)
  else if py_in (Dt col_type) float_types then Ok ("NUMERIC", false)
  else if eq_np_bool (Dt col_type) then Ok ("LOGICAL", false)
  else if eq_datetime64 (Dt col_type) then
    s ← df_getitem df col_name;
    let missing := map (fun r => isna r.2) (items h s) in
    Ok ("DATETIME", existsb id missing)
  else if eq_np_object (Dt col_type) then
    s ← df_getitem df col_name;
    object_column_type declared (items h s)
  else Ok ("OBJECT", false).

(** The loop over [enumerate(zip(columns, types))]. *)
Fixpoint classify_loop (h : gmap loc (list value)) (df : DataFrame)
    (indx : nat) (cols : list (string * pd_dtype))
    (result : odict) (has_missing_values : list bool)
    : outcome (odict * list bool) :=
  match cols with
  | [] => Ok (result, has_missing_values)
  | (col_name, col_type) :: cols' =>
      '(tag, missing) ← column_type h df col_name col_type;
      classify_loop h df (S indx) cols'
        (od_set col_name tag result)
        (if (missing : bool) then <[indx := true]> has_missing_values
         else has_missing_values)
  end.

Definition get_pyreadr_column_types (h : gmap loc (list value))
    (df : DataFrame) : outcome (odict * list bool) :=
  let types := map col_dtype (df_columns df) in
  let columns := map col_name (df_columns df) in
  classify_loop h df 0 (zip columns types) [] (replicate (length columns) false).

(** ** Type Taxonomy Mapper *)

(** The loop over [pyreadr_types.items()]. *)
Fixpoint map_types_loop (pairs : list (string * string)) (result : odict)
    : outcome odict :=
  match pairs with
  | [] => Ok result
  | (key, value) :: pairs' =>
      prim ← od_get value pyreadr_to_librdata_types;
      map_types_loop pairs' (od_set key prim result)
  end.

Definition pyreadr_types_to_librdata_types (pyreadr_types : odict)
    : outcome odict :=
  map_types_loop pyreadr_types [].

(** ** The world: value buffers and the Storage Writer's call log *)

(** An argument of a write entry point, as far as the entry points
    inspect it: a string, a data frame, [None], or anything else (of which
    only the truth value is looked at). *)
Inductive pyarg :=
| AStr (s : string)
| AFrame (df : DataFrame)
| ANone
| AOther (truthy : bool).

(** [isinstance(x, pd.DataFrame)] *)
Definition is_frame (x : pyarg) : bool :=
  match x with
  | AFrame _ => true
  | _ => false
  end.

(** [isinstance(x, str)] *)
Definition is_str (x : pyarg) : bool :=
  match x with
  | AStr _ => true
  | _ => false
  end.

(** The methods of [librdata.Writer] that [write_r] calls. *)
Inductive call :=
| c_open (path file_format : string)
| c_set_row_count (n : nat)
| c_set_table_name (name : pyarg)
| c_add_column (name librdata_type : string)
| c_insert_value (row_indx indx : nat) (val : value) (librdata_type : string)
| c_close.

Record world := World {
  heap : gmap loc (list value);
  calls : list call
}.

(** Computations: they read and write the world and may raise. *)
Definition M (A : Type) : Type := world → outcome A * world.

#[global] Instance M_ret : MRet M := fun A a w => (Ok a, w).
#[global] Instance M_bind : MBind M := fun A B f m w =>
  match m w with
  | (Ok a, w') => f a w'
  | (Raise e, w') => (Raise e, w')
  end.

Definition raise {A} (e : exn) : M A := fun w => (Raise e, w).

Definition lift {A} (o : outcome A) : M A := fun w => (o, w).

Definition get_heap : M (gmap loc (list value)) := fun w => (Ok (heap w), w).

(** A new buffer holding [vs], at a location not in use. *)
Definition alloc (vs : list value) : M loc := fun w =>
  let l := fresh (dom (heap w)) in
  (Ok l, World (<[l := vs]> (heap w)) (calls w)).

(** Overwrite the buffer at [l]. *)
Definition store (l : loc) (vs : list value) : M unit := fun w =>
  (Ok tt, World (<[l := vs]> (heap w)) (calls w)).

(** The values of a series, in row order. *)
Definition read (s : Series) : M (list value) := fun w =>
  (Ok (buffer (heap w) (s_data s)), w).

(** [for x in xs: body(x)] *)
Fixpoint for_each {A} (xs : list A) (body : A → M unit) : M unit :=
  match xs with
  | [] => mret tt
  | x :: xs' => body x ;; for_each xs' body
  end.

(** [for i, x in enumerate(xs): body(i, x)], counting from [i]. *)
Fixpoint for_enumerate {A} (i : nat) (xs : list A) (body : nat → A → M unit)
    : M unit :=
  match xs with
  | [] => mret tt
  | x :: xs' => body i x ;; for_enumerate (S i) xs' body
  end.

(** [mapM] for outcomes, left to right, stopping at the first exception. *)
Fixpoint traverse {A B} (f : A → outcome B) (xs : list A) : outcome (list B) :=
  match xs with
  | [] => Ok []
  | x :: xs' => y ← f x; ys ← traverse f xs'; Ok (y :: ys)
  end.

(** [series.copy()]: same dtype and index, a buffer of its own. *)
Definition copy (s : Series) : M Series :=
  vs ← read s;
  l ← alloc vs;
  mret (MkSeries (s_dtype s) (s_index s) l).

(** The bounds of a 32-bit signed integer. *)
Definition int32_min : Z := -2147483648.
Definition int32_max : Z := 2147483647.

(** The dtype object itself (a categorical series over objects is not of
    it). *)
Definition is_object_dtype (d : pd_dtype) : bool :=
  match d with
  | Plain N_object => true
  | _ => false
  end.

(** The builtin a numpy number is re-boxed as by [tolist]. *)
Definition to_builtin (x : value) : value :=
  match x with
  | VInt _ z => VInt I_py z
  | _ => x
  end.

(** Days from 1970-01-01 to the given day of the proleptic Gregorian
    calendar. *)
Definition days_from_civil (y m d : Z) : Z :=
  let y := (if m <=? 2 then y - 1 else y)%Z in
  let era := (y / 400)%Z in
  let yoe := (y - era * 400)%Z in
  let doy := ((153 * (if m <=? 2 then m + 9 else m - 3) + 2) / 5 + d - 1)%Z in
  let doe := (yoe * 365 + yoe / 4 - yoe / 100 + doy)%Z in
  (era * 146097 + doe - 719468)%Z.

(** The nanoseconds since the epoch that a datetime64[ns] element
    stands for. *)
Definition timestamp_ns (y m d hh mm ss : nat) : Z :=
  ((((days_from_civil (Z.of_nat y) (Z.of_nat m) (Z.of_nat d) * 24
      + Z.of_nat hh) * 60 + Z.of_nat mm) * 60 + Z.of_nat ss)
   * 1000000000)%Z.

(** ** Parsers and dictionaries of the read entry points *)

(** The methods of [PyreadrParser] and [ListObjectsParser] that the read
    entry points call. *)
Inductive pcall :=
| p_set_use_objects (use_objects : list string)
| p_set_timezone (timezone : string)
| p_parse (path : string).

(** Computations on a parser: they extend the log of its calls and may
    raise. *)
Definition PM (A : Type) : Type := list pcall → outcome A * list pcall.

#[global] Instance PM_ret : MRet PM := fun A a log => (Ok a, log).
#[global] Instance PM_bind : MBind PM := fun A B f m log =>
  match m log with
  | (Ok a, log') => f a log'
  | (Raise e, log') => (Raise e, log')
  end.

Definition p_raise {A} (e : exn) : PM A := fun log => (Raise e, log).

Definition p_lift {A} (o : outcome A) : PM A := fun log => (o, log).

(** Reading an attribute of the parser, which depends on the calls made. *)
Definition p_read {A} (attribute : list pcall → A) : PM A :=
  fun log => (Ok (attribute log), log).

(** [d[k] = v] on an ordered dictionary with values of any type. *)
Fixpoint dict_set {V} (k : string) (v : V) (d : list (string * V))
    : list (string * V) :=
  match d with
  | [] => [(k, v)]
  | (k', v') :: d' =>
      if decide (k' = k) then (k, v) :: d' else (k', v') :: dict_set k v d'
  end.

(** [d.get(k)] *)
Fixpoint dict_get {V} (k : string) (d : list (string * V)) : option V :=
  match d with
  | [] => None
  | (k', v) :: d' => if decide (k' = k) then Some v else dict_get k d'
  end.

(** ** Sample collaborators *)

(** A Writer that accepts every call. *)
Definition accepting_writer : list call → call → option exn :=
  fun _ _ => None.

(** A Writer that refuses the first insertion. *)
Definition refusing_writer : list call → call → option exn :=
  fun _ c =>
    match c with
    | c_insert_value _ _ _ _ => Some (WriterError 1)
    | _ => None
    end.

Definition sample_str (x : value) : string :=
  match x with
  | VStr s => s
  | VBool true => "True"
  | VBool false => "False"
  | _ => "?"
  end.

Definition sample_strftime (x : value) (format : string) : outcome string :=
  match x with
  | VDate _ _ _ | VDatetime _ _ _ _ _ _ => Ok format
  | _ => Raise AttributeError
  end.

Definition sample_int (x : value) : outcome Z := Raise TypeError.

Definition sample_overflow (z : Z) : outcome Z := Raise OverflowError.

(** A numpy that wraps instead. *)
Definition wrapping_overflow (z : Z) : outcome Z := Ok z.

Definition sample_expanduser (path : string) : string := path.

(** A pandas that parses the text assigned to a datetime64[ns] series
    back to the timestamps the series held, and turns series of the other
    dtypes into object series. *)
Definition sample_setitem (d : pd_dtype) (vs new : list value)
    : outcome (pd_dtype * list value) :=
  match d with
  | Plain N_datetime64ns => Ok (d, vs)
  | _ => Ok (Plain N_object, new)
  end.

Definition sample_tolist_item (d : pd_dtype) (x : value) : value := x.

(** A parser that accepts every call. *)
Definition accepting_parser : list pcall → pcall → option exn :=
  fun _ _ => None.

(** A file system holding the one file [data.rds]. *)
Definition sample_isfile (path : string) : bool :=
  bool_decide (path = "data.rds").

(** A file with three objects, two of them named [a]; frames are stood
    for by numbers. *)
Definition sample_table_data (log : list pcall)
    : list (string * outcome nat) :=
  [("a", Ok 1); ("b", Ok 2); ("a", Ok 3)].

Definition sample_object_list (log : list pcall) : list string :=
  ["a"; "b"; "a"].

(** A file whose second object cannot be converted. *)
Definition broken_table_data (log : list pcall)
    : list (string * outcome nat) :=
  [("a", Ok 1); ("b", Raise ValueError); ("c", Ok 3)].

Section Writer.

(** The native Storage Writer: given the calls made so far and the next
    call, the exception it raises, if any. *)
Variable writer : list call → call → option exn.

(** [str(x)] *)
Variable py_str : value → string.

(** [x.strftime(format)]; raises where [x] has no such method or the
    format is refused. *)
Variable py_strftime : value → string → outcome string.

(** [int(x)] as numpy applies it to an element that is neither an
    integer nor a boolean (floats, strings, foreign objects). *)
Variable py_int : value → outcome Z.

(** What narrowing to 32 bits makes of a number outside the
    representable range; the source leaves it to numpy and the platform,
    which raise or yield a 32-bit number (the number modulo 2^32 where
    they wrap). *)
Variable int32_overflow : Z → outcome Z.

(** [os.path.expanduser] *)
Variable expanduser : string → string.

(** [series.loc[mask] = values] on a series whose dtype is not object:
    pandas casts what is assigned to the dtype (text assigned to a
    datetime64[ns] series is parsed back to timestamps), gives the series
    another dtype, or raises.  From the dtype, the values before and the
    values with the assigned ones in place: the dtype and the values
    after. *)
Variable pd_setitem :
  pd_dtype → list value → list value → outcome (pd_dtype * list value).

(** What [values.tolist()] hands out for an element of a series whose
    dtype is categorical or none of those the writer names. *)
Variable tolist_item : pd_dtype → value → value.

(** What [series.loc[mask] = ...] leaves of a series of dtype [d] and
    values [vs], [new] being the values with the assigned ones in place:
    an object series stores them as they are and keeps its dtype; for the
    other dtypes see [pd_setitem].  The series keeps its length. *)
Definition assigned (d : pd_dtype) (vs new : list value)
    : outcome (pd_dtype * list value) :=
  if is_object_dtype d then Ok (d, new)
  else
    r ← pd_setitem d vs new;
    Ok (r.1, imap (fun i v => default v (r.2 !! i)) new).

(** The assignment itself: it writes to the buffer of the series, which
    is the same object afterwards, of the dtype the assignment left. *)
Definition setitem (s : Series) (new : list value) : M Series :=
  vs ← read s;
  r ← lift (assigned (s_dtype s) vs new);
  store (s_data s) r.2 ;;
  mret (MkSeries r.1 (s_index s) (s_data s)).

(** [series.loc[pd.isna(series)] = x] *)
Definition loc_isna_assign (s : Series) (x : value) : M Series :=
  vs ← read s;
  setitem s (map (fun v => if isna v then x else v) vs).

(** [series.loc[pd.notnull(series)] =
       series.loc[pd.notnull(series)].apply(f)]:
    the right-hand side is evaluated first, then assigned. *)
Definition loc_notnull_apply (s : Series) (f : value → outcome value)
    : M Series :=
  vs ← read s;
  new ← lift (traverse (fun v => if notnull v then f v else Ok v) vs);
  setitem s new.

(** The Python object [values.tolist()] hands out for an element of a
    series of dtype [d]: an object array hands out its elements, an array
    of numbers or booleans re-boxes them as builtins, a datetime64[ns]
    array gives the nanoseconds since the epoch as an integer and [None]
    for [NaT]. *)
Definition to_python (d : pd_dtype) (x : value) : value :=
  match d with
  | Plain N_object => x
  | Plain N_datetime64ns =>
      match x with
      | VDatetime y m d hh mm ss => VInt I_py (timestamp_ns y m d hh mm ss)
      | VNaT => VNone
      | _ => x
      end
  | Plain (N_other _) | Categorical _ _ => tolist_item d x
  | Plain _ => to_builtin x
  end.

(** [series.values.tolist()] *)
Definition tolist (s : Series) : M (list value) :=
  vs ← read s;
  mret (map (to_python (s_dtype s)) vs).

(** A call of a Writer method: logged, then accepted or refused. *)
Definition invoke (c : call) : M unit := fun w =>
  let w' := World (heap w) (calls w ++ [c]) in
  match writer (calls w) c with
  | None => (Ok tt, w')
  | Some e => (Raise e, w')
  end.

(** The 32-bit signed integer congruent to [z] modulo 2^32. *)
Definition wrap32 (z : Z) : Z :=
  ((z + 2147483648) mod 4294967296 - 2147483648)%Z.

(** Narrowing an integer to [np.int32]: a number within the range is
    kept; outside it numpy raises or stores a 32-bit number, so what
    [int32_overflow] answers is stored modulo 2^32. *)
Definition narrow (z : Z) : outcome value :=
  if bool_decide (int32_min ≤ z ≤ int32_max)%Z then Ok (VInt I_int32 z)
  else z' ← int32_overflow z; Ok (VInt I_int32 (wrap32 z')).

(** One element under [astype(np.int32)]. *)
Definition int32_of (x : value) : outcome value :=
  match x with
  | VInt _ z => narrow z
  | VBool b => Ok (VInt I_int32 (if b then 1 else 0))
  | _ => z ← py_int x; narrow z
  end.

(** [series.astype(np.int32)]: a new series. *)
Definition astype_int32 (s : Series) : M Series :=
  vs ← read s;
  new ← lift (traverse int32_of vs);
  l ← alloc new;
  mret (MkSeries (Plain N_int32) (s_index s) l).

(** ** Value Transformer *)

Definition transform_data (pd_series : Series) (dtype : string)
    (has_missing : bool) (dateformat datetimeformat : string) : M Series :=
  if bool_decide (dtype = "INTEGER") then
    pd_series ← (if has_missing
                 then loc_isna_assign pd_series
                        (VInt I_py librdata_min_integer)
                 else mret pd_series);
    astype_int32 pd_series
  else if bool_decide (dtype = "NUMERIC") then
    mret pd_series
  else if bool_decide (dtype = "LOGICAL") then
    pd_series ← (if has_missing
                 then loc_isna_assign pd_series
                        (VInt I_py librdata_min_integer)
                 else mret pd_series);
    astype_int32 pd_series
  else if bool_decide (dtype = "CHARACTER") then
    mret pd_series
  else if bool_decide (dtype = "OBJECT") then
    loc_notnull_apply pd_series (fun x => Ok (VStr (py_str x)))
  else if bool_decide (dtype = "DATE") then
    loc_notnull_apply pd_series
      (fun x => t ← py_strftime x dateformat; Ok (VStr t))
  else if bool_decide (dtype = "DATETIME") then
    loc_notnull_apply pd_series
      (fun x => t ← py_strftime x datetimeformat; Ok (VStr t))
  else
    raise (PyreadrError "Unkown pyreadr data type").

(** ** Write Orchestrator *)

(** [hasmissing[indx]] *)
Definition list_getitem (l : list bool) (i : nat) : outcome bool :=
  match l !! i with
  | Some b => Ok b
  | None => Raise IndexError
  end.

Definition write_r (path file_format : string) (df : DataFrame)
    (df_name : pyarg) (dateformat datetimeformat : string) : M unit :=
  let col_names := map col_name (df_columns df) in
  h ← get_heap;
  types ← lift (get_pyreadr_column_types h df);
  let pyreadr_types := types.1 in
  let hasmissing := types.2 in
  librdata_types ← lift (pyreadr_types_to_librdata_types pyreadr_types);
  invoke (c_open path file_format) ;;
  invoke (c_set_row_count (df_nrows df)) ;;
  invoke (c_set_table_name df_name) ;;
  for_each col_names (fun col_name =>
    curtype ← lift (od_get col_name librdata_types);
    (* [str(col_name)] is [col_name]: the labels are strings *)
    invoke (c_add_column col_name curtype)) ;;
  for_enumerate 0 col_names (fun indx column =>
    s ← lift (df_getitem df column);
    col ← copy s;
    dtype ← lift (od_get column pyreadr_types);
    has_missing ← lift (list_getitem hasmissing indx);
    tcol ← transform_data col dtype has_missing dateformat datetimeformat;
    tcol ← tolist tcol;
    curtype ← lift (od_get column librdata_types);
    for_enumerate 0 tcol (fun row_indx val =>
      invoke (c_insert_value row_indx indx val curtype))) ;;
  invoke c_close.

(** ** The write entry points *)

(** [bool(x)] *)
Definition truth (x : pyarg) : outcome bool :=
  match x with
  | AStr s => Ok (negb (bool_decide (s = "")))
  | AFrame _ => Raise ValueError
  | ANone => Ok false
  | AOther truthy => Ok truthy
  end.

(** [PyreadrWriter()]: a handle; no Writer method is called. *)
Definition PyreadrWriter : M unit := mret tt.

Definition write_rdata (path df df_name : pyarg)
    (dateformat datetimeformat : string) : M unit :=
  named ← lift (truth df_name);
  if negb named then raise (PyreadrError "df_name must be a valid string")
  else
    match df with
    | AFrame frame =>
        let file_format := "rdata" in
        PyreadrWriter ;;
        match path with
        | AStr p =>
            let p := expanduser p in
            write_r p file_format frame df_name dateformat datetimeformat
        | _ => raise (PyreadrError "path must be a string!")
        end
    | _ => raise (PyreadrError "df must be a pandas data frame")
    end.

Definition write_rds (path df : pyarg)
    (dateformat datetimeformat : string) : M unit :=
  match df with
  | AFrame frame =>
      let file_format := "rds" in
      let df_name := AStr "" in
      match path with
      | AStr p =>
          let p := expanduser p in
          PyreadrWriter ;;
          write_r p file_format frame df_name dateformat datetimeformat
      | _ => raise (PyreadrError "path must be a string!")
      end
  | _ => raise (PyreadrError "df must be a pandas data frame")
  end.

(** ** What the orchestrator is expected to deliver *)

(** The calls the Writer sees of a planned sequence [cs] after the calls
    [hist]: up to and including the first call it refuses. *)
Fixpoint issue (hist : list call) (cs : list call) : list call :=
  match cs with
  | [] => []
  | c :: cs' =>
      match writer hist c with
      | None => c :: issue (hist ++ [c]) cs'
      | Some _ => [c]
      end
  end.

(** The exception of the first call of [cs] that the Writer refuses
    after the calls [hist], if it refuses one. *)
Fixpoint refusal (hist : list call) (cs : list call) : option exn :=
  match cs with
  | [] => None
  | c :: cs' =>
      match writer hist c with
      | None => refusal (hist ++ [c]) cs'
      | Some e => Some e
      end
  end.

(** How a run ends: with the Writer's exception if it refused a call,
    else with the exception raised in between, else normally. *)
Definition verdict (refused inner : option exn) : outcome unit :=
  match refused, inner with
  | Some e, _ => Raise e
  | None, Some e => Raise e
  | None, None => Ok tt
  end.

(** [m] issues the calls [cs] in order, as far as the Writer accepts
    them, raises [inner] after them if given, and keeps the buffers of
    [h0]. *)
Definition issues (h0 : gmap loc (list value)) (m : M unit)
    (cs : list call) (inner : option exn) : Prop :=
  ∀ w, h0 ⊆ heap w →
    ∃ w', m w = (verdict (refusal (calls w) cs) inner, w') ∧
          h0 ⊆ heap w' ∧
          calls w' = calls w ++ issue (calls w) cs.

(** What [loc[pd.isna(series)] = librdata_min_integer] leaves in a
    cell. *)
Definition fill_missing (x : value) : value :=
  if isna x then VInt I_py librdata_min_integer else x.

(** The dtype and the values of a column of dtype [d] and values [vs]
    tagged [dtype], as the transformer leaves them: [transform_data] read
    as a function on the values. *)
Definition transform_values (d : pd_dtype) (vs : list value)
    (dtype : string) (has_missing : bool)
    (dateformat datetimeformat : string)
    : outcome (pd_dtype * list value) :=
  let format (fmt : string) (x : value) :=
    if notnull x then t ← py_strftime x fmt; Ok (VStr t) else Ok x in
  if bool_decide (dtype = "INTEGER") || bool_decide (dtype = "LOGICAL") then
    filled ← (if has_missing then assigned d vs (map fill_missing vs)
              else Ok (d, vs));
    tvs ← traverse int32_of filled.2;
    Ok (Plain N_int32, tvs)
  else if bool_decide (dtype = "NUMERIC") || bool_decide (dtype = "CHARACTER")
  then Ok (d, vs)
  else if bool_decide (dtype = "OBJECT") then
    new ← traverse (fun x => if notnull x then Ok (VStr (py_str x))
                             else Ok x) vs;
    assigned d vs new
  else if bool_decide (dtype = "DATE") then
    new ← traverse (format dateformat) vs;
    assigned d vs new
  else if bool_decide (dtype = "DATETIME") then
    new ← traverse (format datetimeformat) vs;
    assigned d vs new
  else Raise (PyreadrError "Unkown pyreadr data type").

(** The values of a column handed to [insert_value]. *)
Definition deliver (d : pd_dtype) (vs : list value) (dtype : string)
    (has_missing : bool) (dateformat datetimeformat : string)
    : outcome (list value) :=
  t ← transform_values d vs dtype has_missing dateformat datetimeformat;
  Ok (map (to_python t.1) t.2).

(** The values of column [c], at position [indx], handed to
    [insert_value]; an exception if the transformer raises. *)
Definition column_delivery (h : gmap loc (list value))
    (pyreadr_types : odict) (hasmissing : list bool)
    (dateformat datetimeformat : string) (indx : nat) (c : column)
    : outcome (list value) :=
  dtype ← od_get (col_name c) pyreadr_types;
  has_missing ← list_getitem hasmissing indx;
  deliver (col_dtype c) (buffer h (col_data c)) dtype has_missing
          dateformat datetimeformat.

(** The delivered values of the columns [cols], the first of which has
    position [indx], up to the first column whose transformation
    raises, and that exception. *)
Fixpoint deliver_columns (h : gmap loc (list value))
    (pyreadr_types : odict) (hasmissing : list bool)
    (dateformat datetimeformat : string) (indx : nat) (cols : list column)
    : list (list value) * option exn :=
  match cols with
  | [] => ([], None)
  | c :: cols' =>
      match column_delivery h pyreadr_types hasmissing
              dateformat datetimeformat indx c with
      | Ok tv =>
          let rest := deliver_columns h pyreadr_types hasmissing
                        dateformat datetimeformat (S indx) cols' in
          (tv :: rest.1, rest.2)
      | Raise e => ([], Some e)
      end
  end.

(** The storage primitive of a tag; no primitive for an unknown tag. *)
Definition primitive (tag : string) : string :=
  match od_get tag pyreadr_to_librdata_types with
  | Ok p => p
  | Raise _ => ""
  end.

(** The storage primitive of a column, from the classifier's tags. *)
Definition primitive_of (pyreadr_types : odict) (c : column) : string :=
  match
    dtype ← od_get (col_name c) pyreadr_types;
    od_get dtype pyreadr_to_librdata_types
  with
  | Ok p => p
  | Raise _ => ""
  end.

(** Opening and schema declaration. *)
Definition schema_calls (path file_format : string) (df : DataFrame)
    (df_name : pyarg) (pyreadr_types : odict) : list call :=
  [c_open path file_format; c_set_row_count (df_nrows df);
   c_set_table_name df_name]
  ++ map (fun c => c_add_column (col_name c) (primitive_of pyreadr_types c))
         (df_columns df).

(** The insertions of one column: one per row, rows counted from 0. *)
Definition column_cells (indx : nat) (prim : string) (tv : list value)
    : list call :=
  imap (fun row_indx val => c_insert_value row_indx indx val prim) tv.

(** The insertions of the columns [cols] with delivered values [tcols],
    column positions counted from [indx]. *)
Fixpoint cell_calls (pyreadr_types : odict) (indx : nat)
    (cols : list column) (tcols : list (list value)) : list call :=
  match cols, tcols with
  | c :: cols', tv :: tcols' =>
      column_cells indx (primitive_of pyreadr_types c) tv
      ++ cell_calls pyreadr_types (S indx) cols' tcols'
  | _, _ => []
  end.

(** [m] keeps the buffers of [h0]: from a world that holds them it
    ends, returning or raising, in a world that holds them, and what it
    returns satisfies [Q]. *)
Definition keeps {A} (h0 : gmap loc (list value)) (m : M A)
    (Q : A → Prop) : Prop :=
  ∀ w, h0 ⊆ heap w →
    ∃ r w', m w = (r, w') ∧ h0 ⊆ heap w' ∧ ∀ a, r = Ok a → Q a.

(** A frame as pandas builds it: unique column labels, every column's
    buffer allocated and of the frame's row count. *)
Definition frame_wf (h : gmap loc (list value)) (df : DataFrame) : Prop :=
  NoDup (map col_name (df_columns df)) ∧
  Forall (fun c => ∃ vs, h !! col_data c = Some vs ∧
                         length vs = df_nrows df) (df_columns df).

(** The seven semantic tags. *)
Definition semantic_tags : list string :=
  ["INTEGER"; "NUMERIC"; "LOGICAL"; "CHARACTER"; "OBJECT"; "DATE";
   "DATETIME"].

(** Declared element types whose columns the classifier tags without
    looking at the values. *)
Definition declared_numeric (t : pd_dtype) : bool :=
  match t with
  | Plain d | Categorical d _ =>
      py_in (Dt d) int_types || py_in (Dt d) float_types
      || eq_np_bool (Dt d)
  end.

(** The number an integer or boolean element stands for. *)
Definition int_value (x : value) : Z :=
  match x with
  | VInt _ z => z
  | VBool b => if b then 1 else 0
  | _ => 0
  end.

(** The narrow integer classes of [int_types]. *)
Definition narrow_classes : list int_class :=
  [I_int32; I_int16; I_int8; I_uint8; I_uint16].

(** An element that [astype(np.int32)] represents exactly. *)
Definition fits_int32 (x : value) : bool :=
  match x with
  | VInt _ z => bool_decide (int32_min ≤ z ≤ int32_max)%Z
  | VBool _ => true
  | _ => false
  end.

(** What a run of the transformer guarantees, whatever it returns: no
    Writer call, no write outside the series' own buffer and fresh
    buffers; and the result is the one [transform_values] describes. *)
Definition transformer_post (s : Series) (w : world)
    (expected : outcome (pd_dtype * list value))
    (r : outcome Series) (w' : world) : Prop :=
  calls w' = calls w ∧
  (∀ h0 : gmap loc (list value),
     h0 ⊆ heap w → h0 !! s_data s = None → h0 ⊆ heap w') ∧
  match expected with
  | Ok (d, tvs) =>
      ∃ t, r = Ok t ∧ buffer (heap w') (s_data t) = tvs ∧ s_dtype t = d ∧
           (∀ h0 : gmap loc (list value),
              h0 ⊆ heap w → h0 !! s_data s = None → h0 !! s_data t = None)
  | Raise e => r = Raise e
  end.

(** ** Notions used in the further properties *)

(** The numpy dtype the classifier works with: the declared one, or the
    materialised one of a categorical column. *)
Definition working_dtype (t : pd_dtype) : npdtype :=
  match t with
  | Plain d | Categorical d _ => d
  end.

(** Whether the classifier looks at the values of a column of dtype [t]:
    only for datetime64[ns] and object. *)
Definition reads_values (t : pd_dtype) : bool :=
  eq_datetime64 (Dt (working_dtype t)) || eq_np_object (Dt (working_dtype t)).

(** The tag of a column whose values the classifier does not look at. *)
Definition declared_tag (d : npdtype) : string :=
  if py_in (Dt d) int_types then "INTEGER"
  else if py_in (Dt d) float_types then "NUMERIC"
  else if eq_np_bool (Dt d) then "LOGICAL"
  else "OBJECT".

(** Whether [np.all] gets an array of booleans from [col.apply] on a
    series of the declared dtype, for the reference class [curtype]:
    always, but for a categorical whose categories have distinct
    images. *)
Definition apply_gives_array (declared : pd_dtype) (curtype : pytype)
    : bool :=
  match declared with
  | Categorical _ categories =>
      negb (bool_decide
              (NoDup (map (fun x => bool_decide (type_of x = curtype))
                          categories)))
  | Plain _ => true
  end.

(** The values of an object column of the declared dtype that the
    classifier gets through: there is a row, and either every row is
    missing, or the first row is present and [np.all] gets an array. *)
Definition classifiable (declared : pd_dtype) (vs : list value) : bool :=
  match vs with
  | [] => false
  | x :: rest =>
      if isna x then forallb isna rest
      else apply_gives_array declared (type_of x)
  end.

(** The calls [write_r] sets out to make for a frame classified as
    [pyreadr_types], [hasmissing]: opening and schema, the cells of the
    columns up to the first one the transformer raises on, and close if
    it raises on none. *)
Definition planned_calls (h : gmap loc (list value))
    (path file_format : string) (df : DataFrame) (df_name : pyarg)
    (pyreadr_types : odict) (hasmissing : list bool)
    (dateformat datetimeformat : string) : list call :=
  let delivered := deliver_columns h pyreadr_types hasmissing dateformat
                     datetimeformat 0 (df_columns df) in
  schema_calls path file_format df df_name pyreadr_types
  ++ cell_calls pyreadr_types 0 (df_columns df) delivered.1
  ++ match delivered.2 with None => [c_close] | Some _ => [] end.

(** What a value handed to [insert_value] looks like, by the dtype and
    the tag of its column: under INTEGER and LOGICAL a Python integer of
    32 bits; under OBJECT, DATE and DATETIME, for a column of dtype
    object, text or a missing marker. *)
Definition fits_tag (d : pd_dtype) (tag : string) (val : value) : Prop :=
  (tag ∈ ["INTEGER"; "LOGICAL"] →
   ∃ z, val = VInt I_py z ∧ (int32_min ≤ z ≤ int32_max)%Z) ∧
  (tag ∈ ["OBJECT"; "DATE"; "DATETIME"] → d = Plain N_object →
   isna val = true ∨ ∃ s, val = VStr s).

(** ** The read entry points *)

Section Reader.

(** The data frames the parser builds and the entries of its object
    list. *)
Variable frame_read : Type.
Variable object_info : Type.

(** [os.path.isfile] *)
Variable os_isfile : string → bool.

(** The native parsers: given the calls made so far and the next call,
    the exception raised, if any. *)
Variable parser : list pcall → pcall → option exn.
Variable objects_parser : list pcall → pcall → option exn.

(** [parser.table_data] after the calls made: each table's name and what
    [convert_to_pandas_dataframe] gives for it. *)
Variable table_data : list pcall → list (string * outcome frame_read).

(** [parser.object_list] after the calls made. *)
Variable object_list : list pcall → list object_info.

(** A call of a parser method: logged, then accepted or refused. *)
Definition p_invoke (oracle : list pcall → pcall → option exn) (c : pcall)
    : PM unit := fun log =>
  match oracle log c with
  | None => (Ok tt, log ++ [c])
  | Some e => (Raise e, log ++ [c])
  end.

(** The loop [result[table.name] = table.convert_to_pandas_dataframe()]. *)
Fixpoint collect_tables (tables : list (string * outcome frame_read))
    (result : list (string * frame_read))
    : outcome (list (string * frame_read)) :=
  match tables with
  | [] => Ok result
  | (name, converted) :: tables' =>
      frame ← converted;
      collect_tables tables' (dict_set name frame result)
  end.

(** [bool(use_objects)] and [bool(timezone)]: the options are [None],
    which is also their default, or a list of names and a name. *)
Definition truthy_names (use_objects : option (list string)) : bool :=
  match use_objects with
  | Some (_ :: _) => true
  | _ => false
  end.

Definition truthy_name (timezone : option string) : bool :=
  match timezone with
  | Some tz => negb (bool_decide (tz = ""))
  | None => false
  end.

(** [read_r]; the parser is new, so the computation starts from the
    empty log. *)
Definition read_r (path : pyarg) (use_objects : option (list string))
    (timezone : option string) : PM (list (string * frame_read)) :=
  (if truthy_names use_objects
   then p_invoke parser (p_set_use_objects (default [] use_objects))
   else mret tt) ;;
  (if truthy_name timezone
   then p_invoke parser (p_set_timezone (default "" timezone))
   else mret tt) ;;
  match path with
  | AStr p =>
      let p := expanduser p in
      if negb (os_isfile p)
      then p_raise (PyreadrError ("File " +:+ p +:+ " does not exist!"))
      else
        p_invoke parser (p_parse p) ;;
        tables ← p_read table_data;
        p_lift (collect_tables tables [])
  | _ => p_raise (PyreadrError "path must be a string!")
  end.

(** [list_objects] *)
Definition list_objects (path : pyarg) : PM (list object_info) :=
  match path with
  | AStr p =>
      let p := expanduser p in
      if negb (os_isfile p)
      then p_raise (PyreadrError ("File " +:+ p +:+ " does not exist!"))
      else
        p_invoke objects_parser (p_parse p) ;;
        p_read object_list
  | _ => p_raise (PyreadrError "path must be a string!")
  end.

(** The calls by which [read_r] passes its options on. *)
Definition option_calls (use_objects : option (list string))
    (timezone : option string) : list pcall :=
  (if truthy_names use_objects
   then [p_set_use_objects (default [] use_objects)] else [])
  ++ (if truthy_name timezone
      then [p_set_timezone (default "" timezone)] else []).

End Reader.

(** ** Sample tables *)

(** A frame of zero rows with one object column. *)
Definition empty_heap : gmap loc (list value) := {[ 0 := [] ]}.
Definition empty_frame : DataFrame :=
  Frame 0 [Column "x" (Plain N_object) 0].

(** An object column [None, "a"]. *)
Definition late_heap : gmap loc (list value) :=
  {[ 0 := [VNone; VStr "a"] ]}.
Definition late_frame : DataFrame :=
  Frame 2 [Column "x" (Plain N_object) 0].

(** A float64 column [1.5, NaN] next to an int32 column [7, 8]. *)
Definition numeric_heap : gmap loc (list value) :=
  {[ 0 := [VFloat (FNum 3 (-1)); VFloat FNaN];
     1 := [VInt I_int32 7; VInt I_int32 8] ]}.
Definition numeric_frame : DataFrame :=
  Frame 2 [Column "f" (Plain N_float64) 0; Column "i" (Plain N_int32) 1].

(** The object column [1, None, 3] whose integers are of the narrow
    class [c]. *)
Definition case1_heap (c : int_class) : gmap loc (list value) :=
  {[ 0 := [VInt c 1; VNone; VInt c 3] ]}.
Definition case1_frame : DataFrame :=
  Frame 3 [Column "x" (Plain N_object) 0].

(** An object column [None, None]. *)
Definition blank_heap : gmap loc (list value) :=
  {[ 0 := [VNone; VNone] ]}.
Definition blank_frame : DataFrame :=
  Frame 2 [Column "x" (Plain N_object) 0].

(** A categorical column ["a", "a"] with the one category "a". *)
Definition category_heap : gmap loc (list value) :=
  {[ 0 := [VStr "a"; VStr "a"] ]}.
Definition category_frame : DataFrame :=
  Frame 2 [Column "x" (Categorical N_object [VStr "a"]) 0].

(** An object column [date(2020, 1, 2), None]. *)
Definition dates_heap : gmap loc (list value) :=
  {[ 0 := [VDate 2020 1 2; VNone] ]}.
Definition dates_frame : DataFrame :=
  Frame 2 [Column "d" (Plain N_object) 0].

(** A datetime64[ns] column [2020-01-02 03:04:05, NaT]. *)
Definition stamp_heap : gmap loc (list value) :=
  {[ 0 := [VDatetime 2020 1 2 3 4 5; VNaT] ]}.
Definition stamp_frame : DataFrame :=
  Frame 2 [Column "t" (Plain N_datetime64ns) 0].

(** * Properties *)

(** ** Ordered dictionaries *)

Lemma od_set_fresh k v (d : odict) :
  k ∉ d.*1 → od_set k v d = d ++ [(k, v)].
Proof.
  induction d as [|[k' v'] d IH]; simpl; intros Hk; [done|].
  apply not_elem_of_cons in Hk as [Hne Hk].
  case_decide; [congruence|]. by rewrite IH.
Qed.

Lemma od_get_app_fresh k (d1 d2 : odict) :
  k ∉ d1.*1 → od_get k (d1 ++ d2) = od_get k d2.
Proof.
  induction d1 as [|[k' v'] d1 IH]; simpl; intros Hk; [done|].
  apply not_elem_of_cons in Hk as [Hne Hk].
  case_decide; [congruence|]. by apply IH.
Qed.

Lemma od_get_elem k v (d : odict) :
  NoDup d.*1 → (k, v) ∈ d → od_get k d = Ok v.
Proof.
  induction d as [|[k' v'] d IH]; simpl; intros Hnd Hin.
  - by apply elem_of_nil in Hin.
  - apply NoDup_cons in Hnd as [Hk' Hnd].
    apply elem_of_cons in Hin as [Heq|Hin].
    + inversion Heq; subst. by rewrite decide_True.
    + case_decide as Hk; [|by apply IH].
      subst k'. exfalso. apply Hk'.
      apply list_elem_of_fmap. by exists (k, v).
Qed.

(** ** The classifier's loop *)

Lemma classify_loop_eq h df cols : ∀ indx result pre post,
  length pre = indx →
  classify_loop h df indx cols result
    (pre ++ replicate (length cols) false ++ post) =
  (tbs ← traverse (fun nc => column_type h df nc.1 nc.2) cols;
   Ok (foldl (fun d x => od_set x.1.1 x.2.1 d) result (zip cols tbs),
       pre ++ tbs.*2 ++ post)).
Proof.
  induction cols as [|[name ty] cols IH]; intros indx result pre post Hlen.
  - done.
  - cbn [classify_loop traverse length replicate fst snd].
    destruct (column_type h df name ty) as [[tag missing]|e]; [|done].
    cbn [mbind outcome_bind].
    assert ((if missing
             then <[indx:=true]> (pre ++ (false :: replicate (length cols) false) ++ post)
             else pre ++ (false :: replicate (length cols) false) ++ post)
            = (pre ++ [missing]) ++ replicate (length cols) false ++ post)
      as ->.
    { rewrite <- app_assoc. destruct missing; [|done].
      rewrite insert_app_r_alt by lia.
      by replace (indx - length pre) with 0 by lia. }
    rewrite (IH (S indx)) by (rewrite length_app; simpl; lia).
    destruct (traverse _ cols) as [tbs|e]; [|done].
    cbn. by rewrite <- !app_assoc.
Qed.

Lemma get_pyreadr_column_types_eq h df :
  get_pyreadr_column_types h df =
  (tbs ← traverse (fun c => column_type h df (col_name c) (col_dtype c))
                  (df_columns df);
   Ok (foldl (fun d x => od_set (col_name x.1) x.2.1 d) []
             (zip (df_columns df) tbs),
       tbs.*2)).
Proof.
  unfold get_pyreadr_column_types.
  pose proof (classify_loop_eq h df
    (zip (map col_name (df_columns df)) (map col_dtype (df_columns df)))
    0 [] [] [] eq_refl) as Heq.
  rewrite length_zip, !length_map, Nat.min_id, app_nil_r in Heq.
  cbn [app] in Heq. cbv zeta. rewrite length_map, Heq. clear Heq.
  generalize (@nil (string * string)).
  induction (df_columns df) as [|c cols IH]; intros acc; [done|].
  cbn [map zip zip_with traverse fst snd].
  destruct (column_type h df (col_name c) (col_dtype c)) as [tb|e]; [|done].
  cbn [mbind outcome_bind].
  specialize (IH (od_set (col_name c) tb.1 acc)).
  destruct (traverse _ (zip _ _)) as [tbs|e],
           (traverse _ cols) as [tbs'|e']; cbn in *; congruence.
Qed.

Lemma traverse_lookup {A B} (f : A → outcome B) xs ys i x :
  traverse f xs = Ok ys → xs !! i = Some x →
  ∃ y, ys !! i = Some y ∧ f x = Ok y.
Proof.
  revert ys i. induction xs as [|x' xs IH]; intros ys i Htr Hx; [done|].
  cbn in Htr. destruct (f x') as [y'|] eqn:Hfx; [|done].
  destruct (traverse f xs) as [ys'|]; [|done].
  cbn in Htr. inversion Htr; subst.
  destruct i as [|i]; cbn in *.
  - inversion Hx; subst. eauto.
  - eauto.
Qed.

Lemma traverse_length {A B} (f : A → outcome B) xs ys :
  traverse f xs = Ok ys → length ys = length xs.
Proof.
  revert ys. induction xs as [|x xs IH]; intros ys Htr; cbn in Htr.
  - by inversion Htr.
  - destruct (f x); [|done]. destruct (traverse f xs) as [ys'|]; [|done].
    cbn in Htr. inversion Htr; subst. cbn. by rewrite (IH ys').
Qed.

(** A label absent from the index is a [KeyError]. *)
Lemma series_getitem_absent rows key :
  Forall (fun r => r.1 ≠ key) rows → series_getitem rows key = Raise KeyError.
Proof.
  unfold series_getitem. induction 1 as [|r rows Hr _ IH]; [done|].
  cbn. destruct (Nat.eqb_spec r.1 key); [done|]. apply IH.
Qed.

Lemma dropna_labels rows (P : nat → Prop) :
  Forall (fun r => P r.1) rows → Forall (fun r => P r.1) (dropna rows).
Proof.
  unfold dropna. induction 1 as [|r rows Hr _ IH]; cbn; [done|].
  destruct (notnull r.2); [by constructor|done].
Qed.

Lemma zip_seq_labels {A} (vs : list A) (start n : nat) :
  Forall (fun r => (start ≤ r.1)%nat) (zip (seq start n) vs).
Proof.
  revert start vs. induction n as [|n IH]; intros start [|v vs]; cbn;
    try by constructor.
  constructor; [cbn; lia|].
  eapply Forall_impl; [apply (IH (S start))|]. cbn. lia.
Qed.

(** A column of a declared numeric or boolean type is tagged from the
    type alone and never flagged as having missing values. *)
Lemma column_type_declared_numeric h df c :
  c ∈ df_columns df →
  declared_numeric (col_dtype c) = true →
  ∃ tag, column_type h df (col_name c) (col_dtype c) = Ok (tag, false) ∧
         tag ∈ ["INTEGER"; "NUMERIC"; "LOGICAL"].
Proof.
  intros Hin Hnum. unfold column_type.
  assert (∃ s, df_getitem df (col_name c) = Ok s) as [s Hs].
  { unfold df_getitem.
    destruct (find _ (df_columns df)) as [c'|] eqn:Hfind; [eauto|].
    exfalso. apply list_elem_of_In in Hin.
    eapply find_none in Hfind; [|exact Hin].
    cbn in Hfind. by rewrite bool_decide_eq_true_2 in Hfind. }
  destruct (col_dtype c) as [d|d]; cbn in Hnum |- *; rewrite ?Hs; cbn;
    destruct (py_in (Dt d) int_types); cbn in *;
    try (eexists; split; [reflexivity|set_solver]);
    destruct (py_in (Dt d) float_types); cbn in *;
    try (eexists; split; [reflexivity|set_solver]);
    rewrite Hnum; eexists; (split; [reflexivity|set_solver]).
Qed.

(** Every tag the classifier assigns is one of the seven. *)
Lemma tag_of_curtype_semantic t : tag_of_curtype t ∈ semantic_tags.
Proof.
  unfold tag_of_curtype, semantic_tags.
  repeat (match goal with |- context [if ?b then _ else _] => destruct b end;
          [set_solver|]).
  set_solver.
Qed.

Lemma column_type_semantic h df name ty tag b :
  column_type h df name ty = Ok (tag, b) → tag ∈ semantic_tags.
Proof.
  clear writer py_str py_strftime py_int int32_overflow expanduser
    pd_setitem tolist_item.
  unfold column_type, object_column_type, mbind, outcome_bind. intros H.
  repeat (first [ progress simplify_eq | case_match ]);
    try (unfold semantic_tags; set_solver); apply tag_of_curtype_semantic.
Qed.

(** ** The mapper *)

Lemma od_get_semantic tag :
  tag ∈ semantic_tags →
  od_get tag pyreadr_to_librdata_types = Ok (primitive tag) ∧
  primitive tag ∈ ["INTEGER"; "NUMERIC"; "LOGICAL"; "CHARACTER"].
Proof.
  unfold semantic_tags. intros Hin.
  repeat (apply elem_of_cons in Hin as [->|Hin]; [split; [done|set_solver]|]).
  by apply elem_of_nil in Hin.
Qed.

Lemma od_get_unknown tag :
  tag ∉ semantic_tags →
  od_get tag pyreadr_to_librdata_types = Raise KeyError.
Proof.
  unfold semantic_tags, pyreadr_to_librdata_types. intros Hin. cbn.
  repeat (case_decide; [subst; exfalso; apply Hin; set_solver|]). done.
Qed.

Lemma map_types_loop_ok pairs : ∀ acc,
  Forall (fun kv => kv.2 ∈ semantic_tags) pairs →
  map_types_loop pairs acc =
  Ok (foldl (fun d kv => od_set kv.1 (primitive kv.2) d) acc pairs).
Proof.
  induction pairs as [|[k v] pairs IH]; intros acc Hall; [done|].
  apply Forall_cons in Hall as [Hv Hall]. cbn [map_types_loop].
  destruct (od_get_semantic v Hv) as [-> _]. cbn. by apply IH.
Qed.

Lemma map_types_loop_raise pairs : ∀ acc,
  Exists (fun kv => kv.2 ∉ semantic_tags) pairs →
  map_types_loop pairs acc = Raise KeyError.
Proof.
  induction pairs as [|[k v] pairs IH]; intros acc Hex.
  - by apply Exists_nil in Hex.
  - cbn [map_types_loop]. destruct (decide (v ∈ semantic_tags)) as [Hv|Hv].
    + destruct (od_get_semantic v Hv) as [-> _]. cbn. apply IH.
      apply Exists_cons in Hex as [Hex|Hex]; [done|exact Hex].
    + by rewrite (od_get_unknown v Hv).
Qed.

(** ** The classifier on object columns *)

Lemma df_getitem_zero_rows h df name s :
  df_nrows df = 0 → df_getitem df name = Ok s → items h s = [].
Proof.
  unfold df_getitem, items. intros Hrows Hs.
  destruct (find _ _); [|done]. inversion Hs; subst; cbn.
  by rewrite Hrows.
Qed.

Lemma column_type_object h df name s :
  df_getitem df name = Ok s →
  column_type h df name (Plain N_object)
  = object_column_type (Plain N_object) (items h s).
Proof. intros Hs. unfold column_type. cbn. by rewrite Hs. Qed.

Lemma np_all_equal_array declared curtype rows :
  apply_gives_array declared curtype = true →
  np_all_equal declared curtype rows = Ok (all_of_type curtype rows).
Proof.
  destruct declared as [d|d categories]; cbn; [done|].
  intros Harr. by destruct (bool_decide (NoDup _)).
Qed.

Lemma np_all_equal_categorical declared curtype rows :
  apply_gives_array declared curtype = false →
  np_all_equal declared curtype rows = Raise TypeError.
Proof.
  destruct declared as [d|d categories]; cbn; [done|].
  intros Harr. by destruct (bool_decide (NoDup _)).
Qed.

(** A zero-row object column: [pd.isna] finds nothing missing, and
    [df[col_name][0]] has no row to return. *)
Lemma column_type_object_zero_rows h df name s :
  df_nrows df = 0 → df_getitem df name = Ok s →
  column_type h df name (Plain N_object) = Raise KeyError.
Proof.
  intros Hrows Hs. rewrite (column_type_object h df name s Hs).
  by rewrite (df_getitem_zero_rows h df name s Hrows Hs).
Qed.

(** An object column whose first row is missing but not all rows are:
    after [dropna] no row is labelled 0, and [col[0]] raises. *)
Lemma object_column_type_first_missing declared x rows :
  isna x = true →
  Forall (fun r : nat * value => (1 ≤ r.1)%nat) rows →
  existsb (fun r => notnull r.2) rows = true →
  object_column_type declared ((0, x) :: rows) = Raise KeyError.
Proof.
  intros Hx Hlabels Hsome. unfold object_column_type.
  cbn [map existsb snd id]. rewrite Hx. cbn [orb].
  assert (dropna ((0, x) :: rows) = dropna rows) as ->.
  { unfold dropna, notnull. cbn. by rewrite Hx. }
  assert (dropna rows ≠ []) as Hne.
  { unfold dropna. clear -Hsome.
    induction rows as [|r rows IH]; cbn in *; [done|].
    destruct (notnull r.2); [done|]. by apply IH. }
  rewrite series_getitem_absent.
  - by destruct (dropna rows).
  - eapply Forall_impl; [apply dropna_labels, Hlabels|]. cbn. lia.
Qed.

(** An object column whose first row is present: the reference type is
    that row's, the column is homogeneous when every remaining
    non-missing entry has the same type, and the flag tells whether a
    later row is missing. *)
Lemma object_column_type_first_present declared x rows :
  isna x = false →
  apply_gives_array declared (type_of x) = true →
  object_column_type declared ((0, x) :: rows) =
  Ok (if all_of_type (type_of x) (dropna rows)
      then tag_of_curtype (type_of x) else "OBJECT",
      existsb id (map (fun r : nat * value => isna r.2) rows)).
Proof.
  intros Hx Harr. unfold object_column_type.
  cbn [map existsb snd id]. rewrite Hx. cbn [orb].
  assert (dropna ((0, x) :: rows) = (0, x) :: dropna rows) as Hdrop.
  { unfold dropna, notnull. cbn. by rewrite Hx. }
  assert (∀ rest, all_of_type (type_of x) ((0, x) :: rest)
                  = all_of_type (type_of x) rest) as Hall.
  { intros rest. unfold all_of_type. cbn.
    by rewrite bool_decide_eq_true_2. }
  destruct (existsb id (map _ rows)) eqn:Hmiss.
  - rewrite Hdrop. cbn [length Nat.eqb negb series_getitem List.find fst snd].
    cbn [mbind outcome_bind].
    rewrite (np_all_equal_array _ _ _ Harr). cbn [mbind outcome_bind].
    rewrite Hall. by destruct (all_of_type _ _).
  - cbn [series_getitem List.find fst snd Nat.eqb mbind outcome_bind].
    rewrite (np_all_equal_array _ _ _ Harr). cbn [mbind outcome_bind].
    rewrite Hall.
    assert (dropna rows = rows) as ->; [|by destruct (all_of_type _ _)].
    clear -Hmiss. unfold dropna, notnull.
    induction rows as [|r rows IH]; cbn in *; [done|].
    apply orb_false_elim in Hmiss as [Hr Hmiss]. unfold id in Hr.
    rewrite Hr. cbn. by rewrite IH.
Qed.

(** An object column whose first row is present, of a categorical dtype
    whose categories have distinct images: [np.all] raises. *)
Lemma object_column_type_first_present_categorical declared x rows :
  isna x = false →
  apply_gives_array declared (type_of x) = false →
  object_column_type declared ((0, x) :: rows) = Raise TypeError.
Proof.
  intros Hx Harr. unfold object_column_type.
  cbn [map existsb snd id]. rewrite Hx. cbn [orb].
  assert (dropna ((0, x) :: rows) = (0, x) :: dropna rows) as Hdrop.
  { unfold dropna, notnull. cbn. by rewrite Hx. }
  destruct (existsb id (map _ rows)) eqn:Hmiss.
  - rewrite Hdrop. cbn [length Nat.eqb negb series_getitem List.find fst snd].
    cbn [mbind outcome_bind].
    by rewrite (np_all_equal_categorical _ _ _ Harr).
  - cbn [series_getitem List.find fst snd Nat.eqb mbind outcome_bind].
    by rewrite (np_all_equal_categorical _ _ _ Harr).
Qed.

(** The rows of a frame's column are labelled [0, 1, ...]. *)
Lemma items_labels h df name s x rows :
  df_getitem df name = Ok s →
  items h s = (0, x) :: rows →
  Forall (fun r : nat * value => (1 ≤ r.1)%nat) rows.
Proof.
  unfold items, df_getitem. intros Hs Hitems.
  destruct (find _ _); [|done].
  inversion Hs; subst; cbn in *.
  destruct (df_nrows df) as [|n]; [done|]. cbn in Hitems.
  destruct (buffer h _) as [|v vs]; [done|].
  inversion Hitems; subst. apply zip_seq_labels.
Qed.

(** ** Running computations *)

Lemma run_bind {A B} (m : M A) (f : A → M B) w :
  (m ≫= f) w = match m w with
               | (Ok a, w') => f a w'
               | (Raise e, w') => (Raise e, w')
               end.
Proof. reflexivity. Qed.

Lemma run_ret {A} (a : A) w : (mret a : M A) w = (Ok a, w).
Proof. reflexivity. Qed.

(** When classification raises, the write raises the same exception
    and the world is as before: nothing was copied, no Writer method
    was called. *)
Lemma write_r_classification_raises path file_format df df_name
    dateformat datetimeformat w e :
  get_pyreadr_column_types (heap w) df = Raise e →
  write_r path file_format df df_name dateformat datetimeformat w
  = (Raise e, w).
Proof.
  intros Hraise. unfold write_r, get_heap, lift.
  rewrite run_bind, run_bind. by rewrite Hraise.
Qed.

(** ** Classification of zero-row and first-row-missing columns *)

(** C1.  The specification asks that a zero-row object column be tagged
    LOGICAL with has-missing False and an empty transformed sequence.
    The code does not get there: for a frame of zero rows whose only
    column is object-typed, [np.any] of the empty mask is False, the
    branch without missing values evaluates [df[col_name][0]], and the
    classifier raises [KeyError]; the write raises with it, before any
    value is transformed and before any Writer call. *)
Theorem zero_row_object_column_raises (w : world) (name : string) (l : loc)
    (path file_format : string) (df_name : pyarg)
    (dateformat datetimeformat : string) :
  let df := Frame 0 [Column name (Plain N_object) l] in
  column_type (heap w) df name (Plain N_object) = Raise KeyError ∧
  get_pyreadr_column_types (heap w) df = Raise KeyError ∧
  write_r path file_format df df_name dateformat datetimeformat w
  = (Raise KeyError, w).
Proof.
  intros df.
  assert (∃ s, df_getitem df name = Ok s) as [s Hs].
  { unfold df_getitem, df. cbn. rewrite bool_decide_eq_true_2 by done.
    eauto. }
  assert (column_type (heap w) df name (Plain N_object) = Raise KeyError)
    as Hcol by (by apply (column_type_object_zero_rows _ df name s)).
  assert (get_pyreadr_column_types (heap w) df = Raise KeyError) as Hall.
  { rewrite get_pyreadr_column_types_eq.
    change (df_columns df) with [Column name (Plain N_object) l].
    cbn [traverse col_name col_dtype]. by rewrite Hcol. }
  split_and!; [done|done|].
  by apply write_r_classification_raises.
Qed.

(** C2.  The specification takes the reference runtime type from the
    first non-missing entry wherever the missing entries are.  The code
    drops the missing rows and then reads [col[0]], the row LABELLED 0:
    for the object column [None, s, ...] that row was dropped, and the
    classifier raises [KeyError] instead of taking [str] from the
    second row. *)
Theorem first_row_missing_raises (name : string) (l : loc) (s : string)
    (rest : list value) :
  let h : gmap loc (list value) := {[ l := VNone :: VStr s :: rest ]} in
  let df := Frame (2 + length rest) [Column name (Plain N_object) l] in
  hd_error (dropna (zip (seq 0 (df_nrows df)) (buffer h l)))
    = Some (1, VStr s) ∧
  column_type h df name (Plain N_object) = Raise KeyError ∧
  get_pyreadr_column_types h df = Raise KeyError.
Proof.
  intros h df.
  assert (buffer h l = VNone :: VStr s :: rest) as Hbuf.
  { unfold buffer, h. by rewrite lookup_singleton_eq. }
  assert (∃ sr, df_getitem df name = Ok sr ∧
                items h sr = (0, VNone) :: (1, VStr s) :: zip (seq 2 (length rest)) rest)
    as (sr & Hs & Hitems).
  { unfold df_getitem, df. cbn [df_columns find col_name].
    rewrite bool_decide_eq_true_2 by done.
    eexists. split; [reflexivity|]. unfold items. cbn [s_index s_data col_data df_nrows].
    by rewrite Hbuf. }
  assert (column_type h df name (Plain N_object) = Raise KeyError) as Hcol.
  { rewrite (column_type_object h df name sr Hs), Hitems.
    apply object_column_type_first_missing; [done| |done].
    constructor; [cbn; lia|].
    eapply Forall_impl; [apply zip_seq_labels|]. cbn. lia. }
  split_and!.
  - rewrite Hbuf. done.
  - done.
  - rewrite get_pyreadr_column_types_eq.
    change (df_columns df) with [Column name (Plain N_object) l].
    cbn [traverse col_name col_dtype]. by rewrite Hcol.
Qed.

(** An object column with rows, all of them missing, falls back to
    LOGICAL. *)
Lemma object_column_type_all_missing declared r rows :
  forallb (fun r => isna r.2) (r :: rows) = true →
  object_column_type declared (r :: rows) = Ok ("LOGICAL", true).
Proof.
  intros Hall. unfold object_column_type.
  assert (existsb id (map (fun r : nat * value => isna r.2) (r :: rows)) = true)
    as ->.
  { cbn in *. apply andb_prop in Hall as [-> _]. done. }
  assert (dropna (r :: rows) = []) as ->; [|done].
  unfold dropna, notnull. revert Hall. generalize (r :: rows). clear.
  induction l as [|r rows IH]; cbn; [done|].
  intros [-> Hall]%andb_prop. cbn. by apply IH.
Qed.

Lemma frame_wf_single h name ty l vs n :
  h !! l = Some vs → length vs = n →
  frame_wf h (Frame n [Column name ty l]).
Proof.
  intros Hl Hlen. split; cbn.
  - apply NoDup_singleton.
  - constructor; [|constructor]. cbn. eauto.
Qed.

(** C3.  The specification has classification resolve every column to a
    tag.  The code raises [KeyError] on two well-formed frames: the
    zero-row object column (the defect of C1) and the object column
    [None, "a"] whose first row is missing (the defect of C2). *)
Theorem classification_raises_on_well_formed_frames :
  (frame_wf empty_heap empty_frame ∧
   get_pyreadr_column_types empty_heap empty_frame = Raise KeyError) ∧
  (frame_wf late_heap late_frame ∧
   get_pyreadr_column_types late_heap late_frame = Raise KeyError).
Proof.
  split; (split; [by eapply frame_wf_single|by vm_compute]).
Qed.

(** ** The mapper is total on the seven tags *)

(** C9.  The tag-to-primitive table is fixed: INTEGER, NUMERIC and
    LOGICAL map to themselves, CHARACTER, OBJECT, DATE and DATETIME to
    CHARACTER; a lookup fails exactly on a tag outside the seven, and
    the mapper over a dict of tags succeeds exactly when every tag in
    it is one of the seven, failing with [KeyError] otherwise. *)
Theorem mapper_total_on_semantic_tags :
  od_get "INTEGER" pyreadr_to_librdata_types = Ok "INTEGER" ∧
  od_get "NUMERIC" pyreadr_to_librdata_types = Ok "NUMERIC" ∧
  od_get "LOGICAL" pyreadr_to_librdata_types = Ok "LOGICAL" ∧
  od_get "CHARACTER" pyreadr_to_librdata_types = Ok "CHARACTER" ∧
  od_get "OBJECT" pyreadr_to_librdata_types = Ok "CHARACTER" ∧
  od_get "DATE" pyreadr_to_librdata_types = Ok "CHARACTER" ∧
  od_get "DATETIME" pyreadr_to_librdata_types = Ok "CHARACTER" ∧
  (∀ tag, (∃ e, od_get tag pyreadr_to_librdata_types = Raise e)
          ↔ tag ∉ semantic_tags) ∧
  (∀ pyreadr_types : odict,
     (∃ librdata_types,
        pyreadr_types_to_librdata_types pyreadr_types = Ok librdata_types ∧
        librdata_types =
          foldl (fun d kv => od_set kv.1 (primitive kv.2) d) [] pyreadr_types)
     ↔ Forall (fun kv => kv.2 ∈ semantic_tags) pyreadr_types) ∧
  (∀ pyreadr_types e,
     pyreadr_types_to_librdata_types pyreadr_types = Raise e →
     e = KeyError).
Proof.
  split_and!; try reflexivity.
  - intros tag. split.
    + intros [e He] Hin. destruct (od_get_semantic tag Hin) as [Hok _].
      congruence.
    + intros Hout. exists KeyError. by apply od_get_unknown.
  - intros types. unfold pyreadr_types_to_librdata_types. split.
    + intros (prims & Hok & _).
      destruct (decide (Forall (fun kv : string * string => kv.2 ∈ semantic_tags) types))
        as [Hall|Hnot]; [done|].
      apply not_Forall_Exists in Hnot; [|intros kv; apply _].
      rewrite (map_types_loop_raise types [] Hnot) in Hok. done.
    + intros Hall. eexists. split; [|reflexivity].
      by apply map_types_loop_ok.
  - intros types e. unfold pyreadr_types_to_librdata_types.
    destruct (decide (Forall (fun kv : string * string => kv.2 ∈ semantic_tags) types))
      as [Hall|Hnot].
    + by rewrite (map_types_loop_ok types [] Hall).
    + apply not_Forall_Exists in Hnot; [|intros kv; apply _].
      rewrite (map_types_loop_raise types [] Hnot). congruence.
Qed.

(** ** Declared numeric and boolean columns *)

(** C10.  A column whose declared element type is a narrow integer, a
    wide numeric or the boolean type is never flagged as having missing
    values, whatever its entries are (NaN included); and the
    transformer returns a NUMERIC column as it is, the same series over
    the same buffer, so its NaN entries are written through and never
    replaced by the sentinel. *)
Theorem numeric_column_never_flagged (h : gmap loc (list value))
    (df : DataFrame) (types : odict) (hasmissing : list bool) (i : nat)
    (c : column) :
  get_pyreadr_column_types h df = Ok (types, hasmissing) →
  df_columns df !! i = Some c →
  declared_numeric (col_dtype c) = true →
  hasmissing !! i = Some false ∧
  (∃ tag, column_type h df (col_name c) (col_dtype c) = Ok (tag, false) ∧
          tag ∈ ["INTEGER"; "NUMERIC"; "LOGICAL"]) ∧
  (∀ (pd_series : Series) (has_missing : bool)
     (dateformat datetimeformat : string) (w : world),
     transform_data pd_series "NUMERIC" has_missing dateformat
                    datetimeformat w = (Ok pd_series, w)).
Proof.
  intros Hcls Hc Hnum.
  assert (c ∈ df_columns df) as Hin by (by eapply list_elem_of_lookup_2).
  destruct (column_type_declared_numeric h df c Hin Hnum) as (tag & Htag & Hin3).
  split_and!; [|by eauto|done].
  rewrite get_pyreadr_column_types_eq in Hcls.
  destruct (traverse _ (df_columns df)) as [tbs|] eqn:Htr; [|done].
  cbn in Hcls. inversion Hcls; subst.
  destruct (traverse_lookup _ _ _ _ _ Htr Hc) as (tb & Htb & Hcol).
  rewrite Htag in Hcol. inversion Hcol; subst.
  by rewrite list_lookup_fmap, Htb.
Qed.

(** ** The transformer *)

Lemma astype_int32_run s w :
  astype_int32 s w =
  match traverse int32_of (buffer (heap w) (s_data s)) with
  | Ok new =>
      let l := fresh (dom (heap w)) in
      (Ok (MkSeries (Plain N_int32) (s_index s) l),
       World (<[l := new]> (heap w)) (calls w))
  | Raise e => (Raise e, w)
  end.
Proof.
  unfold astype_int32, read, lift, alloc. rewrite !run_bind.
  destruct (traverse int32_of _); reflexivity.
Qed.

Lemma setitem_run s new w :
  setitem s new w =
  match assigned (s_dtype s) (buffer (heap w) (s_data s)) new with
  | Ok r => (Ok (MkSeries r.1 (s_index s) (s_data s)),
             World (<[s_data s := r.2]> (heap w)) (calls w))
  | Raise e => (Raise e, w)
  end.
Proof.
  unfold setitem, read, lift, store. rewrite !run_bind.
  destruct (assigned _ _ _); reflexivity.
Qed.

Lemma loc_isna_assign_run s x w :
  loc_isna_assign s x w =
  setitem s (map (fun v => if isna v then x else v)
                 (buffer (heap w) (s_data s))) w.
Proof. reflexivity. Qed.

Lemma loc_notnull_apply_run s f w :
  loc_notnull_apply s f w =
  match traverse (fun v => if notnull v then f v else Ok v)
                 (buffer (heap w) (s_data s)) with
  | Ok new => setitem s new w
  | Raise e => (Raise e, w)
  end.
Proof.
  unfold loc_notnull_apply, read, lift. rewrite !run_bind.
  destruct (traverse _ _); reflexivity.
Qed.

Lemma assigned_object d vs new :
  is_object_dtype d = true → assigned d vs new = Ok (d, new).
Proof. intros Hd. unfold assigned. by rewrite Hd. Qed.

Lemma assigned_length d vs new r :
  assigned d vs new = Ok r → length r.2 = length new.
Proof.
  unfold assigned. destruct (is_object_dtype d); [by intros [= <-]|].
  destruct (pd_setitem d vs new) as [r'|]; cbn; [|done].
  intros [= <-]. cbn. apply length_imap.
Qed.

Lemma copy_run s w :
  copy s w =
  let l := fresh (dom (heap w)) in
  (Ok (MkSeries (s_dtype s) (s_index s) l),
   World (<[l := buffer (heap w) (s_data s)]> (heap w)) (calls w)).
Proof. reflexivity. Qed.

Lemma buffer_insert h l vs : buffer (<[l := vs]> h) l = vs.
Proof. unfold buffer. by rewrite lookup_insert_eq. Qed.

Lemma buffer_insert_ne h l l' vs :
  l ≠ l' → buffer (<[l := vs]> h) l' = buffer h l'.
Proof. intros Hne. unfold buffer. by rewrite lookup_insert_ne. Qed.

Lemma fresh_unused (h : gmap loc (list value)) : h !! fresh (dom h) = None.
Proof. apply not_elem_of_dom, is_fresh. Qed.

Lemma subseteq_insert_outside (h0 h : gmap loc (list value)) l vs :
  h0 ⊆ h → h0 !! l = None → h0 ⊆ <[l := vs]> h.
Proof. intros Hsub Hl. by apply insert_subseteq_r. Qed.

Lemma fresh_outside (h0 h : gmap loc (list value)) :
  h0 ⊆ h → h0 !! fresh (dom h) = None.
Proof.
  intros Hsub. eapply lookup_weaken_None; [apply fresh_unused|done].
Qed.

Lemma subseteq_alloc (h0 h : gmap loc (list value)) vs :
  h0 ⊆ h → h0 ⊆ <[fresh (dom h) := vs]> h.
Proof.
  intros Hsub. apply subseteq_insert_outside; [done|by apply fresh_outside].
Qed.

Lemma setitem_spec s new w :
  ∃ r w',
    setitem s new w = (r, w') ∧
    transformer_post s w
      (assigned (s_dtype s) (buffer (heap w) (s_data s)) new) r w'.
Proof.
  rewrite setitem_run. unfold transformer_post.
  destruct (assigned _ _ _) as [[d tvs]|e].
  - eexists _, _. split; [reflexivity|]. cbn [heap calls fst snd].
    split_and!; [done| |].
    + intros h0 Hsub Hs. by apply subseteq_insert_outside.
    + eexists. split_and!; [reflexivity|by rewrite buffer_insert|done|done].
  - eexists _, _. split; [reflexivity|]. by split_and!.
Qed.

Lemma narrow_branch_spec s (hm : bool) w :
  ∃ r w',
    (s' ← (if hm then loc_isna_assign s (VInt I_py librdata_min_integer)
           else mret s);
     astype_int32 s') w = (r, w') ∧
    transformer_post s w
      (filled ← (if hm
                 then assigned (s_dtype s) (buffer (heap w) (s_data s))
                        (map fill_missing (buffer (heap w) (s_data s)))
                 else Ok (s_dtype s, buffer (heap w) (s_data s)));
       tvs ← traverse int32_of filled.2;
       Ok (Plain N_int32, tvs)) r w'.
Proof.
  rewrite run_bind. unfold transformer_post.
  destruct hm.
  - rewrite loc_isna_assign_run, setitem_run. fold fill_missing.
    destruct (assigned _ _ _) as [[d filled]|e]; cbn [mbind outcome_bind];
      [|eexists _, _; split; [reflexivity|]; by split_and!].
    rewrite astype_int32_run. cbn [heap calls s_data s_index fst snd].
    rewrite buffer_insert.
    destruct (traverse int32_of _) as [new|e]; cbn [mbind outcome_bind].
    + eexists _, _. split; [reflexivity|]. cbn [heap calls].
      split_and!; [done| |].
      * intros h0 Hsub Hs.
        apply subseteq_alloc. by apply subseteq_insert_outside.
      * eexists. split_and!; [reflexivity|by rewrite buffer_insert|done|].
        intros h0 Hsub Hs. cbn [s_data].
        apply fresh_outside. by apply subseteq_insert_outside.
    + eexists _, _. split; [reflexivity|]. cbn [heap calls].
      split_and!; [done| |done].
      intros h0 Hsub Hs. by apply subseteq_insert_outside.
  - rewrite run_ret, astype_int32_run. cbn [mbind outcome_bind fst snd].
    destruct (traverse int32_of _) as [new|e]; cbn [mbind outcome_bind].
    + eexists _, _. split; [reflexivity|]. cbn [heap calls].
      split_and!; [done| |].
      * intros h0 Hsub Hs. by apply subseteq_alloc.
      * eexists. split_and!; [reflexivity|by rewrite buffer_insert|done|].
        intros h0 Hsub Hs. cbn [s_data]. by apply fresh_outside.
    + eexists _, _. split; [reflexivity|]. by split_and!.
Qed.

Lemma apply_branch_spec s f w :
  ∃ r w',
    loc_notnull_apply s f w = (r, w') ∧
    transformer_post s w
      (new ← traverse (fun v => if notnull v then f v else Ok v)
                      (buffer (heap w) (s_data s));
       assigned (s_dtype s) (buffer (heap w) (s_data s)) new) r w'.
Proof.
  rewrite loc_notnull_apply_run.
  destruct (traverse _ _) as [new|e]; cbn [mbind outcome_bind].
  - apply setitem_spec.
  - eexists _, _. split; [reflexivity|]. unfold transformer_post.
    by split_and!.
Qed.

Lemma transform_data_spec s tag hm dateformat datetimeformat w :
  ∃ r w',
    transform_data s tag hm dateformat datetimeformat w = (r, w') ∧
    transformer_post s w
      (transform_values (s_dtype s) (buffer (heap w) (s_data s)) tag hm
                        dateformat datetimeformat) r w'.
Proof.
  unfold transform_data, transform_values.
  destruct (bool_decide (tag = "INTEGER")) eqn:Hint; cbn [orb].
  { apply narrow_branch_spec. }
  destruct (bool_decide (tag = "NUMERIC")) eqn:Hnum.
  { destruct (bool_decide (tag = "LOGICAL")) eqn:Hlog.
    { apply bool_decide_eq_true in Hnum, Hlog. congruence. }
    cbn [orb]. eexists _, _. split; [reflexivity|].
    unfold transformer_post. split_and!; [done|done|].
    eexists. by split_and!. }
  destruct (bool_decide (tag = "LOGICAL")) eqn:Hlog; cbn [orb].
  { apply narrow_branch_spec. }
  destruct (bool_decide (tag = "CHARACTER")) eqn:Hchr.
  { eexists _, _. split; [reflexivity|].
    unfold transformer_post. split_and!; [done|done|].
    eexists. by split_and!. }
  destruct (bool_decide (tag = "OBJECT")) eqn:Hobj.
  { apply apply_branch_spec. }
  destruct (bool_decide (tag = "DATE")) eqn:Hdate.
  { apply apply_branch_spec. }
  destruct (bool_decide (tag = "DATETIME")) eqn:Hdt.
  { apply apply_branch_spec. }
  eexists _, _. split; [reflexivity|].
  unfold transformer_post. by split_and!.
Qed.

Lemma traverse_Forall {A B} (f : A → outcome B) (P : B → Prop) xs ys :
  (∀ x y, f x = Ok y → P y) → traverse f xs = Ok ys → Forall P ys.
Proof.
  intros Hf. revert ys. induction xs as [|x xs IH]; intros ys Htr; cbn in Htr.
  - inversion Htr. constructor.
  - destruct (f x) as [y|] eqn:Hfx; [|done].
    destruct (traverse f xs) as [ys'|]; [|done].
    cbn in Htr. inversion Htr; subst. constructor; eauto.
Qed.


Lemma narrow_in_range (z : Z) :
  (int32_min ≤ z ≤ int32_max)%Z → narrow z = Ok (VInt I_int32 z).
Proof. intros Hz. unfold narrow. by rewrite bool_decide_eq_true_2. Qed.

Lemma wrap32_range z : (int32_min ≤ wrap32 z ≤ int32_max)%Z.
Proof.
  unfold wrap32, int32_min, int32_max.
  pose proof (Z.mod_pos_bound (z + 2147483648) 4294967296) as Hmod. lia.
Qed.

Lemma narrow_class z y :
  narrow z = Ok y →
  ∃ z', y = VInt I_int32 z' ∧ (int32_min ≤ z' ≤ int32_max)%Z.
Proof.
  unfold narrow. case_bool_decide; [intros [= <-]; eauto|].
  destruct (int32_overflow z) as [z'|]; cbn; [|done].
  intros [= <-]. eexists. split; [done|apply wrap32_range].
Qed.

Lemma int32_of_class x y :
  int32_of x = Ok y →
  ∃ z, y = VInt I_int32 z ∧ (int32_min ≤ z ≤ int32_max)%Z.
Proof.
  destruct x; cbn; try apply narrow_class;
    try (destruct (py_int _); cbn; [apply narrow_class|done]).
  intros [= <-]. eexists. split; [done|].
  unfold int32_min, int32_max. destruct b; lia.
Qed.

Lemma int32_of_fits x :
  fits_int32 x = true → int32_of x = Ok (VInt I_int32 (int_value x)).
Proof.
  destruct x; cbn; try done.
  intros Hz%bool_decide_eq_true. by apply narrow_in_range.
Qed.


(** ** Missing entries of INTEGER and LOGICAL columns *)



(** C6.  The column [1, None, 3] whose integers are of a narrow integer
    class (int32, int16, int8, uint8 or uint16; the column itself is
    object-typed, as a column holding [None] is): the classifier tags
    it INTEGER with has-missing True, the primitive is INTEGER, and the
    transformer, on the copy the orchestrator makes, yields
    [1, -2147483648, 3]; the frame's own buffer still holds
    [1, None, 3]. *)
Theorem narrow_integer_column_with_none (dateformat datetimeformat : string) :
  Forall (fun c =>
    Cls (T_int c) ∈ int_types ∧
    get_pyreadr_column_types (case1_heap c) case1_frame
      = Ok ([("x", "INTEGER")], [true]) ∧
    pyreadr_types_to_librdata_types [("x", "INTEGER")]
      = Ok [("x", "INTEGER")] ∧
    ∃ t w',
      (s ← lift (df_getitem case1_frame "x");
       col ← copy s;
       transform_data col "INTEGER" true dateformat datetimeformat)
        (World (case1_heap c) []) = (Ok t, w') ∧
      buffer (heap w') (s_data t)
        = [VInt I_int32 1; VInt I_int32 (-2147483648); VInt I_int32 3] ∧
      tolist t w'
        = (Ok [VInt I_py 1; VInt I_py (-2147483648); VInt I_py 3], w') ∧
      heap w' !! 0 = Some [VInt c 1; VNone; VInt c 3])
    narrow_classes.
Proof.
  clear expanduser.
  unfold narrow_classes.
  repeat constructor; try (unfold int_types; set_solver);
    eexists _, _; (split; [vm_compute; reflexivity|]);
    split_and!; by vm_compute.
Qed.

(** ** Validation in the entry points *)

(** C8.  [write_rdata] with an empty object name, and either entry
    point with a table that is not a data frame or a path that is not a
    string, raises a [PyreadrError] and leaves the world as it was: the
    Writer's call log has no new entry (no open, no declaration, no
    insertion, no close) and no buffer was touched.  (Should the object
    name of [write_rdata] be a data frame itself, Python refuses to
    compute its truth value and the exception is that refusal; the world
    is as it was all the same.) *)
Theorem validation_precedes_writer (path df df_name : pyarg)
    (dateformat datetimeformat : string) (w : world) :
  write_rdata path df (AStr "") dateformat datetimeformat w
    = (Raise (PyreadrError "df_name must be a valid string"), w) ∧
  (is_frame df = false →
     write_rds path df dateformat datetimeformat w
       = (Raise (PyreadrError "df must be a pandas data frame"), w)) ∧
  (is_str path = false →
     ∃ msg, write_rds path df dateformat datetimeformat w
            = (Raise (PyreadrError msg), w)) ∧
  (is_frame df_name = false →
   is_frame df = false ∨ is_str path = false →
     ∃ msg, write_rdata path df df_name dateformat datetimeformat w
            = (Raise (PyreadrError msg), w)) ∧
  (is_frame df = false ∨ is_str path = false →
     ∃ e, write_rdata path df df_name dateformat datetimeformat w
          = (Raise e, w)).
Proof.
  assert (is_frame df = false ∨ is_str path = false →
          ∀ named : bool,
            ∃ msg,
              (if negb named
               then raise (PyreadrError "df_name must be a valid string")
               else
                 match df with
                 | AFrame frame =>
                     PyreadrWriter ;;
                     match path with
                     | AStr p =>
                         write_r (expanduser p) "rdata" frame df_name
                                 dateformat datetimeformat
                     | _ => raise (PyreadrError "path must be a string!")
                     end
                 | _ => raise (PyreadrError "df must be a pandas data frame")
                 end) w = (Raise (PyreadrError msg), w)) as Hbody.
  { intros Hbad [|]; cbn [negb]; [|by eexists].
    destruct Hbad; destruct df; destruct path; try done; by eexists. }
  split_and!.
  - reflexivity.
  - intros Hdf. by destruct df.
  - intros Hpath. destruct df; destruct path; try done; eauto.
  - intros Hname Hbad. unfold write_rdata. rewrite run_bind.
    destruct df_name as [n| | |b]; try done; cbn [truth lift];
      apply (Hbody Hbad).
  - intros Hbad. unfold write_rdata. rewrite run_bind.
    destruct df_name as [n|f| |b]; cbn [truth lift].
    + destruct (Hbody Hbad (negb (bool_decide (n = "")))) as [msg Hmsg].
      eexists. exact Hmsg.
    + by eexists.
    + destruct (Hbody Hbad false) as [msg Hmsg]. eexists. exact Hmsg.
    + destruct (Hbody Hbad b) as [msg Hmsg]. eexists. exact Hmsg.
Qed.

(** ** The caller's buffers *)

Section Keeps.
Variable h0 : gmap loc (list value).

Lemma keeps_ret {A} (a : A) (Q : A → Prop) : Q a → keeps h0 (mret a) Q.
Proof.
  intros HQ w Hw. exists (Ok a), w. split_and!; [done|done|].
  by intros ? [= <-].
Qed.

Lemma keeps_raise {A} e (Q : A → Prop) : keeps h0 (raise e) Q.
Proof. intros w Hw. exists (Raise e), w. by split_and!. Qed.

Lemma keeps_lift {A} (o : outcome A) : keeps h0 (lift o) (fun _ => True).
Proof. intros w Hw. exists o, w. by split_and!. Qed.

Lemma keeps_get_heap : keeps h0 get_heap (fun _ => True).
Proof. intros w Hw. exists (Ok (heap w)), w. by split_and!. Qed.

Lemma keeps_invoke c : keeps h0 (invoke c) (fun _ => True).
Proof.
  intros w Hw. unfold invoke.
  destruct (writer (calls w) c); eexists _, _; by split_and!.
Qed.

Lemma keeps_bind {A B} (m : M A) (f : A → M B) Q1 Q :
  keeps h0 m Q1 → (∀ a, Q1 a → keeps h0 (f a) Q) → keeps h0 (m ≫= f) Q.
Proof.
  intros Hm Hf w Hw. rewrite run_bind.
  destruct (Hm w Hw) as (r & w1 & -> & Hw1 & HQ1).
  destruct r as [a|e].
  - apply (Hf a); [by apply HQ1|done].
  - exists (Raise e), w1. by split_and!.
Qed.

Lemma keeps_weaken {A} (m : M A) (Q Q' : A → Prop) :
  keeps h0 m Q → (∀ a, Q a → Q' a) → keeps h0 m Q'.
Proof.
  intros Hm HQ w Hw. destruct (Hm w Hw) as (r & w1 & -> & Hw1 & HQ1).
  exists r, w1. split_and!; [done|done|]. intros a Ha. by apply HQ, HQ1.
Qed.

Lemma keeps_for_each {A} (xs : list A) (body : A → M unit) :
  (∀ x, keeps h0 (body x) (fun _ => True)) →
  keeps h0 (for_each xs body) (fun _ => True).
Proof.
  intros Hbody. induction xs as [|x xs IH]; cbn [for_each].
  - by apply keeps_ret.
  - eapply keeps_bind; [apply Hbody|]. intros _ _. apply IH.
Qed.

Lemma keeps_for_enumerate {A} (xs : list A) (body : nat → A → M unit) :
  (∀ i x, keeps h0 (body i x) (fun _ => True)) →
  ∀ i, keeps h0 (for_enumerate i xs body) (fun _ => True).
Proof.
  intros Hbody. induction xs as [|x xs IH]; intros i; cbn [for_enumerate].
  - by apply keeps_ret.
  - eapply keeps_bind; [apply Hbody|]. intros _ _. apply IH.
Qed.

(** A copy lives outside [h0]. *)
Lemma keeps_copy s : keeps h0 (copy s) (fun col => h0 !! s_data col = None).
Proof.
  intros w Hw. rewrite copy_run. eexists _, _.
  split_and!; [reflexivity|by apply subseteq_alloc|].
  intros a [= <-]. cbn. by apply fresh_outside.
Qed.

(** The transformer writes to its argument's buffer and to fresh
    ones only. *)
Lemma keeps_transform_data s tag hm dateformat datetimeformat :
  h0 !! s_data s = None →
  keeps h0 (transform_data s tag hm dateformat datetimeformat)
        (fun _ => True).
Proof.
  intros Hs w Hw.
  destruct (transform_data_spec s tag hm dateformat datetimeformat w)
    as (r & w' & Hrun & _ & Hkeep & _).
  exists r, w'. split_and!; [done|by apply Hkeep|done].
Qed.

Lemma keeps_tolist s : keeps h0 (tolist s) (fun _ => True).
Proof. intros w Hw. eexists _, w. by split_and!. Qed.

Lemma keeps_write_r path file_format df df_name dateformat datetimeformat :
  keeps h0 (write_r path file_format df df_name dateformat datetimeformat)
        (fun _ => True).
Proof.
  unfold write_r.
  eapply keeps_bind; [apply keeps_get_heap|]. intros h _.
  eapply keeps_bind; [apply keeps_lift|]. intros types _.
  eapply keeps_bind; [apply keeps_lift|]. intros librdata_types _.
  eapply keeps_bind; [apply keeps_invoke|]. intros _ _.
  eapply keeps_bind; [apply keeps_invoke|]. intros _ _.
  eapply keeps_bind; [apply keeps_invoke|]. intros _ _.
  eapply keeps_bind.
  { apply keeps_for_each. intros name.
    eapply keeps_bind; [apply keeps_lift|]. intros curtype _.
    apply keeps_invoke. }
  intros _ _.
  eapply keeps_bind; [|intros _ _; apply keeps_invoke].
  apply keeps_for_enumerate. intros indx column.
  eapply keeps_bind; [apply keeps_lift|]. intros s _.
  eapply keeps_bind; [apply keeps_copy|]. intros col Hcol.
  eapply keeps_bind; [apply keeps_lift|]. intros dtype _.
  eapply keeps_bind; [apply keeps_lift|]. intros has_missing _.
  eapply keeps_bind; [by apply keeps_transform_data|]. intros tcol _.
  eapply keeps_bind; [apply keeps_tolist|]. intros vals _.
  eapply keeps_bind; [apply keeps_lift|]. intros curtype _.
  apply keeps_for_enumerate. intros row_indx val. apply keeps_invoke.
Qed.

Lemma keeps_write_rdata path df df_name dateformat datetimeformat :
  keeps h0 (write_rdata path df df_name dateformat datetimeformat)
        (fun _ => True).
Proof.
  unfold write_rdata.
  eapply keeps_bind; [apply keeps_lift|]. intros named _.
  destruct (negb named); [apply keeps_raise|].
  destruct df; try apply keeps_raise.
  eapply keeps_bind; [by apply (keeps_ret tt (fun _ => True))|].
  intros _ _.
  destruct path; try apply keeps_raise. apply keeps_write_r.
Qed.

Lemma keeps_write_rds path df dateformat datetimeformat :
  keeps h0 (write_rds path df dateformat datetimeformat) (fun _ => True).
Proof.
  unfold write_rds.
  destruct df; try apply keeps_raise.
  destruct path; try apply keeps_raise.
  eapply keeps_bind; [by apply (keeps_ret tt (fun _ => True))|].
  intros _ _.
  apply keeps_write_r.
Qed.

End Keeps.

(** C4.  A write, whether it returns or raises, leaves every buffer
    that existed before it as it was, the buffers of the caller's table
    among them: the orchestrator hands the transformer a copy of each
    column, and the transformer writes to that copy and to buffers it
    allocates itself.  This holds for [write_r] and for both entry
    points, for every table, every tag the classifier assigns and
    every behaviour of the Writer. *)
Theorem write_keeps_caller_table (path file_format : string)
    (df : DataFrame) (df_name : pyarg) (dateformat datetimeformat : string)
    (path_arg df_arg : pyarg) (w : world) :
  heap w ⊆ heap (write_r path file_format df df_name dateformat
                         datetimeformat w).2 ∧
  heap w ⊆ heap (write_rdata path_arg df_arg df_name dateformat
                             datetimeformat w).2 ∧
  heap w ⊆ heap (write_rds path_arg df_arg dateformat datetimeformat w).2.
Proof.
  split_and!.
  - destruct (keeps_write_r (heap w) path file_format df df_name dateformat
                datetimeformat w) as (r & w' & -> & Hsub & _); done.
  - destruct (keeps_write_rdata (heap w) path_arg df_arg df_name dateformat
                datetimeformat w) as (r & w' & -> & Hsub & _); done.
  - destruct (keeps_write_rds (heap w) path_arg df_arg dateformat
                datetimeformat w) as (r & w' & -> & Hsub & _); done.
Qed.

(** ** Sequences of Writer calls *)

Lemma refusal_app hist cs1 cs2 :
  refusal hist (cs1 ++ cs2) =
  match refusal hist cs1 with
  | Some e => Some e
  | None => refusal (hist ++ cs1) cs2
  end.
Proof.
  revert hist. induction cs1 as [|c cs1 IH]; intros hist; cbn.
  - by rewrite app_nil_r.
  - destruct (writer hist c); [done|].
    rewrite IH. by rewrite <- app_assoc.
Qed.

Lemma issue_app hist cs1 cs2 :
  issue hist (cs1 ++ cs2) =
  match refusal hist cs1 with
  | Some _ => issue hist cs1
  | None => cs1 ++ issue (hist ++ cs1) cs2
  end.
Proof.
  revert hist. induction cs1 as [|c cs1 IH]; intros hist; cbn.
  - by rewrite app_nil_r.
  - destruct (writer hist c); [done|].
    rewrite IH. destruct (refusal _ cs1); [done|].
    by rewrite <- app_assoc.
Qed.

Lemma issue_accepted hist cs : refusal hist cs = None → issue hist cs = cs.
Proof.
  revert hist. induction cs as [|c cs IH]; intros hist; cbn; [done|].
  destruct (writer hist c); [done|]. intros Hacc. by rewrite IH.
Qed.

(** A refused call is the last one issued: the calls before it were
    accepted, the calls after it are not made. *)
Lemma refusal_split hist cs e :
  refusal hist cs = Some e →
  ∃ before c after,
    cs = before ++ c :: after ∧
    issue hist cs = before ++ [c] ∧
    refusal hist before = None ∧
    writer (hist ++ before) c = Some e.
Proof.
  revert hist. induction cs as [|c cs IH]; intros hist; cbn; [done|].
  destruct (writer hist c) as [e'|] eqn:Hc.
  - intros [= ->]. exists [], c, cs. by rewrite app_nil_r.
  - intros (before & c' & after & -> & -> & Hacc & Hc')%IH.
    exists (c :: before), c', after. cbn. rewrite Hc.
    split_and!; [done|done|done|]. by rewrite <- app_assoc in Hc'.
Qed.

Lemma invoke_run c w :
  invoke c w =
  (verdict (refusal (calls w) [c]) None,
   World (heap w) (calls w ++ issue (calls w) [c])).
Proof. unfold invoke. cbn. by destruct (writer (calls w) c). Qed.

Section Issues.
Variable h0 : gmap loc (list value).

Lemma issues_invoke c : issues h0 (invoke c) [c] None.
Proof. intros w Hw. rewrite invoke_run. eexists. by split_and!. Qed.

Lemma issues_ret : issues h0 (mret tt) [] None.
Proof.
  intros w Hw. exists w. cbn. split_and!; [done|done|].
  by rewrite app_nil_r.
Qed.

Lemma issues_seq m1 m2 cs1 cs2 inner :
  issues h0 m1 cs1 None → issues h0 m2 cs2 inner →
  issues h0 (m1 ;; m2) (cs1 ++ cs2) inner.
Proof.
  intros H1 H2 w Hw. rewrite run_bind.
  destruct (H1 w Hw) as (w1 & -> & Hw1 & Hcalls1).
  rewrite refusal_app, issue_app.
  destruct (refusal (calls w) cs1) as [e|] eqn:Href; cbn.
  - exists w1. by split_and!.
  - rewrite (issue_accepted _ _ Href) in Hcalls1.
    destruct (H2 w1 Hw1) as (w2 & -> & Hw2 & Hcalls2).
    rewrite Hcalls1 in *. exists w2.
    split_and!; [done|done|]. by rewrite Hcalls2, app_assoc.
Qed.

Lemma issues_seq_raise m1 m2 cs1 e :
  issues h0 m1 cs1 (Some e) → issues h0 (m1 ;; m2) cs1 (Some e).
Proof.
  intros H1 w Hw. rewrite run_bind.
  destruct (H1 w Hw) as (w1 & -> & Hw1 & Hcalls1).
  exists w1. split_and!; [|done|done].
  by destruct (refusal (calls w) cs1).
Qed.

(** The loop over the rows of one column. *)
Lemma issues_rows (f : nat → value → call) (tv : list value) : ∀ i,
  issues h0 (for_enumerate i tv (fun row_indx val => invoke (f row_indx val)))
         (imap (fun k val => f (i + k) val) tv) None.
Proof.
  induction tv as [|v tv IH]; intros i; cbn [for_enumerate imap].
  - apply issues_ret.
  - replace (i + 0) with i by lia.
    apply (issues_seq _ _ [_]); [apply issues_invoke|].
    erewrite imap_ext; [apply (IH (S i))|].
    intros k x _. cbn. f_equal. lia.
Qed.

(** The loop declaring the columns. *)
Lemma issues_add_columns (librdata_types : odict) (prim : column → string)
    (cols : list column) :
  Forall (fun c => od_get (col_name c) librdata_types = Ok (prim c)) cols →
  issues h0
    (for_each (map col_name cols) (fun col_name =>
       curtype ← lift (od_get col_name librdata_types);
       invoke (c_add_column col_name curtype)))
    (map (fun c => c_add_column (col_name c) (prim c)) cols) None.
Proof.
  induction 1 as [|c cols Hc _ IH]; cbn [map for_each].
  - apply issues_ret.
  - apply (issues_seq _ _ [_]); [|exact IH].
    intros w Hw. rewrite run_bind. unfold lift. rewrite Hc.
    by apply issues_invoke.
Qed.

End Issues.

(** ** The orchestrator's loops *)

Lemma buffer_subseteq (h0 h : gmap loc (list value)) l :
  h0 ⊆ h → is_Some (h0 !! l) → buffer h l = buffer h0 l.
Proof.
  intros Hsub [vs Hvs]. unfold buffer.
  by rewrite (lookup_weaken _ _ _ _ Hvs Hsub), Hvs.
Qed.

(** One iteration of the loop over the columns: copy, transform, then
    one insertion per row. *)
Lemma issues_column h0 df pyreadr_types hasmissing librdata_types
    dateformat datetimeformat indx c :
  is_Some (h0 !! col_data c) →
  df_getitem df (col_name c)
    = Ok (MkSeries (col_dtype c) (seq 0 (df_nrows df)) (col_data c)) →
  od_get (col_name c) librdata_types = Ok (primitive_of pyreadr_types c) →
  let delivery := column_delivery h0 pyreadr_types hasmissing
                    dateformat datetimeformat indx c in
  issues h0
    (s ← lift (df_getitem df (col_name c));
     col ← copy s;
     dtype ← lift (od_get (col_name c) pyreadr_types);
     has_missing ← lift (list_getitem hasmissing indx);
     tcol ← transform_data col dtype has_missing dateformat datetimeformat;
     tcol ← tolist tcol;
     curtype ← lift (od_get (col_name c) librdata_types);
     for_enumerate 0 tcol (fun row_indx val =>
       invoke (c_insert_value row_indx indx val curtype)))
    (match delivery with
     | Ok tv => column_cells indx (primitive_of pyreadr_types c) tv
     | Raise _ => []
     end)
    (match delivery with Ok _ => None | Raise e => Some e end).
Proof.
  intros Halloc Hget Hprim delivery w Hw.
  rewrite run_bind. unfold lift at 1. rewrite Hget.
  rewrite run_bind, copy_run. cbn zeta. cbn [s_dtype s_index s_data].
  set (l := fresh (dom (heap w))).
  set (w1 := World (<[l := _]> (heap w)) (calls w)).
  assert (h0 ⊆ heap w1) as Hw1 by (by apply subseteq_alloc).
  assert (h0 !! l = None) as Hl by (by apply fresh_outside).
  assert (buffer (heap w1) l = buffer h0 (col_data c)) as Hbuf.
  { unfold w1. cbn [heap s_data]. rewrite buffer_insert.
    by apply buffer_subseteq. }
  subst delivery. unfold column_delivery.
  rewrite run_bind. unfold lift at 1.
  destruct (od_get (col_name c) pyreadr_types) as [tag|e]; cbn [mbind outcome_bind].
  2: { exists w1. split_and!; [done|done|]. cbn. by rewrite app_nil_r. }
  rewrite run_bind. unfold lift at 1.
  destruct (list_getitem hasmissing indx) as [b|e]; cbn [mbind outcome_bind].
  2: { exists w1. split_and!; [done|done|]. cbn. by rewrite app_nil_r. }
  rewrite run_bind.
  destruct (transform_data_spec
              (MkSeries (col_dtype c) (seq 0 (df_nrows df)) l) tag b
              dateformat datetimeformat w1)
    as (r & w2 & -> & Hcalls & Hkeep & Hres).
  cbn [s_data s_dtype] in Hkeep, Hres. rewrite Hbuf in Hres.
  specialize (Hkeep h0 Hw1 Hl). unfold deliver.
  destruct (transform_values _ _ tag b dateformat datetimeformat)
    as [[d tvs]|e]; cbn [mbind outcome_bind fst snd].
  2: { subst r. exists w2. split_and!; [done|done|].
       cbn. by rewrite app_nil_r, Hcalls. }
  destruct Hres as (t & -> & Hbuf2 & Hdt & _).
  rewrite run_bind. unfold tolist at 1. rewrite run_bind. unfold read at 1.
  rewrite run_ret, Hbuf2, Hdt.
  rewrite run_bind. unfold lift at 1. rewrite Hprim.
  destruct (issues_rows h0
              (fun row_indx val =>
                 c_insert_value row_indx indx val (primitive_of pyreadr_types c))
              (map (to_python d) tvs) 0 w2 Hkeep)
    as (w3 & Hrun & Hw3 & Hcalls3).
  exists w3. unfold column_cells. rewrite Hcalls in Hrun, Hcalls3.
  split_and!; [exact Hrun|done|exact Hcalls3].
Qed.

(** The loop over the columns. *)
Lemma issues_columns h0 df pyreadr_types hasmissing librdata_types
    dateformat datetimeformat (cols : list column) : ∀ indx,
  Forall (fun c =>
    is_Some (h0 !! col_data c) ∧
    df_getitem df (col_name c)
      = Ok (MkSeries (col_dtype c) (seq 0 (df_nrows df)) (col_data c)) ∧
    od_get (col_name c) librdata_types = Ok (primitive_of pyreadr_types c))
    cols →
  let delivered := deliver_columns h0 pyreadr_types hasmissing
                     dateformat datetimeformat indx cols in
  issues h0
    (for_enumerate indx (map col_name cols) (fun indx column =>
       s ← lift (df_getitem df column);
       col ← copy s;
       dtype ← lift (od_get column pyreadr_types);
       has_missing ← lift (list_getitem hasmissing indx);
       tcol ← transform_data col dtype has_missing dateformat datetimeformat;
       tcol ← tolist tcol;
       curtype ← lift (od_get column librdata_types);
       for_enumerate 0 tcol (fun row_indx val =>
         invoke (c_insert_value row_indx indx val curtype))))
    (cell_calls pyreadr_types indx cols delivered.1) delivered.2.
Proof.
  induction cols as [|c cols IH]; intros indx Hcols.
  - apply issues_ret.
  - apply Forall_cons in Hcols as [(Halloc & Hget & Hprim) Hcols].
    cbn [map for_enumerate deliver_columns].
    pose proof (issues_column h0 df pyreadr_types hasmissing librdata_types
                  dateformat datetimeformat indx c Halloc Hget Hprim)
      as Hbody.
    cbn zeta in Hbody.
    destruct (column_delivery h0 pyreadr_types hasmissing dateformat
                datetimeformat indx c) as [tv|e].
    + cbn [fst snd cell_calls].
      apply issues_seq; [exact Hbody|]. by apply IH.
    + cbn [fst snd cell_calls]. by apply issues_seq_raise.
Qed.

(** ** What classification establishes *)

Lemma traverse_Forall2 {A B} (f : A → outcome B) xs ys :
  traverse f xs = Ok ys → Forall2 (fun x y => f x = Ok y) xs ys.
Proof.
  revert ys. induction xs as [|x xs IH]; intros ys Htr; cbn in Htr.
  - inversion Htr. constructor.
  - destruct (f x) as [y|] eqn:Hfx; [|done].
    destruct (traverse f xs) as [ys'|]; [|done].
    cbn in Htr. inversion Htr; subst. constructor; eauto.
Qed.

Lemma foldl_od_set_fresh {A} (key val : A → string) (xs : list A) :
  ∀ acc : odict,
    NoDup (acc.*1 ++ map key xs) →
    foldl (fun d x => od_set (key x) (val x) d) acc xs
    = acc ++ map (fun x => (key x, val x)) xs.
Proof.
  induction xs as [|x xs IH]; intros acc Hnd; cbn.
  - by rewrite app_nil_r.
  - rewrite od_set_fresh.
    + rewrite IH; [by rewrite <- app_assoc|].
      rewrite fmap_app. cbn. by rewrite <- app_assoc.
    + apply NoDup_app in Hnd as (_ & Hdisj & _).
      intros Hin. apply (Hdisj _ Hin). cbn. left.
Qed.

Lemma od_get_fmap (f : string → string) k (d : odict) :
  od_get k (map (fun kv => (kv.1, f kv.2)) d) = (v ← od_get k d; Ok (f v)).
Proof.
  induction d as [|[k' v'] d IH]; cbn; [done|].
  by case_decide.
Qed.

Lemma df_getitem_nodup df c :
  NoDup (map col_name (df_columns df)) →
  c ∈ df_columns df →
  df_getitem df (col_name c)
  = Ok (MkSeries (col_dtype c) (seq 0 (df_nrows df)) (col_data c)).
Proof.
  unfold df_getitem. generalize (df_nrows df).
  induction (df_columns df) as [|c' cols IH]; intros n Hnd Hin.
  - by apply elem_of_nil in Hin.
  - cbn in Hnd. apply NoDup_cons in Hnd as [Hc' Hnd]. cbn [find].
    apply elem_of_cons in Hin as [->|Hin].
    + by rewrite bool_decide_eq_true_2.
    + rewrite bool_decide_eq_false_2; [by apply IH|].
      intros Heq. apply Hc'. rewrite Heq.
      apply list_elem_of_fmap. by exists c.
Qed.

Lemma Forall2_zip {A B} (R : A → B → Prop) xs ys :
  Forall2 R xs ys → Forall (fun p => R p.1 p.2) (zip xs ys).
Proof. induction 1; cbn; by constructor. Qed.

Lemma Forall2_elem_zip {A B} (R : A → B → Prop) xs ys x :
  Forall2 R xs ys → x ∈ xs → ∃ y, (x, y) ∈ zip xs ys.
Proof.
  induction 1 as [|x' y' xs ys _ _ IH]; intros Hin.
  - by apply elem_of_nil in Hin.
  - apply elem_of_cons in Hin as [->|Hin].
    + exists y'. cbn. left.
    + destruct (IH Hin) as [y Hy]. exists y. cbn. by right.
Qed.

(** After a successful classification of a frame with unique column
    labels: the mapper succeeds, and each column's label leads to the
    tag the classifier gave the column and to that tag's primitive. *)
Lemma classified_columns h df pyreadr_types hasmissing :
  NoDup (map col_name (df_columns df)) →
  get_pyreadr_column_types h df = Ok (pyreadr_types, hasmissing) →
  ∃ librdata_types,
    pyreadr_types_to_librdata_types pyreadr_types = Ok librdata_types ∧
    length hasmissing = length (df_columns df) ∧
    Forall (fun c =>
      ∃ tag b,
        column_type h df (col_name c) (col_dtype c) = Ok (tag, b) ∧
        tag ∈ semantic_tags ∧
        od_get (col_name c) pyreadr_types = Ok tag ∧
        od_get (col_name c) librdata_types = Ok (primitive tag) ∧
        primitive_of pyreadr_types c = primitive tag) (df_columns df).
Proof.
  intros Hnd Hcls. rewrite get_pyreadr_column_types_eq in Hcls.
  destruct (traverse _ (df_columns df)) as [tbs|] eqn:Htr; [|done].
  cbn in Hcls. injection Hcls as Htypes Hmiss.
  pose proof (traverse_length _ _ _ Htr) as Hlen.
  pose proof (traverse_Forall2 _ _ _ Htr) as Hall.
  set (cols := df_columns df) in *.
  assert ((zip cols tbs).*1 = cols) as Hfst by (apply fst_zip; lia).
  assert (map (fun x : column * (string * bool) => col_name x.1) (zip cols tbs)
          = map col_name cols) as Hnames.
  { rewrite <- Hfst at 2. by rewrite <- list_fmap_compose. }
  rewrite (foldl_od_set_fresh (fun x : column * (string * bool) => col_name x.1)
             (fun x => x.2.1)) in Htypes
    by (cbn [fmap list_fmap app]; by rewrite Hnames).
  cbn [app] in Htypes.
  assert (pyreadr_types.*1 = map col_name cols) as Hkeys.
  { rewrite <- Htypes, <- list_fmap_compose. exact Hnames. }
  pose proof (Forall2_zip _ _ _ Hall) as Hzip.
  rewrite Forall_forall in Hzip.
  assert (Forall (fun kv : string * string => kv.2 ∈ semantic_tags)
                 pyreadr_types) as Hsem.
  { rewrite <- Htypes. apply Forall_map. apply Forall_forall.
    intros [c [tag b]] Hin. cbn. specialize (Hzip _ Hin).
    by eapply column_type_semantic. }
  eexists. split_and!.
  - unfold pyreadr_types_to_librdata_types.
    rewrite (map_types_loop_ok _ _ Hsem).
    rewrite (foldl_od_set_fresh fst (fun kv => primitive kv.2))
      by (change (NoDup (pyreadr_types.*1)); by rewrite Hkeys).
    reflexivity.
  - by rewrite <- Hmiss, length_fmap.
  - apply Forall_forall. intros c Hc.
    destruct (Forall2_elem_zip _ _ _ c Hall Hc) as [[tag b] Hin].
    specialize (Hzip _ Hin). cbn in Hzip.
    assert (od_get (col_name c) pyreadr_types = Ok tag) as Hget.
    { apply od_get_elem; [by rewrite Hkeys|].
      rewrite <- Htypes. apply list_elem_of_fmap.
      by exists (c, (tag, b)). }
    assert (tag ∈ semantic_tags) as Htag
      by (by eapply column_type_semantic).
    exists tag, b. split_and!; [done|done|done| |].
    + cbn [app]. by rewrite od_get_fmap, Hget.
    + unfold primitive_of. rewrite Hget. cbn [mbind outcome_bind].
      by destruct (od_get_semantic tag Htag) as [-> _].
Qed.

Lemma assigned_after_length {A} (f : A → outcome value) d vs xs t :
  (new ← traverse f xs; assigned d vs new) = Ok t →
  length t.2 = length xs.
Proof.
  destruct (traverse f xs) as [new|] eqn:Htr; cbn; [|done].
  intros Hassigned%assigned_length. apply traverse_length in Htr. congruence.
Qed.

Lemma transform_values_length d vs tag hm dateformat datetimeformat t :
  transform_values d vs tag hm dateformat datetimeformat = Ok t →
  length t.2 = length vs.
Proof.
  unfold transform_values.
  destruct (bool_decide (tag = "INTEGER") || bool_decide (tag = "LOGICAL")).
  { destruct (if hm then assigned d vs (map fill_missing vs) else Ok (d, vs))
      as [filled|] eqn:Hfilled; cbn [mbind outcome_bind]; [|done].
    destruct (traverse int32_of filled.2) as [tvs|] eqn:Htr;
      cbn [mbind outcome_bind]; [|done].
    intros [= <-]. cbn [snd]. apply traverse_length in Htr. rewrite Htr.
    destruct hm.
    - apply assigned_length in Hfilled. by rewrite Hfilled, length_map.
    - by injection Hfilled as <-. }
  destruct (bool_decide (tag = "NUMERIC") || bool_decide (tag = "CHARACTER"));
    [by intros [= <-]|].
  repeat (case_match; try done); apply assigned_after_length.
Qed.

Lemma column_delivery_length h pyreadr_types hasmissing dateformat
    datetimeformat indx c tv :
  column_delivery h pyreadr_types hasmissing dateformat datetimeformat
                  indx c = Ok tv →
  length tv = length (buffer h (col_data c)).
Proof.
  unfold column_delivery, deliver.
  destruct (od_get _ _); [|done]. destruct (list_getitem _ _); [|done]. cbn.
  destruct (transform_values _ _ _ _ _ _) as [t|] eqn:Htv; [|done].
  cbn. intros [= <-]. apply transform_values_length in Htv.
  by rewrite length_map.
Qed.

Lemma deliver_columns_length h pyreadr_types hasmissing dateformat
    datetimeformat (n : nat) (cols : list column) : ∀ indx,
  Forall (fun c => length (buffer h (col_data c)) = n) cols →
  let delivered := deliver_columns h pyreadr_types hasmissing dateformat
                     datetimeformat indx cols in
  Forall (fun tv => length tv = n) delivered.1 ∧
  (delivered.2 = None → length delivered.1 = length cols).
Proof.
  induction cols as [|c cols IH]; intros indx Hcols; cbn.
  - by split.
  - apply Forall_cons in Hcols as [Hc Hcols].
    destruct (column_delivery _ _ _ _ _ _ c) as [tv|e] eqn:Hdel; cbn.
    + destruct (IH (S indx) Hcols) as [Hlens Hall].
      apply column_delivery_length in Hdel.
      split; [constructor; [congruence|done]|].
      intros Hnone. by rewrite Hall.
    + by split.
Qed.

(** ** The order of the Writer calls *)

(** The calls of a write whose classification returned. *)
Lemma write_r_sequence_classified (path file_format : string) (df : DataFrame)
    (df_name : pyarg) (dateformat datetimeformat : string) (w : world)
    (pyreadr_types : odict) (hasmissing : list bool) :
  frame_wf (heap w) df →
  get_pyreadr_column_types (heap w) df = Ok (pyreadr_types, hasmissing) →
  let delivered :=
    deliver_columns (heap w) pyreadr_types hasmissing dateformat
                    datetimeformat 0 (df_columns df) in
  let sequence :=
    schema_calls path file_format df df_name pyreadr_types
    ++ cell_calls pyreadr_types 0 (df_columns df) delivered.1
    ++ match delivered.2 with None => [c_close] | Some _ => [] end in
  ∃ w',
    write_r path file_format df df_name dateformat datetimeformat w
      = (verdict (refusal (calls w) sequence) delivered.2, w') ∧
    (refusal (calls w) sequence = None → calls w' = calls w ++ sequence) ∧
    (∀ e, refusal (calls w) sequence = Some e →
       ∃ before c after,
         sequence = before ++ c :: after ∧
         calls w' = calls w ++ before ++ [c] ∧
         writer (calls w ++ before) c = Some e) ∧
    Forall (fun tv => length tv = df_nrows df) delivered.1 ∧
    (delivered.2 = None → length delivered.1 = length (df_columns df)) ∧
    Forall (fun c =>
      ∃ tag b,
        column_type (heap w) df (col_name c) (col_dtype c) = Ok (tag, b) ∧
        primitive_of pyreadr_types c = primitive tag) (df_columns df).
Proof.
  intros [Hnd Hbufs] Hcls delivered sequence.
  destruct (classified_columns _ _ _ _ Hnd Hcls)
    as (librdata_types & Hmap & _ & Hcols).
  assert (issues (heap w)
            (invoke (c_open path file_format) ;;
             invoke (c_set_row_count (df_nrows df)) ;;
             invoke (c_set_table_name df_name) ;;
             for_each (map col_name (df_columns df)) (fun col_name =>
               curtype ← lift (od_get col_name librdata_types);
               invoke (c_add_column col_name curtype)) ;;
             for_enumerate 0 (map col_name (df_columns df))
               (fun indx column =>
                  s ← lift (df_getitem df column);
                  col ← copy s;
                  dtype ← lift (od_get column pyreadr_types);
                  has_missing ← lift (list_getitem hasmissing indx);
                  tcol ← transform_data col dtype has_missing dateformat
                                        datetimeformat;
                  tcol ← tolist tcol;
                  curtype ← lift (od_get column librdata_types);
                  for_enumerate 0 tcol (fun row_indx val =>
                    invoke (c_insert_value row_indx indx val curtype))) ;;
             invoke c_close)
            sequence delivered.2) as Hissues.
  { unfold sequence, schema_calls. rewrite <- app_assoc.
    apply (issues_seq _ _ _ [_]); [apply issues_invoke|].
    apply (issues_seq _ _ _ [_]); [apply issues_invoke|].
    apply (issues_seq _ _ _ [_]); [apply issues_invoke|].
    apply issues_seq.
    { apply issues_add_columns.
      eapply Forall_impl; [exact Hcols|]. cbn.
      intros c (tag & b & _ & _ & _ & Hprim & ->). exact Hprim. }
    assert (Forall (fun c =>
              is_Some (heap w !! col_data c) ∧
              df_getitem df (col_name c)
                = Ok (MkSeries (col_dtype c) (seq 0 (df_nrows df))
                               (col_data c)) ∧
              od_get (col_name c) librdata_types
                = Ok (primitive_of pyreadr_types c)) (df_columns df))
      as Hpre.
    { apply Forall_forall. intros c Hc.
      rewrite Forall_forall in Hbufs, Hcols.
      destruct (Hbufs c Hc) as (vs & Hvs & _).
      destruct (Hcols c Hc) as (tag & b & _ & _ & _ & Hprim & Heq).
      split_and!; [by eexists|by apply df_getitem_nodup|].
      by rewrite Heq. }
    pose proof (issues_columns (heap w) df pyreadr_types hasmissing
                  librdata_types dateformat datetimeformat (df_columns df)
                  0 Hpre) as Hloop.
    cbn zeta in Hloop. fold delivered in Hloop.
    destruct delivered.2 as [e|].
    - rewrite app_nil_r. by apply issues_seq_raise.
    - apply issues_seq; [exact Hloop|apply issues_invoke]. }
  destruct (Hissues w (reflexivity _)) as (w' & Hrun & _ & Hcalls).
  exists w'. split_and!.
  - unfold write_r. rewrite run_bind. unfold get_heap at 1.
    rewrite run_bind. unfold lift at 1. rewrite Hcls. cbn [fst snd].
    rewrite run_bind. unfold lift at 1. rewrite Hmap. exact Hrun.
  - intros Hacc. by rewrite Hcalls, (issue_accepted _ _ Hacc).
  - intros e (before & c & after & Hseq & Hiss & _ & Hc)%refusal_split.
    exists before, c, after. split_and!; [done| |done].
    by rewrite Hcalls, Hiss.
  - apply (deliver_columns_length (heap w) pyreadr_types hasmissing
             dateformat datetimeformat (df_nrows df) (df_columns df) 0).
    eapply Forall_impl; [exact Hbufs|]. cbn.
    intros c (vs & Hvs & Hlen). unfold buffer. by rewrite Hvs.
  - apply (deliver_columns_length (heap w) pyreadr_types hasmissing
             dateformat datetimeformat (df_nrows df) (df_columns df) 0).
    eapply Forall_impl; [exact Hbufs|]. cbn.
    intros c (vs & Hvs & Hlen). unfold buffer. by rewrite Hvs.
  - eapply Forall_impl; [exact Hcols|]. cbn.
    intros c (tag & b & Hcol & _ & _ & _ & Hprim). eauto.
Qed.

(** C7.  For every well-formed frame [write_r] goes through its steps in
    one order and stops at the first that fails.  Classification comes
    first: if it raises, the write raises the same exception and no
    Writer call is made.  Otherwise the sequence is: open for the chosen
    format, [set_row_count] with the frame's row count,
    [set_table_name], one [add_column] per column with its label and
    mapped primitive in the frame's column order, then column by column
    one [insert_value] per row with the row and column positions counted
    from 0, then close.  The Writer sees this sequence up to and
    including the first call it refuses, whose exception the write
    raises; no later call is made.  If the transformer raises on a
    column, the sequence ends before that column's insertions and
    without close. *)
Theorem write_r_call_sequence (path file_format : string) (df : DataFrame)
    (df_name : pyarg) (dateformat datetimeformat : string) (w : world) :
  frame_wf (heap w) df →
  match get_pyreadr_column_types (heap w) df with
  | Raise e =>
      write_r path file_format df df_name dateformat datetimeformat w
      = (Raise e, w)
  | Ok (pyreadr_types, hasmissing) =>
      let delivered :=
        deliver_columns (heap w) pyreadr_types hasmissing dateformat
                        datetimeformat 0 (df_columns df) in
      let sequence :=
        schema_calls path file_format df df_name pyreadr_types
        ++ cell_calls pyreadr_types 0 (df_columns df) delivered.1
        ++ match delivered.2 with None => [c_close] | Some _ => [] end in
      ∃ w',
        write_r path file_format df df_name dateformat datetimeformat w
          = (verdict (refusal (calls w) sequence) delivered.2, w') ∧
        (refusal (calls w) sequence = None → calls w' = calls w ++ sequence) ∧
        (∀ e, refusal (calls w) sequence = Some e →
           ∃ before c after,
             sequence = before ++ c :: after ∧
             calls w' = calls w ++ before ++ [c] ∧
             writer (calls w ++ before) c = Some e) ∧
        Forall (fun tv => length tv = df_nrows df) delivered.1 ∧
        (delivered.2 = None → length delivered.1 = length (df_columns df)) ∧
        Forall (fun c =>
          ∃ tag b,
            column_type (heap w) df (col_name c) (col_dtype c) = Ok (tag, b) ∧
            primitive_of pyreadr_types c = primitive tag) (df_columns df)
  end.
Proof.
  intros Hwf.
  destruct (get_pyreadr_column_types (heap w) df) as [[types hm]|e] eqn:Hcls.
  - by apply write_r_sequence_classified.
  - by apply write_r_classification_raises.
Qed.

(** * Further properties *)

(** ** Rows and values *)

Lemma missing_mask_values (rows : list (nat * value)) :
  existsb id (map (fun r : nat * value => isna r.2) rows)
  = existsb isna rows.*2.
Proof. induction rows as [|r rows IH]; cbn; [done|]. by rewrite IH. Qed.

Lemma all_of_type_dropna t (rows : list (nat * value)) :
  all_of_type t (dropna rows)
  = forallb (fun v => isna v || bool_decide (type_of v = t)) rows.*2.
Proof.
  unfold all_of_type, dropna, notnull.
  induction rows as [|r rows IH]; cbn; [done|].
  destruct (isna r.2); cbn; by rewrite IH.
Qed.

Lemma all_missing_values (rows : list (nat * value)) :
  forallb (fun r : nat * value => isna r.2) rows = forallb isna rows.*2.
Proof. induction rows as [|r rows IH]; cbn; [done|]. by rewrite IH. Qed.

(** The rows of a column of a well-formed frame: its values, labelled
    from 0. *)
Lemma frame_column_items h df c :
  frame_wf h df → c ∈ df_columns df →
  ∃ s, df_getitem df (col_name c) = Ok s ∧
       s_data s = col_data c ∧
       items h s = zip (seq 0 (length (buffer h (col_data c))))
                       (buffer h (col_data c)).
Proof.
  intros [Hnd Hbufs] Hc. eexists. split; [by apply df_getitem_nodup|].
  split; [done|]. unfold items. cbn [s_index s_data].
  rewrite Forall_forall in Hbufs. destruct (Hbufs c Hc) as (vs & Hvs & Hlen).
  unfold buffer. rewrite Hvs. cbn. by rewrite Hlen.
Qed.

Lemma column_type_object_branch h df name ty s :
  working_dtype ty = N_object →
  df_getitem df name = Ok s →
  column_type h df name ty = object_column_type ty (items h s).
Proof.
  intros Hty Hs. destruct ty as [d|d categories]; cbn in Hty; subst d.
  - by apply column_type_object.
  - unfold column_type. rewrite Hs. done.
Qed.

Lemma zip_seq_values (vs : list value) (start : nat) :
  (zip (seq start (length vs)) vs).*2 = vs.
Proof. apply snd_zip. by rewrite length_seq. Qed.

(** ** The classifier, column by column *)

Lemma frame_column_first_present h df c x rest :
  frame_wf h df → c ∈ df_columns df →
  working_dtype (col_dtype c) = N_object →
  buffer h (col_data c) = x :: rest →
  isna x = false →
  apply_gives_array (col_dtype c) (type_of x) = true →
  column_type h df (col_name c) (col_dtype c)
  = Ok (if forallb (fun v => isna v || bool_decide (type_of v = type_of x))
                   rest
        then tag_of_curtype (type_of x) else "OBJECT",
        existsb isna rest).
Proof.
  intros Hwf Hc Hty Hbuf Hx Harr.
  destruct (frame_column_items h df c Hwf Hc) as (s & Hs & _ & Hitems).
  rewrite (column_type_object_branch h df _ _ s Hty Hs), Hitems, Hbuf.
  cbn [length seq zip zip_with].
  rewrite (object_column_type_first_present _ x _ Hx Harr).
  by rewrite all_of_type_dropna, missing_mask_values, zip_seq_values.
Qed.

Lemma frame_column_first_present_categorical h df c x rest :
  frame_wf h df → c ∈ df_columns df →
  working_dtype (col_dtype c) = N_object →
  buffer h (col_data c) = x :: rest →
  isna x = false →
  apply_gives_array (col_dtype c) (type_of x) = false →
  column_type h df (col_name c) (col_dtype c) = Raise TypeError.
Proof.
  intros Hwf Hc Hty Hbuf Hx Harr.
  destruct (frame_column_items h df c Hwf Hc) as (s & Hs & _ & Hitems).
  rewrite (column_type_object_branch h df _ _ s Hty Hs), Hitems, Hbuf.
  cbn [length seq zip zip_with].
  by apply object_column_type_first_present_categorical.
Qed.

(** X1.  An object column (plain, or categorical over objects) of a
    well-formed frame whose first row is present.  The reference class is
    the first entry's.  On a categorical column whose categories have
    distinct images under the comparison with the reference class (a
    single category, or two categories of which one is of another class)
    the classifier raises [TypeError].  On every other column it
    returns: the tag is OBJECT as soon as a later non-missing entry is of
    another class, and the tag of the reference class otherwise; the
    flag tells whether a later entry is missing. *)
Theorem object_column_first_row_present h df c x rest :
  frame_wf h df → c ∈ df_columns df →
  working_dtype (col_dtype c) = N_object →
  buffer h (col_data c) = x :: rest →
  isna x = false →
  column_type h df (col_name c) (col_dtype c)
  = if apply_gives_array (col_dtype c) (type_of x)
    then Ok (if forallb (fun v => isna v
                                  || bool_decide (type_of v = type_of x))
                        rest
             then tag_of_curtype (type_of x) else "OBJECT",
             existsb isna rest)
    else Raise TypeError.
Proof.
  intros Hwf Hc Hty Hbuf Hx.
  destruct (apply_gives_array _ _) eqn:Harr.
  - by apply frame_column_first_present.
  - by eapply frame_column_first_present_categorical.
Qed.

Lemma frame_column_all_missing h df c :
  frame_wf h df → c ∈ df_columns df →
  working_dtype (col_dtype c) = N_object →
  buffer h (col_data c) ≠ [] →
  forallb isna (buffer h (col_data c)) = true →
  column_type h df (col_name c) (col_dtype c) = Ok ("LOGICAL", true).
Proof.
  intros Hwf Hc Hty Hne Hall.
  destruct (frame_column_items h df c Hwf Hc) as (s & Hs & _ & Hitems).
  rewrite (column_type_object_branch h df _ _ s Hty Hs), Hitems.
  destruct (buffer h (col_data c)) as [|x rest] eqn:Hbuf; [done|].
  cbn [length seq zip zip_with].
  apply object_column_type_all_missing.
  rewrite all_missing_values. cbn [fmap list_fmap snd].
  by rewrite zip_seq_values.
Qed.

(** X2.  An object column with rows, all of them missing, is tagged LOGICAL
    and flagged. *)
Theorem object_column_all_missing h df c :
  frame_wf h df → c ∈ df_columns df →
  working_dtype (col_dtype c) = N_object →
  buffer h (col_data c) ≠ [] →
  forallb isna (buffer h (col_data c)) = true →
  column_type h df (col_name c) (col_dtype c) = Ok ("LOGICAL", true).
Proof. apply frame_column_all_missing. Qed.

Lemma frame_column_datetime h df c :
  frame_wf h df → c ∈ df_columns df →
  working_dtype (col_dtype c) = N_datetime64ns →
  column_type h df (col_name c) (col_dtype c)
  = Ok ("DATETIME", existsb isna (buffer h (col_data c))).
Proof.
  intros Hwf Hc Hty.
  destruct (frame_column_items h df c Hwf Hc) as (s & Hs & _ & Hitems).
  unfold column_type.
  destruct (col_dtype c) as [d|d]; cbn in Hty; subst d; rewrite ?Hs;
    cbn; rewrite ?Hs; cbn;
    by rewrite Hitems, missing_mask_values, zip_seq_values.
Qed.

(** X3.  A datetime64[ns] column is tagged DATETIME and flagged exactly when
    one of its entries is missing. *)
Theorem datetime_column_flag h df c :
  frame_wf h df → c ∈ df_columns df →
  working_dtype (col_dtype c) = N_datetime64ns →
  column_type h df (col_name c) (col_dtype c)
  = Ok ("DATETIME", existsb isna (buffer h (col_data c))).
Proof. apply frame_column_datetime. Qed.

(** A column whose values the classifier does not look at gets its tag
    from the dtype and is not flagged. *)
Lemma column_type_declared h df c :
  c ∈ df_columns df →
  reads_values (col_dtype c) = false →
  column_type h df (col_name c) (col_dtype c)
  = Ok (declared_tag (working_dtype (col_dtype c)), false).
Proof.
  intros Hin Hval. unfold column_type, declared_tag.
  assert (∃ s, df_getitem df (col_name c) = Ok s) as [s Hs].
  { unfold df_getitem.
    destruct (find _ (df_columns df)) as [c'|] eqn:Hfind; [eauto|].
    exfalso. apply list_elem_of_In in Hin.
    eapply find_none in Hfind; [|exact Hin].
    cbn in Hfind. by rewrite bool_decide_eq_true_2 in Hfind. }
  unfold reads_values in Hval. apply orb_false_elim in Hval as [Hdt Hobj].
  destruct (col_dtype c) as [d|d]; cbn [working_dtype] in *; rewrite ?Hs;
    cbn [mbind outcome_bind];
    destruct (py_in (Dt d) int_types); [done| |done|];
    destruct (py_in (Dt d) float_types); [done| |done|];
    destruct (eq_np_bool (Dt d)); [done| |done|];
    by rewrite Hdt, Hobj.
Qed.

(** ** The classifier on whole frames *)

Lemma traverse_raise {A B} (f : A → outcome B) xs e :
  traverse f xs = Raise e → Exists (fun x => f x = Raise e) xs.
Proof.
  induction xs as [|x xs IH]; cbn; [done|].
  destruct (f x) as [y|e'] eqn:Hfx; cbn.
  - destruct (traverse f xs) as [ys|e'']; cbn; [done|].
    intros [= ->]. apply Exists_cons_tl. by apply IH.
  - intros [= ->]. by apply Exists_cons_hd.
Qed.

Lemma traverse_all_ok {A B} (f : A → outcome B) xs :
  Forall (fun x => ∃ y, f x = Ok y) xs → ∃ ys, traverse f xs = Ok ys.
Proof.
  induction 1 as [|x xs [y Hy] _ [ys IH]]; cbn; [by eexists|].
  rewrite Hy, IH. by eexists.
Qed.

Lemma column_type_raises h df name ty e :
  column_type h df name ty = Raise e → e = KeyError ∨ e = TypeError.
Proof.
  clear writer py_str py_strftime py_int int32_overflow expanduser
    pd_setitem tolist_item.
  unfold column_type, object_column_type, np_all_equal, series_getitem,
    df_getitem, mbind, outcome_bind.
  intros H.
  repeat (first [ progress simplify_eq | case_match ]);
    (by left) || (by right).
Qed.

(** What one iteration does with a column of a well-formed frame: on an
    object column that is not classifiable it raises, [TypeError] when
    the first row is present and [KeyError] otherwise; it returns on
    every other column. *)
Lemma column_type_outcome h df c :
  frame_wf h df → c ∈ df_columns df →
  if bool_decide (working_dtype (col_dtype c) = N_object)
     && negb (classifiable (col_dtype c) (buffer h (col_data c)))
  then column_type h df (col_name c) (col_dtype c)
       = Raise (match buffer h (col_data c) with
                | x :: _ => if isna x then KeyError else TypeError
                | [] => KeyError
                end)
  else ∃ r, column_type h df (col_name c) (col_dtype c) = Ok r.
Proof.
  intros Hwf Hc. case_bool_decide as Hobj; cbn [andb].
  - destruct (frame_column_items h df c Hwf Hc) as (s & Hs & _ & Hitems).
    destruct (buffer h (col_data c)) as [|x rest] eqn:Hbuf; cbn [classifiable negb].
    + rewrite (column_type_object_branch h df _ _ s Hobj Hs), Hitems. done.
    + destruct (isna x) eqn:Hx.
      * destruct (forallb isna rest) eqn:Hall; cbn [negb].
        -- eexists. apply frame_column_all_missing; try done.
           ++ by rewrite Hbuf.
           ++ rewrite Hbuf. cbn. by rewrite Hx, Hall.
        -- rewrite (column_type_object_branch h df _ _ s Hobj Hs), Hitems.
           cbn [length seq zip zip_with].
           apply object_column_type_first_missing; [done| |].
           ++ apply zip_seq_labels.
           ++ clear -Hall. revert Hall. generalize 1.
              induction rest as [|v rest IH]; intros n; cbn; [done|].
              unfold notnull at 1. destruct (isna v); cbn; [|done].
              apply IH.
      * destruct (apply_gives_array _ _) eqn:Harr; cbn [negb].
        -- eexists. by eapply frame_column_first_present.
        -- by eapply frame_column_first_present_categorical.
  - destruct (reads_values (col_dtype c)) eqn:Hval.
    + unfold reads_values in Hval.
      destruct (working_dtype (col_dtype c)) eqn:Hd; try done.
      eexists. by apply frame_column_datetime.
    + eexists. by apply column_type_declared.
Qed.

(** X4.  On a well-formed frame the classifier returns exactly when every
    object column has a row and either has all rows missing, or has its
    first row present and is not a categorical whose categories have
    distinct images under the comparison with the first entry's class;
    and whatever the frame, the exceptions it raises are [KeyError] and
    [TypeError]. *)
Theorem classification_returns_exactly h df :
  frame_wf h df →
  ((∃ r, get_pyreadr_column_types h df = Ok r) ↔
   Forall (fun c => working_dtype (col_dtype c) = N_object →
                    classifiable (col_dtype c) (buffer h (col_data c))
                    = true)
          (df_columns df)) ∧
  (∀ e, get_pyreadr_column_types h df = Raise e →
        e = KeyError ∨ e = TypeError).
Proof.
  intros Hwf. rewrite get_pyreadr_column_types_eq. split; [split|].
  - intros [r Hr].
    destruct (traverse _ (df_columns df)) as [tbs|] eqn:Htr; [|done].
    apply Forall_forall. intros c Hc Hobj.
    pose proof (column_type_outcome h df c Hwf Hc) as Hout.
    rewrite bool_decide_eq_true_2 in Hout by done. cbn [andb] in Hout.
    destruct (classifiable _ _); [done|]. cbn in Hout.
    apply list_elem_of_lookup in Hc as [i Hi].
    destruct (traverse_lookup _ _ _ _ _ Htr Hi) as (tb & _ & Hok).
    congruence.
  - intros Hall.
    destruct (traverse_all_ok
                (fun c => column_type h df (col_name c) (col_dtype c))
                (df_columns df)) as [tbs ->]; [|by eexists].
    apply Forall_forall. intros c Hc.
    pose proof (column_type_outcome h df c Hwf Hc) as Hout.
    rewrite Forall_forall in Hall.
    case_bool_decide as Hobj; cbn [andb] in Hout; [|done].
    by rewrite (Hall c Hc Hobj) in Hout.
  - intros e He.
    destruct (traverse _ (df_columns df)) as [tbs|e'] eqn:Htr; [done|].
    cbn in He. injection He as ->.
    apply traverse_raise, Exists_exists in Htr as (c & _ & Hc).
    by eapply column_type_raises.
Qed.

Lemma traverse_ok_ext {A B} (f : A → outcome B) (g : A → B) xs :
  (∀ x, x ∈ xs → f x = Ok (g x)) → traverse f xs = Ok (map g xs).
Proof.
  induction xs as [|x xs IH]; intros Hf; cbn; [done|].
  rewrite (Hf x) by left. rewrite IH; [done|].
  intros y Hy. apply Hf. by right.
Qed.

Lemma foldl_zip_map {A B C} (F : C → A → B → C) (g : A → B) xs : ∀ acc,
  foldl (fun d (x : A * B) => F d x.1 x.2) acc (zip xs (map g xs))
  = foldl (fun d x => F d x (g x)) acc xs.
Proof. induction xs as [|x xs IH]; intros acc; cbn; [done|]. apply IH. Qed.

(** X5.  A frame without datetime64[ns] and object columns is classified from
    its dtypes alone: the classifier returns, whatever the values are,
    with the tag of each dtype and no column flagged.  A dtype that is
    none of those named in the configuration (float32, for one) is
    tagged OBJECT. *)
Theorem classification_from_dtypes_alone h df :
  Forall (fun c => reads_values (col_dtype c) = false) (df_columns df) →
  get_pyreadr_column_types h df
  = Ok (foldl (fun d c =>
                 od_set (col_name c)
                        (declared_tag (working_dtype (col_dtype c))) d)
              [] (df_columns df),
        replicate (length (df_columns df)) false).
Proof.
  intros Hall. rewrite get_pyreadr_column_types_eq.
  rewrite (traverse_ok_ext _
             (fun c => (declared_tag (working_dtype (col_dtype c)), false))).
  2: { intros c Hc. apply column_type_declared; [done|].
       rewrite Forall_forall in Hall. by apply Hall. }
  cbn [mbind outcome_bind]. f_equal. f_equal.
  - apply (foldl_zip_map
             (fun d (c : column) (tb : string * bool) =>
                od_set (col_name c) tb.1 d)).
  - clear. induction (df_columns df) as [|c cols IH]; cbn; [done|].
    by rewrite IH.
Qed.

Lemma classified_lookup h df pyreadr_types hasmissing :
  NoDup (map col_name (df_columns df)) →
  get_pyreadr_column_types h df = Ok (pyreadr_types, hasmissing) →
  pyreadr_types.*1 = map col_name (df_columns df) ∧
  length hasmissing = length (df_columns df) ∧
  ∀ i c, df_columns df !! i = Some c →
    ∃ tag b,
      column_type h df (col_name c) (col_dtype c) = Ok (tag, b) ∧
      tag ∈ semantic_tags ∧
      od_get (col_name c) pyreadr_types = Ok tag ∧
      hasmissing !! i = Some b.
Proof.
  intros Hnd Hcls.
  destruct (classified_columns h df _ _ Hnd Hcls)
    as (prims & _ & Hlen & Hcols).
  rewrite get_pyreadr_column_types_eq in Hcls.
  destruct (traverse _ (df_columns df)) as [tbs|] eqn:Htr; [|done].
  cbn in Hcls. injection Hcls as Htypes Hmiss.
  pose proof (traverse_length _ _ _ Htr) as Hlen'.
  split_and!; [|done|].
  - assert ((zip (df_columns df) tbs).*1 = df_columns df) as Hfst
      by (apply fst_zip; lia).
    assert (map (fun x : column * (string * bool) => col_name x.1)
                (zip (df_columns df) tbs)
            = map col_name (df_columns df)) as Hnames.
    { rewrite <- Hfst at 2. by rewrite <- list_fmap_compose. }
    rewrite (foldl_od_set_fresh
               (fun x : column * (string * bool) => col_name x.1)
               (fun x => x.2.1)) in Htypes
      by (cbn [fmap list_fmap app]; by rewrite Hnames).
    rewrite <- Htypes. cbn [app]. rewrite <- list_fmap_compose.
    exact Hnames.
  - intros i c Hi.
    assert (c ∈ df_columns df) as Hc by (by eapply list_elem_of_lookup_2).
    rewrite Forall_forall in Hcols.
    destruct (Hcols c Hc) as (tag & b & Hcol & Htag & Hget & _).
    destruct (traverse_lookup _ _ _ _ _ Htr Hi) as (tb & Htb & Hcol').
    rewrite Hcol in Hcol'. injection Hcol' as <-.
    exists tag, b. split_and!; [done|done|done|].
    by rewrite <- Hmiss, list_lookup_fmap, Htb.
Qed.

(** X6.  What the classifier returns for a frame with unique column labels:
    the dict has the labels as keys, in column order, and the flag list
    has one entry per column; looking a column up by its label gives the
    tag its iteration computed, one of the seven, and the column's
    position in the flag list gives its flag. *)
Theorem classifier_records_each_column h df pyreadr_types hasmissing :
  NoDup (map col_name (df_columns df)) →
  get_pyreadr_column_types h df = Ok (pyreadr_types, hasmissing) →
  pyreadr_types.*1 = map col_name (df_columns df) ∧
  length hasmissing = length (df_columns df) ∧
  ∀ i c, df_columns df !! i = Some c →
    ∃ tag b,
      column_type h df (col_name c) (col_dtype c) = Ok (tag, b) ∧
      tag ∈ semantic_tags ∧
      od_get (col_name c) pyreadr_types = Ok tag ∧
      hasmissing !! i = Some b.
Proof. apply classified_lookup. Qed.

(** ** The transformer, tag by tag *)

(** X7.  Whatever the tag and the flag, a run of the transformer calls no
    Writer method, and a series it returns has as many values as the one
    it was given. *)
Theorem transform_data_keeps_rows (pd_series : Series) (dtype : string)
    (has_missing : bool) (dateformat datetimeformat : string) (w : world)
    (r : outcome Series) (w' : world) :
  transform_data pd_series dtype has_missing dateformat datetimeformat w
  = (r, w') →
  calls w' = calls w ∧
  ∀ t, r = Ok t →
       length (buffer (heap w') (s_data t))
       = length (buffer (heap w) (s_data pd_series)).
Proof.
  intros Hrun.
  destruct (transform_data_spec pd_series dtype has_missing dateformat
              datetimeformat w) as (r1 & w1 & Hrun1 & Hcalls & _ & Hres).
  rewrite Hrun in Hrun1. injection Hrun1 as <- <-.
  split; [done|]. intros t ->.
  destruct (transform_values _ _ _ _ _ _) as [[d tvs]|e] eqn:Htv; [|done].
  destruct Hres as (t' & [= <-] & Hbuf & _).
  rewrite Hbuf. by apply transform_values_length in Htv.
Qed.

(** X8.  For the tag OBJECT and a series of dtype object the transformer
    returns the series it was given, in whose buffer every entry that is
    not missing has been replaced by its [str] and every missing entry is
    as it was.  ([str] is a total function here, so this branch does not
    raise.) *)
Theorem transform_object_in_place (pd_series : Series) (has_missing : bool)
    (dateformat datetimeformat : string) (w : world) :
  is_object_dtype (s_dtype pd_series) = true →
  transform_data pd_series "OBJECT" has_missing dateformat datetimeformat w
  = (Ok pd_series,
     World (<[s_data pd_series :=
               map (fun x => if isna x then x else VStr (py_str x))
                   (buffer (heap w) (s_data pd_series))]> (heap w))
           (calls w)).
Proof.
  intros Hobj. unfold transform_data. cbn [bool_decide decide_rel].
  change (bool_decide ("OBJECT" = "INTEGER")) with false.
  change (bool_decide ("OBJECT" = "NUMERIC")) with false.
  change (bool_decide ("OBJECT" = "LOGICAL")) with false.
  change (bool_decide ("OBJECT" = "CHARACTER")) with false.
  change (bool_decide ("OBJECT" = "OBJECT")) with true.
  cbv iota. rewrite loc_notnull_apply_run.
  rewrite (traverse_ok_ext _
             (fun x => if isna x then x else VStr (py_str x))).
  - rewrite setitem_run, (assigned_object _ _ _ Hobj). cbn [fst snd].
    by destruct pd_series.
  - intros x _. unfold notnull. by destruct (isna x).
Qed.

(** X9.  A tag outside the seven makes the transformer raise [PyreadrError]
    and leaves the world as it was. *)
Theorem transform_unknown_tag (pd_series : Series) (dtype : string)
    (has_missing : bool) (dateformat datetimeformat : string) (w : world) :
  dtype ∉ semantic_tags →
  transform_data pd_series dtype has_missing dateformat datetimeformat w
  = (Raise (PyreadrError "Unkown pyreadr data type"), w).
Proof.
  clear writer expanduser tolist_item.
  intros Hout. unfold transform_data, semantic_tags in *.
  repeat (case_bool_decide; [exfalso; apply Hout; subst; set_solver|]).
  done.
Qed.

(** X10.  For the tags INTEGER, NUMERIC, LOGICAL and CHARACTER without the
    has-missing flag, the transformer writes to no existing buffer, the
    one of its argument included: what it changes is in a new series. *)
Theorem transform_without_flag_writes_nothing (pd_series : Series)
    (dtype : string) (dateformat datetimeformat : string) (w : world) :
  dtype ∈ ["INTEGER"; "NUMERIC"; "LOGICAL"; "CHARACTER"] →
  heap w ⊆ heap (transform_data pd_series dtype false dateformat
                                datetimeformat w).2.
Proof.
  intros Hin.
  assert (∀ w : world,
            heap w ⊆ heap ((s ← mret pd_series; astype_int32 s) w).2)
    as Hnarrow.
  { intros w0. rewrite run_bind, run_ret, astype_int32_run.
    destruct (traverse int32_of _); cbn [snd heap]; [|done].
    apply insert_subseteq, fresh_unused. }
  repeat (apply elem_of_cons in Hin as [->|Hin]);
    [apply Hnarrow|done|apply Hnarrow|done|by apply elem_of_nil in Hin].
Qed.

Lemma format_branch_run (pd_series : Series) (fmt : string) (w : world) :
  is_object_dtype (s_dtype pd_series) = true →
  loc_notnull_apply pd_series
    (fun x => t ← py_strftime x fmt; Ok (VStr t)) w
  = match traverse (fun v => if notnull v
                             then t ← py_strftime v fmt; Ok (VStr t)
                             else Ok v)
                   (buffer (heap w) (s_data pd_series)) with
    | Ok new => (Ok pd_series,
                 World (<[s_data pd_series := new]> (heap w)) (calls w))
    | Raise e => (Raise e, w)
    end.
Proof.
  intros Hobj. rewrite loc_notnull_apply_run.
  destruct (traverse _ _); [|done].
  rewrite setitem_run, (assigned_object _ _ _ Hobj). cbn [fst snd].
  by destruct pd_series.
Qed.

(** X11.  On a series of dtype object a DATE column is formatted with the
    date format and a DATETIME column with the datetime format, all or
    nothing: when [strftime] works on every entry that is not missing,
    the transformer returns the series it was given, with those entries
    replaced by the formatted text and the missing ones as they were;
    when [strftime] raises on one of them, the transformer raises and
    nothing has been written.  (A series of another dtype, datetime64[ns]
    for one, holds after the assignment what pandas makes of the text.) *)
Theorem transform_dates_all_or_nothing (pd_series : Series) (dtype : string)
    (has_missing : bool) (dateformat datetimeformat : string) (w : world) :
  dtype = "DATE" ∨ dtype = "DATETIME" →
  is_object_dtype (s_dtype pd_series) = true →
  let fmt := if bool_decide (dtype = "DATE") then dateformat
             else datetimeformat in
  let vs := buffer (heap w) (s_data pd_series) in
  (Forall (fun x => isna x = true ∨ ∃ t, py_strftime x fmt = Ok t) vs →
   ∃ new,
     transform_data pd_series dtype has_missing dateformat datetimeformat w
     = (Ok pd_series,
        World (<[s_data pd_series := new]> (heap w)) (calls w)) ∧
     Forall2 (fun x y => if isna x then y = x
                         else ∃ t, py_strftime x fmt = Ok t ∧ y = VStr t)
             vs new) ∧
  (Exists (fun x => isna x = false ∧ ∃ e, py_strftime x fmt = Raise e) vs →
   ∃ e,
     transform_data pd_series dtype has_missing dateformat datetimeformat w
     = (Raise e, w)).
Proof.
  intros Htag Hobj fmt vs.
  assert (transform_data pd_series dtype has_missing dateformat
            datetimeformat w
          = loc_notnull_apply pd_series
              (fun x => t ← py_strftime x fmt; Ok (VStr t)) w) as ->
    by (by destruct Htag as [-> | ->]).
  rewrite (format_branch_run _ _ _ Hobj). fold vs.
  set (g := fun v => if notnull v then t ← py_strftime v fmt; Ok (VStr t)
                     else Ok v).
  split.
  - intros Hall.
    destruct (traverse_all_ok g vs) as [new Hnew].
    { eapply Forall_impl; [exact Hall|]. unfold g, notnull. cbn.
      intros x [Hx|[t Ht]].
      - rewrite Hx. by eexists.
      - destruct (isna x); cbn; [by eexists|]. rewrite Ht. by eexists. }
    rewrite Hnew. exists new. split; [done|].
    apply traverse_Forall2 in Hnew.
    eapply Forall2_impl; [exact Hnew|]. unfold g, notnull. cbn.
    intros x y Hxy. destruct (isna x); cbn in Hxy; [congruence|].
    destruct (py_strftime x fmt) as [t|]; cbn in Hxy; [|done].
    exists t. split; [done|congruence].
  - intros Hex. destruct (traverse g vs) as [new|e] eqn:Htr; [|by eexists].
    exfalso. apply Exists_exists in Hex as (x & Hx & Hna & e & He).
    apply list_elem_of_lookup in Hx as [i Hi].
    destruct (traverse_lookup _ _ _ _ _ Htr Hi) as (y & _ & Hy).
    unfold g, notnull in Hy. rewrite Hna, He in Hy. done.
Qed.

(** ** Columns of a declared integer or boolean dtype, end to end *)

Lemma declared_integer_or_boolean d :
  py_in (Dt d) int_types || eq_np_bool (Dt d) = true →
  eq_datetime64 (Dt d) = false ∧ eq_np_object (Dt d) = false ∧
  (declared_tag d = "INTEGER" ∨ declared_tag d = "LOGICAL").
Proof.
  unfold declared_tag.
  destruct d; cbn; try done; intros _; split_and!; try done;
    (by left) || (by right).
Qed.

(** X12.  A column of a declared narrow integer or boolean dtype whose values
    are integers within the 32-bit range or booleans: its primitive is
    its tag (INTEGER or LOGICAL), and the values handed to
    [insert_value] are the same numbers, as Python integers ([True] as
    1, [False] as 0). *)
Theorem integer_column_delivered_exactly h df pyreadr_types hasmissing
    (dateformat datetimeformat : string) (i : nat) (c : column) :
  NoDup (map col_name (df_columns df)) →
  get_pyreadr_column_types h df = Ok (pyreadr_types, hasmissing) →
  df_columns df !! i = Some c →
  py_in (Dt (working_dtype (col_dtype c))) int_types
  || eq_np_bool (Dt (working_dtype (col_dtype c))) = true →
  Forall (fun v => fits_int32 v = true) (buffer h (col_data c)) →
  primitive_of pyreadr_types c = declared_tag (working_dtype (col_dtype c)) ∧
  column_delivery h pyreadr_types hasmissing dateformat datetimeformat i c
  = Ok (map (fun v => VInt I_py (int_value v)) (buffer h (col_data c))).
Proof.
  intros Hnd Hcls Hi Hdt Hfits.
  destruct (declared_integer_or_boolean _ Hdt) as (Hnodt & Hnoobj & Htag).
  assert (c ∈ df_columns df) as Hc by (by eapply list_elem_of_lookup_2).
  assert (reads_values (col_dtype c) = false) as Hval
    by (unfold reads_values; by rewrite Hnodt, Hnoobj).
  destruct (classified_lookup h df _ _ Hnd Hcls)
    as (_ & _ & Hcols).
  destruct (Hcols i c Hi) as (tag & b & Hcol & _ & Hget & Hflag).
  rewrite (column_type_declared h df c Hc Hval) in Hcol.
  injection Hcol as <- <-.
  set (tag := declared_tag (working_dtype (col_dtype c))) in *.
  assert (traverse int32_of (buffer h (col_data c))
          = Ok (map (fun v => VInt I_int32 (int_value v))
                    (buffer h (col_data c)))) as Htr.
  { apply traverse_ok_ext. intros v Hv. apply int32_of_fits.
    rewrite Forall_forall in Hfits. by apply Hfits. }
  assert (transform_values (col_dtype c) (buffer h (col_data c)) tag false
            dateformat datetimeformat
          = Ok (Plain N_int32,
                map (fun v => VInt I_int32 (int_value v))
                    (buffer h (col_data c)))) as Htv.
  { assert (transform_values (col_dtype c) (buffer h (col_data c)) tag
              false dateformat datetimeformat
            = (tvs ← traverse int32_of (buffer h (col_data c));
               Ok (Plain N_int32, tvs))) as ->
      by (by destruct Htag as [-> | ->]).
    by rewrite Htr. }
  split.
  - unfold primitive_of. rewrite Hget. cbn [mbind outcome_bind].
    by destruct Htag as [-> | ->].
  - unfold column_delivery, deliver, list_getitem.
    rewrite Hget, Hflag. cbn [mbind outcome_bind]. rewrite Htv.
    cbn [mbind outcome_bind fst snd]. by rewrite map_map.
Qed.

(** ** The orchestrator *)

(** A run of [write_r] on a well-formed frame whose classification
    succeeds: the calls it makes are the planned ones as far as the
    Writer accepts them, and the buffers that existed are kept. *)
Lemma write_r_issues (path file_format : string) (df : DataFrame)
    (df_name : pyarg) (dateformat datetimeformat : string) (w : world)
    (pyreadr_types : odict) (hasmissing : list bool) :
  frame_wf (heap w) df →
  get_pyreadr_column_types (heap w) df = Ok (pyreadr_types, hasmissing) →
  let delivered :=
    deliver_columns (heap w) pyreadr_types hasmissing dateformat
                    datetimeformat 0 (df_columns df) in
  let sequence :=
    planned_calls (heap w) path file_format df df_name pyreadr_types
                  hasmissing dateformat datetimeformat in
  ∃ w',
    write_r path file_format df df_name dateformat datetimeformat w
      = (verdict (refusal (calls w) sequence) delivered.2, w') ∧
    heap w ⊆ heap w' ∧
    calls w' = calls w ++ issue (calls w) sequence.
Proof.
  intros [Hnd Hbufs] Hcls delivered sequence.
  destruct (classified_columns _ _ _ _ Hnd Hcls)
    as (librdata_types & Hmap & _ & Hcols).
  assert (Forall (fun c =>
            is_Some (heap w !! col_data c) ∧
            df_getitem df (col_name c)
              = Ok (MkSeries (col_dtype c) (seq 0 (df_nrows df))
                             (col_data c)) ∧
            od_get (col_name c) librdata_types
              = Ok (primitive_of pyreadr_types c)) (df_columns df))
    as Hpre.
  { apply Forall_forall. intros c Hc.
    rewrite Forall_forall in Hbufs, Hcols.
    destruct (Hbufs c Hc) as (vs & Hvs & _).
    destruct (Hcols c Hc) as (tag & b & _ & _ & _ & Hprim & Heq).
    split_and!; [by eexists|by apply df_getitem_nodup|].
    by rewrite Heq. }
  pose proof (issues_columns (heap w) df pyreadr_types hasmissing
                librdata_types dateformat datetimeformat (df_columns df)
                0 Hpre) as Hloop.
  cbn zeta in Hloop. fold delivered in Hloop.
  assert (issues (heap w)
            (invoke (c_open path file_format) ;;
             invoke (c_set_row_count (df_nrows df)) ;;
             invoke (c_set_table_name df_name) ;;
             for_each (map col_name (df_columns df)) (fun col_name =>
               curtype ← lift (od_get col_name librdata_types);
               invoke (c_add_column col_name curtype)) ;;
             for_enumerate 0 (map col_name (df_columns df))
               (fun indx column =>
                  s ← lift (df_getitem df column);
                  col ← copy s;
                  dtype ← lift (od_get column pyreadr_types);
                  has_missing ← lift (list_getitem hasmissing indx);
                  tcol ← transform_data col dtype has_missing dateformat
                                        datetimeformat;
                  tcol ← tolist tcol;
                  curtype ← lift (od_get column librdata_types);
                  for_enumerate 0 tcol (fun row_indx val =>
                    invoke (c_insert_value row_indx indx val curtype))) ;;
             invoke c_close)
            sequence delivered.2) as Hissues.
  { unfold sequence, planned_calls, schema_calls. fold delivered.
    rewrite <- app_assoc.
    apply (issues_seq _ _ _ [_]); [apply issues_invoke|].
    apply (issues_seq _ _ _ [_]); [apply issues_invoke|].
    apply (issues_seq _ _ _ [_]); [apply issues_invoke|].
    apply issues_seq.
    { apply issues_add_columns.
      eapply Forall_impl; [exact Hpre|]. cbn. by intros c (_ & _ & ?). }
    destruct delivered.2 as [e|].
    - rewrite app_nil_r. by apply issues_seq_raise.
    - apply issues_seq; [exact Hloop|apply issues_invoke]. }
  destruct (Hissues w (reflexivity _)) as (w' & Hrun & Hsub & Hcalls).
  exists w'. split_and!; [|done|done].
  unfold write_r. rewrite run_bind. unfold get_heap at 1.
  rewrite run_bind. unfold lift at 1. rewrite Hcls. cbn [fst snd].
  rewrite run_bind. unfold lift at 1. rewrite Hmap. exact Hrun.
Qed.

Lemma issue_prefix hist cs : issue hist cs `prefix_of` cs.
Proof.
  revert hist. induction cs as [|c cs IH]; intros hist; cbn; [done|].
  destruct (writer hist c).
  - by apply prefix_cons, prefix_nil.
  - by apply prefix_cons.
Qed.

Lemma refusal_issue_all hist cs :
  refusal hist cs = None ↔ issue hist cs = cs ∧ refusal hist cs = None.
Proof. split; [|by intros [_ ?]]. intros H. by rewrite issue_accepted. Qed.

Lemma elem_of_cell_calls pyreadr_types (cols : list column) :
  ∀ (i0 : nat) (tcols : list (list value)) row indx val prim,
    c_insert_value row indx val prim
      ∈ cell_calls pyreadr_types i0 cols tcols →
    ∃ k c tv,
      indx = i0 + k ∧ cols !! k = Some c ∧ tcols !! k = Some tv ∧
      tv !! row = Some val ∧ prim = primitive_of pyreadr_types c.
Proof.
  induction cols as [|c cols IH]; intros i0 tcols row indx val prim Hin.
  - by apply elem_of_nil in Hin.
  - destruct tcols as [|tv tcols]; [by apply elem_of_nil in Hin|].
    cbn [cell_calls] in Hin. apply elem_of_app in Hin as [Hin|Hin].
    + unfold column_cells in Hin.
      apply elem_of_lookup_imap in Hin as (r & v & [= -> -> -> ->] & Hv).
      exists 0, c, tv. split_and!; (done || lia).
    + destruct (IH _ _ _ _ _ _ Hin) as (k & c' & tv' & -> & Hc & Htv & Hv & ->).
      exists (S k), c', tv'. split_and!; (done || lia).
Qed.

Lemma cell_calls_are_insertions pyreadr_types (cols : list column) :
  ∀ (i0 : nat) (tcols : list (list value)),
    Forall (fun c => ∃ row indx val prim, c = c_insert_value row indx val prim)
           (cell_calls pyreadr_types i0 cols tcols).
Proof.
  induction cols as [|c cols IH]; intros i0 [|tv tcols]; cbn [cell_calls];
    try by constructor.
  apply Forall_app. split; [|apply IH].
  apply Forall_forall. intros x Hx. unfold column_cells in Hx.
  apply elem_of_lookup_imap in Hx as (r & v & -> & _). by eexists _, _, _, _.
Qed.

Lemma schema_calls_no_insertion path file_format df df_name pyreadr_types
    row indx val prim :
  c_insert_value row indx val prim
    ∉ schema_calls path file_format df df_name pyreadr_types.
Proof.
  unfold schema_calls. intros Hin.
  apply elem_of_app in Hin as [Hin|Hin].
  - repeat (apply elem_of_cons in Hin as [Hin|Hin]; [done|]).
    by apply elem_of_nil in Hin.
  - apply list_elem_of_fmap in Hin as (c & Hc & _). done.
Qed.

Lemma length_cell_calls pyreadr_types (n : nat) (cols : list column) :
  ∀ (i0 : nat) (tcols : list (list value)),
    Forall (fun tv => length tv = n) tcols →
    length tcols = length cols →
    length (cell_calls pyreadr_types i0 cols tcols) = length cols * n.
Proof.
  induction cols as [|c cols IH]; intros i0 [|tv tcols] Hlens Hlen;
    cbn in *; try done.
  apply Forall_cons in Hlens as [Htv Hlens].
  rewrite length_app, (IH (S i0) tcols) by (done || lia).
  unfold column_cells. rewrite length_imap. lia.
Qed.

Lemma prefix_snoc_elem {A} (l pre : list A) (x : A) :
  l `prefix_of` (pre ++ [x]) → x ∈ l → x ∉ pre → l = pre ++ [x].
Proof.
  intros [rest Hrest] Hin Hout.
  destruct rest as [|y rest _] using rev_ind.
  - by rewrite app_nil_r in Hrest.
  - rewrite app_assoc in Hrest. apply app_inj_tail in Hrest as [Hpre _].
    exfalso. apply Hout. rewrite Hpre. apply elem_of_app. by left.
Qed.

Lemma deliver_columns_lookup h pyreadr_types hasmissing dateformat
    datetimeformat (cols : list column) :
  ∀ (i0 k : nat) c tv,
    cols !! k = Some c →
    (deliver_columns h pyreadr_types hasmissing dateformat datetimeformat
                     i0 cols).1 !! k = Some tv →
    column_delivery h pyreadr_types hasmissing dateformat datetimeformat
                    (i0 + k) c = Ok tv.
Proof.
  induction cols as [|c' cols IH]; intros i0 k c tv Hc Htv; [done|].
  cbn [deliver_columns] in Htv.
  destruct (column_delivery h pyreadr_types hasmissing dateformat
              datetimeformat i0 c') as [tv'|e] eqn:Hdel; [|done].
  destruct k as [|k]; cbn in Hc, Htv.
  - injection Hc as <-. injection Htv as <-.
    by replace (i0 + 0) with i0 by lia.
  - replace (i0 + S k) with (S i0 + k) by lia. by eapply IH.
Qed.

(** X13.  Close is the last thing [write_r] does and it does it only after
    every other planned call was accepted: a write that raises because
    the Writer refused an earlier call, or because the transformer
    raised, has not called close; a write that returns has. *)
Theorem close_only_after_all_calls (path file_format : string)
    (df : DataFrame) (df_name : pyarg) (dateformat datetimeformat : string)
    (w : world) (pyreadr_types : odict) (hasmissing : list bool) :
  frame_wf (heap w) df →
  get_pyreadr_column_types (heap w) df = Ok (pyreadr_types, hasmissing) →
  let run := write_r path file_format df df_name dateformat datetimeformat w in
  let delivered :=
    deliver_columns (heap w) pyreadr_types hasmissing dateformat
                    datetimeformat 0 (df_columns df) in
  ∃ issued,
    calls run.2 = calls w ++ issued ∧
    (c_close ∈ issued →
       delivered.2 = None ∧
       issued = schema_calls path file_format df df_name pyreadr_types
                ++ cell_calls pyreadr_types 0 (df_columns df) delivered.1
                ++ [c_close]) ∧
    (run.1 = Ok tt → last issued = Some c_close).
Proof.
  intros Hwf Hcls run delivered. subst run delivered.
  destruct (write_r_issues path file_format df df_name dateformat
              datetimeformat w _ _ Hwf Hcls) as (w' & Hrun & _ & Hcalls).
  rewrite Hrun. cbn [fst snd]. unfold planned_calls in *.
  pose proof (cell_calls_are_insertions pyreadr_types (df_columns df) 0
                (deliver_columns (heap w) pyreadr_types hasmissing
                   dateformat datetimeformat 0 (df_columns df)).1) as Hcells.
  destruct (deliver_columns (heap w) pyreadr_types hasmissing dateformat
              datetimeformat 0 (df_columns df)) as [tcols failure].
  cbn [fst snd] in *.
  eexists. split; [exact Hcalls|].
  assert (c_close ∉ schema_calls path file_format df df_name pyreadr_types
                    ++ cell_calls pyreadr_types 0 (df_columns df) tcols)
    as Hout.
  { intros [Hs|Hc]%elem_of_app.
    - unfold schema_calls in Hs. apply elem_of_app in Hs as [Hs|Hs].
      + repeat (apply elem_of_cons in Hs as [Hs|Hs]; [done|]).
        by apply elem_of_nil in Hs.
      + apply list_elem_of_fmap in Hs as (c & Hc & _). done.
    - rewrite Forall_forall in Hcells.
      by destruct (Hcells _ Hc) as (? & ? & ? & ? & ?). }
  split.
  - intros Hin.
    pose proof (issue_prefix (calls w)
                  (schema_calls path file_format df df_name pyreadr_types
                   ++ cell_calls pyreadr_types 0 (df_columns df) tcols
                   ++ match failure with
                      | Some _ => []
                      | None => [c_close]
                      end)) as Hpre.
    destruct failure as [e|].
    + rewrite app_nil_r in Hpre, Hin. exfalso. apply Hout.
      destruct Hpre as [rest Hrest]. rewrite Hrest.
      apply elem_of_app. by left.
    + split; [done|]. rewrite app_assoc in Hpre, Hin |- *.
      by apply prefix_snoc_elem.
  - intros Hok.
    destruct (refusal (calls w) _) as [e|] eqn:Href; [done|].
    destruct failure as [e|]; [done|].
    rewrite (issue_accepted _ _ Href), !app_assoc. apply last_snoc.
Qed.

Lemma write_r_insertions (path file_format : string)
    (df : DataFrame) (df_name : pyarg) (dateformat datetimeformat : string)
    (w : world) (pyreadr_types : odict) (hasmissing : list bool) :
  frame_wf (heap w) df →
  get_pyreadr_column_types (heap w) df = Ok (pyreadr_types, hasmissing) →
  let run := write_r path file_format df df_name dateformat datetimeformat w in
  ∃ issued,
    calls run.2 = calls w ++ issued ∧
    ∀ row_indx indx val prim,
      c_insert_value row_indx indx val prim ∈ issued →
      row_indx < df_nrows df ∧
      ∃ c tv,
        df_columns df !! indx = Some c ∧
        prim = primitive_of pyreadr_types c ∧
        c_add_column (col_name c) prim ∈ issued ∧
        column_delivery (heap w) pyreadr_types hasmissing dateformat
                        datetimeformat indx c = Ok tv ∧
        tv !! row_indx = Some val.
Proof.
  intros Hwf Hcls run.
  destruct (write_r_issues path file_format df df_name dateformat
              datetimeformat w _ _ Hwf Hcls) as (w' & Hrun & _ & Hcalls).
  set (delivered := deliver_columns _ _ _ _ _ _ _) in *.
  set (sequence := planned_calls _ _ _ _ _ _ _ _ _) in *.
  exists (issue (calls w) sequence).
  subst run. rewrite Hrun. cbn [snd]. split; [done|].
  intros row indx val prim Hin.
  set (schema := schema_calls path file_format df df_name pyreadr_types).
  set (rest := cell_calls pyreadr_types 0 (df_columns df) delivered.1
               ++ match delivered.2 with None => [c_close] | Some _ => [] end).
  assert (sequence = schema ++ rest) as Hseq by done.
  assert (c_insert_value row indx val prim ∈ sequence) as Hplanned.
  { destruct (issue_prefix (calls w) sequence) as [tl Htl].
    rewrite Htl. apply elem_of_app. by left. }
  assert (c_insert_value row indx val prim
            ∈ cell_calls pyreadr_types 0 (df_columns df) delivered.1)
    as Hcell.
  { rewrite Hseq in Hplanned. apply elem_of_app in Hplanned as [Hs|Hr].
    - by apply schema_calls_no_insertion in Hs.
    - unfold rest in Hr. apply elem_of_app in Hr as [Hr|Hr]; [done|].
      destruct delivered.2; [by apply elem_of_nil in Hr|].
      apply list_elem_of_singleton in Hr. done. }
  apply elem_of_cell_calls in Hcell
    as (k & c & tv & -> & Hc & Htv & Hval & ->).
  destruct Hwf as [Hnd Hbufs].
  destruct (deliver_columns_length (heap w) pyreadr_types hasmissing
              dateformat datetimeformat (df_nrows df) (df_columns df) 0)
    as [Hlens _].
  { eapply Forall_impl; [exact Hbufs|]. cbn.
    intros c' (vs & Hvs & Hlen). unfold buffer. by rewrite Hvs. }
  fold delivered in Hlens. rewrite Forall_forall in Hlens.
  split.
  - rewrite <- (Hlens tv) by (by eapply list_elem_of_lookup_2).
    by eapply lookup_lt_Some.
  - exists c, tv. cbn [Nat.add]. split_and!; try done.
    + rewrite Hseq, issue_app in Hin |- *.
      destruct (refusal (calls w) schema) eqn:Href.
      * exfalso. destruct (issue_prefix (calls w) schema) as [tl Htl].
        apply (schema_calls_no_insertion path file_format df df_name
                 pyreadr_types row k val (primitive_of pyreadr_types c)).
        fold schema. rewrite Htl. apply elem_of_app. by left.
      * apply elem_of_app. left. unfold schema, schema_calls.
        apply elem_of_app. right. apply list_elem_of_fmap.
        exists c. split; [done|]. by eapply list_elem_of_lookup_2.
    + exact (deliver_columns_lookup (heap w) pyreadr_types hasmissing
               dateformat datetimeformat (df_columns df) 0 k c tv Hc Htv).
Qed.


(** X15.  A write that returns has made exactly
    [4 + columns + columns * rows] Writer calls. *)
Theorem returned_write_call_count (path file_format : string)
    (df : DataFrame) (df_name : pyarg) (dateformat datetimeformat : string)
    (w : world) (pyreadr_types : odict) (hasmissing : list bool) :
  frame_wf (heap w) df →
  get_pyreadr_column_types (heap w) df = Ok (pyreadr_types, hasmissing) →
  let run := write_r path file_format df df_name dateformat datetimeformat w in
  run.1 = Ok tt →
  length (calls run.2)
  = length (calls w) + 4 + length (df_columns df)
    + length (df_columns df) * df_nrows df.
Proof.
  intros [Hnd Hbufs] Hcls run. subst run.
  destruct (write_r_issues path file_format df df_name dateformat
              datetimeformat w _ _ (conj Hnd Hbufs) Hcls)
    as (w' & Hrun & _ & Hcalls).
  rewrite Hrun. cbn [fst snd]. unfold planned_calls in *.
  destruct (deliver_columns_length (heap w) pyreadr_types hasmissing
              dateformat datetimeformat (df_nrows df) (df_columns df) 0)
    as [Hlens Hall].
  { eapply Forall_impl; [exact Hbufs|]. cbn.
    intros c' (vs & Hvs & Hlen). unfold buffer. by rewrite Hvs. }
  destruct (deliver_columns (heap w) pyreadr_types hasmissing dateformat
              datetimeformat 0 (df_columns df)) as [tcols failure].
  cbn [fst snd] in *. intros Hok.
  destruct (refusal (calls w) _) as [e|] eqn:Href; [done|].
  destruct failure as [e|]; [done|].
  rewrite Hcalls, (issue_accepted _ _ Href).
  rewrite !length_app, (length_cell_calls _ (df_nrows df)) by auto.
  unfold schema_calls. rewrite length_app, length_map. cbn. lia.
Qed.

(** ** A write can be repeated *)

Lemma df_getitem_column df name s :
  df_getitem df name = Ok s → ∃ c, c ∈ df_columns df ∧ s_data s = col_data c.
Proof.
  unfold df_getitem.
  destruct (find _ (df_columns df)) as [c|] eqn:Hfind; [|done].
  intros [= <-]. exists c. split; [|done].
  apply find_some in Hfind as [Hin _]. by apply list_elem_of_In.
Qed.

(** The classifier reads the buffers of the frame's columns and nothing
    else. *)
Lemma classification_same_buffers h h' df :
  (∀ c, c ∈ df_columns df → buffer h (col_data c) = buffer h' (col_data c)) →
  get_pyreadr_column_types h df = get_pyreadr_column_types h' df.
Proof.
  intros Hsame.
  assert (∀ name s, df_getitem df name = Ok s → items h s = items h' s)
    as Hitems.
  { intros name s (c & Hc & Hdata)%df_getitem_column.
    unfold items. by rewrite Hdata, (Hsame c Hc). }
  assert (∀ name ty, column_type h df name ty = column_type h' df name ty)
    as Hcol.
  { intros name ty. unfold column_type.
    destruct (df_getitem df name) as [s|e] eqn:Hs; [|done].
    destruct ty as [d|d]; cbn [mbind outcome_bind];
      by rewrite (Hitems name s Hs). }
  rewrite !get_pyreadr_column_types_eq.
  assert (traverse (fun c => column_type h df (col_name c) (col_dtype c))
                   (df_columns df)
          = traverse (fun c => column_type h' df (col_name c) (col_dtype c))
                     (df_columns df)) as ->; [|done].
  clear -Hcol. induction (df_columns df) as [|c cols IH]; cbn; [done|].
  by rewrite Hcol, IH.
Qed.

(** X16.  After a write, returned or raised, the caller's frame is as fit for
    writing as before: it is well formed, each of its columns holds the
    values it held, and the classifier gives the result it gave. *)
Theorem write_leaves_frame_classified (path file_format : string)
    (df : DataFrame) (df_name : pyarg) (dateformat datetimeformat : string)
    (w : world) :
  frame_wf (heap w) df →
  let w' := (write_r path file_format df df_name dateformat
                     datetimeformat w).2 in
  frame_wf (heap w') df ∧
  Forall (fun c => heap w' !! col_data c = heap w !! col_data c)
         (df_columns df) ∧
  get_pyreadr_column_types (heap w') df
  = get_pyreadr_column_types (heap w) df.
Proof.
  intros [Hnd Hbufs] w'.
  destruct (keeps_write_r (heap w) path file_format df df_name dateformat
              datetimeformat w (reflexivity _)) as (r & w1 & Hrun & Hsub & _).
  subst w'. rewrite Hrun. cbn [snd].
  assert (Forall (fun c => heap w1 !! col_data c = heap w !! col_data c)
                 (df_columns df)) as Hsame.
  { eapply Forall_impl; [exact Hbufs|]. cbn. intros c (vs & Hvs & _).
    by rewrite Hvs, (lookup_weaken _ _ _ _ Hvs Hsub). }
  split_and!; [|done|].
  - split; [done|]. rewrite Forall_forall in Hbufs, Hsame |- *.
    intros c Hc. destruct (Hbufs c Hc) as (vs & Hvs & Hlen).
    exists vs. by rewrite (Hsame c Hc).
  - apply classification_same_buffers. intros c Hc.
    rewrite Forall_forall in Hsame. unfold buffer. by rewrite (Hsame c Hc).
Qed.

(** ** The values handed to the Writer *)

Lemma transform_values_fit d vs tag hm dateformat datetimeformat t :
  transform_values d vs tag hm dateformat datetimeformat = Ok t →
  (tag ∈ ["INTEGER"; "LOGICAL"] →
   t.1 = Plain N_int32 ∧
   Forall (fun v => ∃ z, v = VInt I_int32 z ∧
                         (int32_min ≤ z ≤ int32_max)%Z) t.2) ∧
  (tag ∈ ["OBJECT"; "DATE"; "DATETIME"] → d = Plain N_object →
   t.1 = Plain N_object ∧
   Forall (fun v => isna v = true ∨ ∃ s, v = VStr s) t.2).
Proof.
  intros Htv.
  assert (∀ g : value → outcome string,
            (new ← traverse (fun x => if notnull x then t ← g x; Ok (VStr t)
                                      else Ok x) vs;
             assigned d vs new) = Ok t →
            d = Plain N_object →
            t.1 = Plain N_object ∧
            Forall (fun v => isna v = true ∨ ∃ s, v = VStr s) t.2) as Htext.
  { intros g Hrun ->.
    destruct (traverse _ vs) as [new|] eqn:Htr; cbn in Hrun; [|done].
    injection Hrun as <-. split; [done|]. cbn [snd].
    eapply traverse_Forall; [|exact Htr]. intros x y. unfold notnull.
    destruct (isna x) eqn:Hx; cbn; [intros [= <-]; by left|].
    destruct (g x); cbn; [|done]. intros [= <-]. right. by eexists. }
  split.
  - intros Hin.
    assert (transform_values d vs tag hm dateformat datetimeformat
            = (filled ← (if hm then assigned d vs (map fill_missing vs)
                         else Ok (d, vs));
               tvs ← traverse int32_of filled.2;
               Ok (Plain N_int32, tvs))) as Heq.
    { repeat (apply elem_of_cons in Hin as [->|Hin]); try done.
      by apply elem_of_nil in Hin. }
    rewrite Heq in Htv.
    destruct (if hm then _ else _) as [filled|]; cbn in Htv; [|done].
    destruct (traverse int32_of filled.2) as [tvs|] eqn:Htr; cbn in Htv;
      [|done].
    injection Htv as <-. split; [done|]. cbn [snd].
    eapply traverse_Forall; [apply int32_of_class|exact Htr].
  - intros Hin. repeat (apply elem_of_cons in Hin as [->|Hin]);
      [| | |by apply elem_of_nil in Hin].
    + apply (Htext (fun x => Ok (py_str x))).
      rewrite <- Htv. unfold transform_values. cbn. f_equal.
    + by apply (Htext (fun x => py_strftime x dateformat)).
    + by apply (Htext (fun x => py_strftime x datetimeformat)).
Qed.

Lemma column_delivery_fits h pyreadr_types hasmissing dateformat
    datetimeformat indx c tv :
  column_delivery h pyreadr_types hasmissing dateformat datetimeformat
                  indx c = Ok tv →
  ∃ tag, od_get (col_name c) pyreadr_types = Ok tag ∧
         Forall (fits_tag (col_dtype c) tag) tv.
Proof.
  unfold column_delivery, deliver.
  destruct (od_get (col_name c) pyreadr_types) as [tag|]; [|done].
  destruct (list_getitem hasmissing indx) as [b|]; [|done].
  cbn [mbind outcome_bind].
  destruct (transform_values _ _ tag b _ _) as [t|] eqn:Htv; [|done].
  cbn [mbind outcome_bind]. intros [= <-]. exists tag. split; [done|].
  destruct (transform_values_fit _ _ _ _ _ _ _ Htv) as [Hint Htext].
  apply Forall_forall. intros v Hv.
  apply list_elem_of_fmap in Hv as (v0 & -> & Hv0). split.
  - intros Htag. destruct (Hint Htag) as [-> Hall].
    rewrite Forall_forall in Hall.
    destruct (Hall v0 Hv0) as (z & -> & Hz). by exists z.
  - intros Htag Hd. destruct (Htext Htag Hd) as [-> Hall].
    rewrite Forall_forall in Hall. by apply Hall.
Qed.

(** X17.  Every value [write_r] hands to [insert_value] has the form its
    column's tag promises: under INTEGER and LOGICAL a Python integer
    within the 32-bit range (never a numpy scalar, a boolean or a missing
    marker); under OBJECT, DATE and DATETIME, for a column of dtype
    object, a text or a missing marker. *)
Theorem inserted_values_fit_tag (path file_format : string)
    (df : DataFrame) (df_name : pyarg) (dateformat datetimeformat : string)
    (w : world) (pyreadr_types : odict) (hasmissing : list bool) :
  frame_wf (heap w) df →
  get_pyreadr_column_types (heap w) df = Ok (pyreadr_types, hasmissing) →
  let run := write_r path file_format df df_name dateformat datetimeformat w in
  ∀ row_indx indx val prim,
    c_insert_value row_indx indx val prim ∈ calls run.2 →
    c_insert_value row_indx indx val prim ∉ calls w →
    ∃ c tag,
      df_columns df !! indx = Some c ∧
      od_get (col_name c) pyreadr_types = Ok tag ∧
      fits_tag (col_dtype c) tag val.
Proof.
  intros Hwf Hcls run row_indx indx val prim Hin Hnew.
  destruct (write_r_insertions path file_format df df_name dateformat
              datetimeformat w _ _ Hwf Hcls) as (issued & Hcalls & Hins).
  fold run in Hcalls. rewrite Hcalls in Hin.
  apply elem_of_app in Hin as [Hin|Hin]; [done|].
  destruct (Hins _ _ _ _ Hin) as (_ & c & tv & Hc & _ & _ & Hdel & Hval).
  destruct (column_delivery_fits _ _ _ _ _ _ _ _ Hdel) as (tag & Hget & Hfit).
  exists c, tag. split_and!; [done..|].
  rewrite Forall_forall in Hfit. apply Hfit.
  by eapply list_elem_of_lookup_2.
Qed.

(** ** The write entry points on a valid call *)

Lemma refusal_accepting hist cs :
  (∀ hist c, writer hist c = None) → refusal hist cs = None.
Proof.
  intros Hacc. revert hist.
  induction cs as [|c cs IH]; intros hist; cbn; [done|].
  by rewrite Hacc.
Qed.

(** X18.  With a string path, a frame that classifies and a Writer that
    accepts what it is told, [write_rdata] and [write_rds] end alike and
    tell the Writer the same, apart from two calls: both open the
    expanded path, the one as rdata and the other as rds, and the table
    name is the caller's in the one and the empty string in the other. *)
Theorem entry_points_differ_in_open_and_name (p name : string)
    (df : DataFrame) (dateformat datetimeformat : string) (w : world)
    (pyreadr_types : odict) (hasmissing : list bool) :
  name ≠ "" →
  frame_wf (heap w) df →
  get_pyreadr_column_types (heap w) df = Ok (pyreadr_types, hasmissing) →
  (∀ hist c, writer hist c = None) →
  let rdata := write_rdata (AStr p) (AFrame df) (AStr name) dateformat
                           datetimeformat w in
  let rds := write_rds (AStr p) (AFrame df) dateformat datetimeformat w in
  ∃ rest,
    calls rdata.2
    = calls w ++ [c_open (expanduser p) "rdata";
                  c_set_row_count (df_nrows df);
                  c_set_table_name (AStr name)] ++ rest ∧
    calls rds.2
    = calls w ++ [c_open (expanduser p) "rds";
                  c_set_row_count (df_nrows df);
                  c_set_table_name (AStr "")] ++ rest ∧
    rdata.1 = rds.1.
Proof.
  intros Hname Hwf Hcls Hacc rdata rds.
  assert (rdata = write_r (expanduser p) "rdata" df (AStr name) dateformat
                          datetimeformat w) as ->.
  { subst rdata. unfold write_rdata. rewrite run_bind. unfold lift at 1.
    cbn [truth]. by rewrite bool_decide_eq_false_2. }
  assert (rds = write_r (expanduser p) "rds" df (AStr "") dateformat
                        datetimeformat w) as -> by done.
  destruct (write_r_issues (expanduser p) "rdata" df (AStr name) dateformat
              datetimeformat w _ _ Hwf Hcls) as (w1 & -> & _ & Hcalls1).
  destruct (write_r_issues (expanduser p) "rds" df (AStr "") dateformat
              datetimeformat w _ _ Hwf Hcls) as (w2 & -> & _ & Hcalls2).
  cbn [fst snd]. rewrite Hcalls1, Hcalls2.
  rewrite !(refusal_accepting _ _ Hacc).
  rewrite !issue_accepted by (by apply refusal_accepting).
  unfold planned_calls, schema_calls. eexists. split_and!; [|done..].
  rewrite <- !app_assoc. reflexivity.
Qed.

(** ** Dictionaries *)

Lemma dict_get_set_eq {V} k (v : V) d : dict_get k (dict_set k v d) = Some v.
Proof.
  induction d as [|[k' v'] d IH]; cbn.
  - by rewrite decide_True.
  - destruct (decide (k' = k)) as [->|Hk]; cbn;
      [by rewrite decide_True|]. by rewrite decide_False.
Qed.

Lemma dict_get_set_ne {V} k k' (v : V) d :
  k ≠ k' → dict_get k' (dict_set k v d) = dict_get k' d.
Proof.
  intros Hne. induction d as [|[k0 v0] d IH]; cbn.
  - by rewrite decide_False.
  - destruct (decide (k0 = k)) as [->|Hk0]; cbn.
    + by rewrite !decide_False.
    + case_decide; [done|]. apply IH.
Qed.

Lemma dict_set_keys {V} k (v : V) d :
  (dict_set k v d).*1 = if decide (k ∈ d.*1) then d.*1 else d.*1 ++ [k].
Proof.
  induction d as [|[k' v'] d IH]; cbn; [done|].
  destruct (decide (k' = k)) as [->|Hk]; cbn.
  - rewrite decide_True; [done|left].
  - rewrite IH. destruct (decide (k ∈ d.*1)) as [Hin|Hout].
    + rewrite decide_True; [done|by right].
    + rewrite decide_False; [done|].
      intros [->|?]%elem_of_cons; done.
Qed.

Lemma dict_set_nodup {V} k (v : V) d :
  NoDup d.*1 → NoDup (dict_set k v d).*1.
Proof.
  intros Hnd. rewrite dict_set_keys. case_decide; [done|].
  apply NoDup_app. split_and!; [done| |apply NoDup_singleton].
  intros x Hx [->|Hn]%elem_of_cons; [done|by apply elem_of_nil in Hn].
Qed.

Lemma dict_get_foldl_set {V} (name : string) (frames : list (string * V)) :
  ∀ acc,
    dict_get name (foldl (fun d nf => dict_set nf.1 nf.2 d) acc frames)
    = match last (filter (fun nf => nf.1 = name) frames) with
      | Some nf => Some nf.2
      | None => dict_get name acc
      end.
Proof.
  induction frames as [|[n f] frames IH]; intros acc; cbn [foldl]; [done|].
  rewrite IH. rewrite filter_cons. cbn [fst snd].
  case_decide as Hn.
  - subst n. destruct (filter _ frames) as [|nf rest] eqn:Hfil; cbn.
    + apply dict_get_set_eq.
    + by destruct (last (nf :: rest)) eqn:Hlast;
        [|apply last_None in Hlast].
  - destruct (last (filter _ frames)); [done|]. by apply dict_get_set_ne.
Qed.

Lemma foldl_dict_set_nodup {V} (frames : list (string * V)) :
  ∀ acc, NoDup acc.*1 →
         NoDup (foldl (fun d nf => dict_set nf.1 nf.2 d) acc frames).*1.
Proof.
  induction frames as [|[n f] frames IH]; intros acc Hnd; cbn; [done|].
  by apply IH, dict_set_nodup.
Qed.

(** ** The mapper after the classifier *)

Lemma od_set_dict_set k v (d : odict) : od_set k v d = dict_set k v d.
Proof. induction d as [|[k' v'] d IH]; cbn; [done|]. by rewrite IH. Qed.

Lemma od_set_Forall (P : string * string → Prop) k v (d : odict) :
  Forall P d → P (k, v) → Forall P (od_set k v d).
Proof.
  intros Hd Hkv. induction Hd as [|[k' v'] d Hx Hd IH]; cbn.
  - by repeat constructor.
  - case_decide; by constructor.
Qed.

Lemma foldl_od_set_shape {A} (key val : A → string) (xs : list A) :
  ∀ acc : odict,
    NoDup acc.*1 →
    Forall (fun kv => kv.2 ∈ semantic_tags) acc →
    Forall (fun x => val x ∈ semantic_tags) xs →
    NoDup (foldl (fun d x => od_set (key x) (val x) d) acc xs).*1 ∧
    Forall (fun kv => kv.2 ∈ semantic_tags)
           (foldl (fun d x => od_set (key x) (val x) d) acc xs).
Proof.
  induction xs as [|x xs IH]; intros acc Hnd Hacc Hxs; cbn [foldl]; [done|].
  apply Forall_cons in Hxs as [Hx Hxs]. apply IH; [|by apply od_set_Forall|done].
  rewrite od_set_dict_set. by apply dict_set_nodup.
Qed.

(** X19.  The dict the classifier returns is one the mapper never refuses,
    whatever the frame (duplicate labels included): its keys are
    distinct and its tags among the seven, so the mapper returns a dict
    with the same keys in the same order, each with the primitive of its
    tag, one of INTEGER, NUMERIC, LOGICAL and CHARACTER.  The [KeyError]
    of the mapper cannot be met in a write. *)
Theorem mapper_accepts_classifier_output h df pyreadr_types hasmissing :
  get_pyreadr_column_types h df = Ok (pyreadr_types, hasmissing) →
  pyreadr_types_to_librdata_types pyreadr_types
  = Ok (map (fun kv => (kv.1, primitive kv.2)) pyreadr_types) ∧
  NoDup pyreadr_types.*1 ∧
  Forall (fun kv => primitive kv.2
                    ∈ ["INTEGER"; "NUMERIC"; "LOGICAL"; "CHARACTER"])
         pyreadr_types.
Proof.
  intros Hcls. rewrite get_pyreadr_column_types_eq in Hcls.
  destruct (traverse _ (df_columns df)) as [tbs|] eqn:Htr; [|done].
  cbn in Hcls. injection Hcls as Htypes _.
  assert (Forall (fun x : column * (string * bool) => x.2.1 ∈ semantic_tags)
                 (zip (df_columns df) tbs)) as Htags.
  { apply traverse_Forall2 in Htr. apply Forall2_zip in Htr.
    eapply Forall_impl; [exact Htr|]. cbn. intros [c [tag b]] Hcol.
    by eapply column_type_semantic. }
  destruct (foldl_od_set_shape
              (fun x : column * (string * bool) => col_name x.1)
              (fun x => x.2.1) (zip (df_columns df) tbs) []
              (NoDup_nil_2 (A:=string)) (Forall_nil_2 _) Htags) as [Hnd Hsem].
  rewrite Htypes in Hnd, Hsem. split_and!; [|done|].
  - unfold pyreadr_types_to_librdata_types.
    rewrite (map_types_loop_ok _ _ Hsem).
    by rewrite (foldl_od_set_fresh (fun kv : string * string => kv.1)
                  (fun kv => primitive kv.2)).
  - eapply Forall_impl; [exact Hsem|]. cbn. intros kv Hkv.
    by destruct (od_get_semantic _ Hkv).
Qed.

(** ** The read entry points *)

Section ReaderProperties.

Variable frame_read : Type.
Variable object_info : Type.
Variable os_isfile : string → bool.
Variable parser : list pcall → pcall → option exn.
Variable objects_parser : list pcall → pcall → option exn.
Variable table_data : list pcall → list (string * outcome frame_read).
Variable object_list : list pcall → list object_info.

Lemma p_run_bind {A B} (m : PM A) (f : A → PM B) log :
  (m ≫= f) log = match m log with
                 | (Ok a, log') => f a log'
                 | (Raise e, log') => (Raise e, log')
                 end.
Proof. reflexivity. Qed.

Lemma optional_call_run (cond : bool) (c : pcall) {B} (rest : unit → PM B)
    log :
  ((if cond then p_invoke parser c else mret tt) ≫= rest) log
  = if cond
    then match parser log c with
         | None => rest tt (log ++ [c])
         | Some e => (Raise e, log ++ [c])
         end
    else rest tt log.
Proof.
  rewrite p_run_bind. destruct cond; [|done].
  unfold p_invoke. by destruct (parser log c).
Qed.

(** The two statements that pass the options on: they call no [parse];
    when the parser accepts what they call, they have called exactly
    [option_calls] and the function goes on. *)
Lemma options_run (use_objects : option (list string))
    (timezone : option string) {B} (rest : PM B) :
  let run :=
    ((if truthy_names use_objects
      then p_invoke parser (p_set_use_objects (default [] use_objects))
      else mret tt) ;;
     (if truthy_name timezone
      then p_invoke parser (p_set_timezone (default "" timezone))
      else mret tt) ;;
     rest) [] in
  (∃ e log, run = (Raise e, log) ∧ (∀ p, p_parse p ∉ log) ∧
            ¬ (∀ c log0, c ∈ option_calls use_objects timezone →
                         parser log0 c = None)) ∨
  (run = rest (option_calls use_objects timezone)).
Proof.
  intros run. subst run. unfold option_calls.
  rewrite optional_call_run.
  destruct (truthy_names use_objects); cbn [app].
  - destruct (parser [] _) as [e|] eqn:Hp1.
    { left. eexists _, _. split_and!; [done| |].
      - intros p [Hin|Hin]%elem_of_cons; [done|by apply elem_of_nil in Hin].
      - intros Hacc. rewrite Hacc in Hp1; [done|]. left. }
    rewrite optional_call_run.
    destruct (truthy_name timezone); cbn [app]; [|by right].
    destruct (parser _ (p_set_timezone _)) as [e|] eqn:Hp2; [|by right].
    left. eexists _, _. split_and!; [done| |].
    + intros p Hin.
      repeat (apply elem_of_cons in Hin as [Hin|Hin]; [done|]).
      by apply elem_of_nil in Hin.
    + intros Hacc. rewrite Hacc in Hp2; [done|]. right. left.
  - rewrite optional_call_run.
    destruct (truthy_name timezone); cbn [app]; [|by right].
    destruct (parser _ (p_set_timezone _)) as [e|] eqn:Hp2; [|by right].
    left. eexists _, _. split_and!; [done| |].
    + intros p [Hin|Hin]%elem_of_cons; [done|by apply elem_of_nil in Hin].
    + intros Hacc. rewrite Hacc in Hp2; [done|]. left.
Qed.

Lemma collect_tables_ok (tables : list (string * outcome frame_read)) :
  ∀ acc result,
    collect_tables frame_read tables acc = Ok result →
    ∃ frames, tables = map (fun nf => (nf.1, Ok nf.2)) frames ∧
              result = foldl (fun d nf => dict_set nf.1 nf.2 d) acc frames.
Proof.
  induction tables as [|[name [frame|e]] tables IH]; intros acc result Hrun.
  - injection Hrun as <-. by exists [].
  - apply IH in Hrun as (frames & -> & ->). by exists ((name, frame) :: frames).
  - done.
Qed.

Lemma foldl_dict_set_keys {V} (frames : list (string * V)) :
  ∀ acc name,
    name ∈ (foldl (fun d nf => dict_set nf.1 nf.2 d) acc frames).*1
    ↔ name ∈ acc.*1 ∨ name ∈ frames.*1.
Proof.
  induction frames as [|[n f] frames IH]; intros acc name; cbn [foldl].
  - rewrite fmap_nil, elem_of_nil. tauto.
  - rewrite IH, dict_set_keys, fmap_cons, elem_of_cons. cbn [fst snd].
    case_decide as Hin.
    + split; [tauto|]. intros [?|[->|?]]; tauto.
    + rewrite elem_of_app, list_elem_of_singleton. tauto.
Qed.

(** X20.  [read_r] hands its options to the parser before it looks at the
    path: with a path that is no string, or that names no file, the call
    raises and the parser has never been asked to parse; when the parser
    took the options, they are all it was told and the error is the
    entry point's own, with the expanded path in its text. *)
Theorem read_r_checks_path_after_options (path : pyarg)
    (use_objects : option (list string)) (timezone : option string) :
  (∀ p, path = AStr p → os_isfile (expanduser p) = false) →
  ∃ e log,
    read_r frame_read os_isfile parser table_data path use_objects timezone []
    = (Raise e, log) ∧
    (∀ p, p_parse p ∉ log) ∧
    ((∀ c log0, c ∈ option_calls use_objects timezone →
                parser log0 c = None) →
     log = option_calls use_objects timezone ∧
     e = PyreadrError
           match path with
           | AStr p => "File " +:+ expanduser p +:+ " does not exist!"
           | _ => "path must be a string!"
           end).
Proof.
  clear writer py_str py_strftime py_int int32_overflow pd_setitem
    tolist_item.
  intros Hpath. unfold read_r.
  match goal with
  | |- context [(_ ;; _ ;; ?r) []] => set (rest := r)
  end.
  assert (Hrest : ∀ log, rest log
    = (Raise (PyreadrError
                match path with
                | AStr p => "File " +:+ expanduser p +:+ " does not exist!"
                | _ => "path must be a string!"
                end), log)).
  { intros log. subst rest. destruct path as [p| | |]; try done.
    cbn zeta. by rewrite (Hpath p eq_refl). }
  destruct (options_run use_objects timezone rest)
    as [(e & log & -> & Hlog & Hrefused)| ->].
  - exists e, log. split_and!; [done..|]. intros Hacc. by destruct Hrefused.
  - rewrite Hrest. eexists _, _. split_and!; [done| |done].
    intros p Hin. unfold option_calls in Hin.
    apply elem_of_app in Hin as [Hin|Hin];
      [destruct (truthy_names use_objects)|destruct (truthy_name timezone)];
      first [by apply elem_of_nil in Hin
            |apply list_elem_of_singleton in Hin; done].
Qed.

(** X21.  What a returned dictionary of [read_r] is: the path was a string
    naming a file, the parser was told the options and then to parse the
    expanded path, every table was converted, and the dictionary holds
    each name once, with the frame of the LAST table of that name: of two
    objects with one name the earlier is lost. *)
Theorem read_r_returns_last_table_per_name (path : pyarg)
    (use_objects : option (list string)) (timezone : option string)
    (result : list (string * frame_read)) (log : list pcall) :
  read_r frame_read os_isfile parser table_data path use_objects timezone []
  = (Ok result, log) →
  ∃ p frames,
    path = AStr p ∧ os_isfile (expanduser p) = true ∧
    log = option_calls use_objects timezone ++ [p_parse (expanduser p)] ∧
    table_data log = map (fun nf => (nf.1, Ok nf.2)) frames ∧
    NoDup result.*1 ∧
    (∀ name, name ∈ result.*1 ↔ name ∈ frames.*1) ∧
    (∀ name, dict_get name result
             = snd <$> last (filter (fun nf => nf.1 = name) frames)).
Proof.
  clear writer py_str py_strftime py_int int32_overflow pd_setitem
    tolist_item.
  unfold read_r.
  match goal with
  | |- context [(_ ;; _ ;; ?r) []] => set (rest := r)
  end.
  destruct (options_run use_objects timezone rest)
    as [(e & log' & -> & _)| ->]; [done|].
  subst rest. destruct path as [p| | |]; try done. cbn zeta.
  destruct (os_isfile (expanduser p)) eqn:Hfile; [|done]. cbn [negb].
  rewrite p_run_bind. unfold p_invoke at 1.
  destruct (parser _ (p_parse _)); [done|].
  rewrite p_run_bind. unfold p_read at 1, p_lift.
  intros Hrun. injection Hrun as Hrun <-.
  apply collect_tables_ok in Hrun as (frames & Htables & ->).
  exists p, frames. split_and!; [done..| | |].
  - by apply foldl_dict_set_nodup, NoDup_nil.
  - intros name. rewrite foldl_dict_set_keys, fmap_nil, elem_of_nil. tauto.
  - intros name. rewrite dict_get_foldl_set.
    by destruct (last (filter _ frames)).
Qed.

(** X22.  [read_r] gives up at the first table whose conversion raises, with
    that exception, although the file was parsed. *)
Theorem read_r_raises_first_failed_conversion (p : string)
    (use_objects : option (list string)) (timezone : option string)
    (frames : list (string * frame_read)) (name : string) (e : exn)
    (later : list (string * outcome frame_read)) :
  let log := option_calls use_objects timezone ++ [p_parse (expanduser p)] in
  os_isfile (expanduser p) = true →
  (∀ c log0, parser log0 c = None) →
  table_data log
  = map (fun nf => (nf.1, Ok nf.2)) frames ++ (name, Raise e) :: later →
  read_r frame_read os_isfile parser table_data (AStr p) use_objects
    timezone []
  = (Raise e, log).
Proof.
  clear writer py_str py_strftime py_int int32_overflow pd_setitem
    tolist_item.
  intros log Hfile Hacc Htables. unfold read_r.
  match goal with
  | |- context [(_ ;; _ ;; ?r) []] => set (rest := r)
  end.
  destruct (options_run use_objects timezone rest)
    as [(e' & log' & _ & _ & Hrefused)| ->].
  { destruct Hrefused. intros c log0 _. apply Hacc. }
  subst rest. cbn zeta. rewrite Hfile. cbn [negb].
  rewrite p_run_bind. unfold p_invoke at 1. rewrite Hacc.
  rewrite p_run_bind. unfold p_read at 1, p_lift.
  fold log. rewrite Htables. f_equal. clear Htables.
  generalize (@nil (string * frame_read)).
  induction frames as [|[n f] frames IH]; intros acc; [done|].
  cbn. apply IH.
Qed.

(** X23.  [list_objects] asks its parser for one thing at most: it raises its
    own error, the parser untouched, unless the path is a string naming a
    file; then it calls [parse] once with the expanded path and returns
    the parser's object list, or raises what the parser raised. *)
Theorem list_objects_parses_once (path : pyarg)
    (o : outcome (list object_info)) (log : list pcall) :
  list_objects object_info os_isfile objects_parser object_list path []
  = (o, log) →
  (log = [] ∧
   (∀ p, path = AStr p → os_isfile (expanduser p) = false) ∧
   o = Raise (PyreadrError
                match path with
                | AStr p => "File " +:+ expanduser p +:+ " does not exist!"
                | _ => "path must be a string!"
                end)) ∨
  (∃ p, path = AStr p ∧ os_isfile (expanduser p) = true ∧
        log = [p_parse (expanduser p)] ∧
        o = match objects_parser [] (p_parse (expanduser p)) with
            | None => Ok (object_list log)
            | Some e => Raise e
            end).
Proof.
  clear writer py_str py_strftime py_int int32_overflow pd_setitem
    tolist_item.
  unfold list_objects. destruct path as [p| | |];
    try (intros [= <- <-]; left; by split_and!).
  cbn zeta. destruct (os_isfile (expanduser p)) eqn:Hfile; cbn [negb].
  - rewrite p_run_bind. unfold p_invoke at 1. intros Hrun. right.
    exists p. destruct (objects_parser [] _);
      injection Hrun as <- <-; by split_and!.
  - intros [= <- <-]. left. split_and!; [done| |done].
    by intros ? [= <-].
Qed.

End ReaderProperties.

End Writer.

(** * The theorems at sample inputs *)


Lemma write_r_call_sequence_witness :
  let w := World (case1_heap I_int32) [] in
  (frame_wf (heap w) case1_frame ∧
   get_pyreadr_column_types (heap w) case1_frame
     = Ok ([("x", "INTEGER")], [true]) ∧
   ∃ w',
     write_r accepting_writer sample_str sample_strftime sample_int
       sample_overflow sample_setitem sample_tolist_item "out.rds" "rds"
       case1_frame (AStr "") "%Y-%m-%d" "%Y-%m-%d %H:%M:%S" w = (Ok tt, w') ∧
     calls w'
     = [c_open "out.rds" "rds"; c_set_row_count 3;
        c_set_table_name (AStr "");
        c_add_column "x" "INTEGER";
        c_insert_value 0 0 (VInt I_py 1) "INTEGER";
        c_insert_value 1 0 (VInt I_py (-2147483648)) "INTEGER";
        c_insert_value 2 0 (VInt I_py 3) "INTEGER";
        c_close]) ∧
  write_r accepting_writer sample_str sample_strftime sample_int
    sample_overflow sample_setitem sample_tolist_item "out.rds" "rds"
    empty_frame (AStr "") "%Y-%m-%d" "%Y-%m-%d %H:%M:%S"
    (World empty_heap [])
  = (Raise KeyError, World empty_heap []).
Proof.
  intros w. split.
  - assert (frame_wf (heap w) case1_frame) as Hwf
      by (by eapply frame_wf_single).
    assert (get_pyreadr_column_types (heap w) case1_frame
            = Ok ([("x", "INTEGER")], [true])) as Hcls by (by vm_compute).
    split_and!; [exact Hwf|exact Hcls|].
    pose proof (write_r_call_sequence accepting_writer sample_str
                  sample_strftime sample_int sample_overflow sample_setitem
                  sample_tolist_item "out.rds" "rds" case1_frame (AStr "")
                  "%Y-%m-%d" "%Y-%m-%d %H:%M:%S" w Hwf) as Hseq.
    rewrite Hcls in Hseq. destruct Hseq as (w' & Hrun & Hacc & _).
    exists w'. split; [exact Hrun|]. by apply Hacc.
  - assert (frame_wf empty_heap empty_frame) as Hwf
      by (by eapply frame_wf_single).
    assert (get_pyreadr_column_types empty_heap empty_frame
            = Raise KeyError) as Hcls by (by vm_compute).
    pose proof (write_r_call_sequence accepting_writer sample_str
                  sample_strftime sample_int sample_overflow sample_setitem
                  sample_tolist_item "out.rds" "rds" empty_frame (AStr "")
                  "%Y-%m-%d" "%Y-%m-%d %H:%M:%S" (World empty_heap []) Hwf)
      as Hseq.
    cbn [heap] in Hseq. rewrite Hcls in Hseq. exact Hseq.
Defined.

Lemma numeric_column_never_flagged_witness :
  get_pyreadr_column_types numeric_heap numeric_frame
    = Ok ([("f", "NUMERIC"); ("i", "INTEGER")], [false; false]) ∧
  [false; false] !! 0 = Some false ∧
  transform_data sample_str sample_strftime sample_int sample_overflow sample_setitem
    (MkSeries (Plain N_float64) [0; 1] 0) "NUMERIC" false
    "%Y-%m-%d" "%Y-%m-%d %H:%M:%S" (World numeric_heap [])
  = (Ok (MkSeries (Plain N_float64) [0; 1] 0), World numeric_heap []).
Proof.
  assert (get_pyreadr_column_types numeric_heap numeric_frame
          = Ok ([("f", "NUMERIC"); ("i", "INTEGER")], [false; false]))
    as Hcls by (by vm_compute).
  destruct (numeric_column_never_flagged sample_str sample_strftime
              sample_int sample_overflow sample_setitem numeric_heap numeric_frame _ _ 0
              (Column "f" (Plain N_float64) 0) Hcls eq_refl eq_refl)
    as (Hflag & _ & Hpass).
  split_and!; [exact Hcls|exact Hflag|apply Hpass].
Defined.

Lemma validation_precedes_writer_witness :
  write_rds accepting_writer sample_str sample_strftime sample_int
    sample_overflow sample_expanduser sample_setitem sample_tolist_item (AStr "out.rds") ANone
    "%Y-%m-%d" "%Y-%m-%d %H:%M:%S" (World empty_heap [])
  = (Raise (PyreadrError "df must be a pandas data frame"),
     World empty_heap []) ∧
  ∃ msg,
    write_rdata accepting_writer sample_str sample_strftime sample_int
      sample_overflow sample_expanduser sample_setitem sample_tolist_item (AOther true)
      (AFrame case1_frame) (AStr "dataset")
      "%Y-%m-%d" "%Y-%m-%d %H:%M:%S" (World empty_heap [])
    = (Raise (PyreadrError msg), World empty_heap []).
Proof.
  split.
  - apply (validation_precedes_writer accepting_writer sample_str
             sample_strftime sample_int sample_overflow sample_expanduser sample_setitem sample_tolist_item
             (AStr "out.rds") ANone ANone). reflexivity.
  - apply (validation_precedes_writer accepting_writer sample_str
             sample_strftime sample_int sample_overflow sample_expanduser sample_setitem sample_tolist_item
             (AOther true) (AFrame case1_frame) (AStr "dataset"));
      [reflexivity|by right].
Defined.

(** The transformer itself writes to the series it is given: called on a
    view of the frame's buffer instead of a copy, it would change the
    caller's table. *)
Example transform_data_writes_in_place :
  let w := World (case1_heap I_int32) [] in
  let view := MkSeries (Plain N_object) [0; 1; 2] 0 in
  heap (transform_data sample_str sample_strftime sample_int sample_overflow sample_setitem
          view "INTEGER" true "%Y-%m-%d" "%Y-%m-%d %H:%M:%S" w).2 !! 0
  = Some [VInt I_int32 1; VInt I_py (-2147483648); VInt I_int32 3].
Proof. by vm_compute. Qed.

(** A Writer that refuses the first insertion: the write raises its
    exception, and neither the remaining insertions nor close follow. *)
Example write_r_stops_at_refusal :
  let run :=
    write_r refusing_writer sample_str sample_strftime sample_int
      sample_overflow sample_setitem sample_tolist_item "out.rds" "rds" case1_frame (AStr "")
      "%Y-%m-%d" "%Y-%m-%d %H:%M:%S" (World (case1_heap I_int32) []) in
  run.1 = Raise (WriterError 1) ∧
  calls run.2
  = [c_open "out.rds" "rds"; c_set_row_count 3; c_set_table_name (AStr "");
     c_add_column "x" "INTEGER";
     c_insert_value 0 0 (VInt I_py 1) "INTEGER"].
Proof. by vm_compute. Qed.

(** The heterogeneous object column ["a", 1, True]: tag OBJECT, primitive
    CHARACTER. *)
Example heterogeneous_column_is_object :
  get_pyreadr_column_types
    {[ 0 := [VStr "a"; VInt I_py 1; VBool true] ]}
    (Frame 3 [Column "x" (Plain N_object) 0])
  = Ok ([("x", "OBJECT")], [false]) ∧
  pyreadr_types_to_librdata_types [("x", "OBJECT")]
  = Ok [("x", "CHARACTER")].
Proof. by vm_compute. Qed.

(** An object column of missing entries only falls back to LOGICAL. *)
Example all_missing_column_is_logical :
  get_pyreadr_column_types
    {[ 0 := [VNone; VFloat FNaN] ]}
    (Frame 2 [Column "x" (Plain N_object) 0])
  = Ok ([("x", "LOGICAL")], [true]).
Proof. by vm_compute. Qed.

(** A categorical column over objects with one category: [apply] gives a
    Categorical and [np.all] raises; with two categories of one class it
    gives an array and the column is tagged by the class. *)
Example single_category_raises_type_error :
  get_pyreadr_column_types category_heap category_frame = Raise TypeError ∧
  get_pyreadr_column_types
    {[ 0 := [VStr "a"; VStr "b"] ]}
    (Frame 2 [Column "x" (Categorical N_object [VStr "a"; VStr "b"]) 0])
  = Ok ([("x", "CHARACTER")], [false]).
Proof. by vm_compute. Qed.

(** A datetime64[ns] column, with a pandas that parses the formatted text
    back to timestamps: what [insert_value] gets is the nanoseconds since
    the epoch as an integer, and [None] for [NaT], under the primitive
    CHARACTER. *)
Example datetime64_column_inserts_nanoseconds :
  calls (write_r accepting_writer sample_str sample_strftime sample_int
           sample_overflow sample_setitem sample_tolist_item "out.rds" "rds"
           stamp_frame (AStr "") "%Y-%m-%d" "%Y-%m-%d %H:%M:%S"
           (World stamp_heap [])).2
  = [c_open "out.rds" "rds"; c_set_row_count 2; c_set_table_name (AStr "");
     c_add_column "t" "CHARACTER";
     c_insert_value 0 0 (VInt I_py 1577934245000000000) "CHARACTER";
     c_insert_value 1 0 VNone "CHARACTER";
     c_close].
Proof. by vm_compute. Qed.

(** Narrowing 2^40 where numpy wraps: the 32-bit number stored is 0. *)
Example narrow_wraps_out_of_range :
  int32_of sample_int wrapping_overflow (VInt I_int64 1099511627776)
  = Ok (VInt I_int32 0).
Proof. by vm_compute. Qed.

(** ** The further properties at sample inputs *)

Lemma object_column_first_row_present_witness :
  column_type (case1_heap I_int32) case1_frame "x" (Plain N_object)
  = Ok ("INTEGER", true) ∧
  column_type category_heap category_frame "x"
    (Categorical N_object [VStr "a"])
  = Raise TypeError.
Proof.
  split.
  - apply (object_column_first_row_present (case1_heap I_int32) case1_frame
             (Column "x" (Plain N_object) 0) (VInt I_int32 1)
             [VNone; VInt I_int32 3]).
    + by eapply frame_wf_single.
    + left.
    + reflexivity.
    + unfold buffer, case1_heap. cbn [col_data].
      by rewrite lookup_singleton_eq.
    + reflexivity.
  - apply (object_column_first_row_present category_heap category_frame
             (Column "x" (Categorical N_object [VStr "a"]) 0) (VStr "a")
             [VStr "a"]).
    + by eapply frame_wf_single.
    + left.
    + reflexivity.
    + unfold buffer, category_heap. cbn [col_data].
      by rewrite lookup_singleton_eq.
    + reflexivity.
Defined.

Lemma object_column_all_missing_witness :
  column_type blank_heap blank_frame "x" (Plain N_object)
  = Ok ("LOGICAL", true).
Proof.
  apply (object_column_all_missing blank_heap blank_frame
           (Column "x" (Plain N_object) 0)).
  - by eapply frame_wf_single.
  - left.
  - reflexivity.
  - unfold buffer, blank_heap. cbn [col_data].
    by rewrite lookup_singleton_eq.
  - unfold buffer, blank_heap. cbn [col_data].
    by rewrite lookup_singleton_eq.
Defined.

Lemma datetime_column_flag_witness :
  column_type stamp_heap stamp_frame "t" (Plain N_datetime64ns)
  = Ok ("DATETIME", true).
Proof.
  etrans.
  - apply (datetime_column_flag stamp_heap stamp_frame
             (Column "t" (Plain N_datetime64ns) 0));
      [by eapply frame_wf_single|left|reflexivity].
  - unfold buffer, stamp_heap. cbn [col_data].
    by rewrite lookup_singleton_eq.
Defined.

Lemma classification_returns_exactly_witness :
  ∃ r, get_pyreadr_column_types (case1_heap I_int32) case1_frame = Ok r.
Proof.
  destruct (classification_returns_exactly (case1_heap I_int32) case1_frame)
    as [[_ Hreturns] _]; [by eapply frame_wf_single|].
  apply Hreturns. constructor; [|constructor]. intros _.
  unfold buffer, case1_heap. cbn [col_data].
  by rewrite lookup_singleton_eq.
Defined.

Lemma classification_from_dtypes_alone_witness :
  get_pyreadr_column_types numeric_heap numeric_frame
  = Ok ([("f", "NUMERIC"); ("i", "INTEGER")], [false; false]).
Proof.
  apply (classification_from_dtypes_alone numeric_heap numeric_frame).
  by repeat constructor.
Defined.

Lemma classifier_records_each_column_witness :
  ∃ tag b,
    column_type numeric_heap numeric_frame "i" (Plain N_int32) = Ok (tag, b) ∧
    od_get "i" [("f", "NUMERIC"); ("i", "INTEGER")] = Ok tag ∧
    [false; false] !! 1 = Some b.
Proof.
  assert (get_pyreadr_column_types numeric_heap numeric_frame
          = Ok ([("f", "NUMERIC"); ("i", "INTEGER")], [false; false]))
    as Hcls by (by vm_compute).
  assert (NoDup (map col_name (df_columns numeric_frame))) as Hnd.
  { apply NoDup_cons. split; [|apply NoDup_singleton].
    intros Hin. by apply list_elem_of_singleton in Hin. }
  destruct (classifier_records_each_column numeric_heap numeric_frame _ _
              Hnd Hcls) as (_ & _ & Hcols).
  destruct (Hcols 1 (Column "i" (Plain N_int32) 1) eq_refl)
    as (tag & b & Hcol & _ & Hget & Hflag).
  by exists tag, b.
Defined.

Lemma mapper_accepts_classifier_output_witness :
  pyreadr_types_to_librdata_types [("t", "DATETIME")]
  = Ok [("t", "CHARACTER")].
Proof.
  assert (get_pyreadr_column_types stamp_heap stamp_frame
          = Ok ([("t", "DATETIME")], [true])) as Hcls by (by vm_compute).
  destruct (mapper_accepts_classifier_output stamp_heap stamp_frame _ _ Hcls)
    as [Hmap _].
  exact Hmap.
Defined.

Lemma transform_data_keeps_rows_witness :
  let w := World (case1_heap I_int32) [] in
  let pd_series := MkSeries (Plain N_object) [0; 1; 2] 0 in
  let run := transform_data sample_str sample_strftime sample_int
               sample_overflow sample_setitem pd_series "INTEGER" true
               "%Y-%m-%d" "%Y-%m-%d %H:%M:%S" w in
  calls run.2 = [].
Proof.
  intros w pd_series run.
  destruct (transform_data_keeps_rows sample_str sample_strftime sample_int
              sample_overflow sample_setitem pd_series "INTEGER" true
              "%Y-%m-%d" "%Y-%m-%d %H:%M:%S" w run.1 run.2
              (surjective_pairing run)) as [Hcalls _].
  exact Hcalls.
Defined.

Lemma transform_object_in_place_witness :
  let w := World (case1_heap I_int32) [] in
  let pd_series := MkSeries (Plain N_object) [0; 1; 2] 0 in
  transform_data sample_str sample_strftime sample_int sample_overflow
    sample_setitem pd_series "OBJECT" true "%Y-%m-%d" "%Y-%m-%d %H:%M:%S" w
  = (Ok pd_series,
     World (<[0 := map (fun x => if isna x then x
                                 else VStr (sample_str x))
                       (buffer (case1_heap I_int32) 0)]>
              (case1_heap I_int32)) []).
Proof.
  intros w pd_series.
  apply (transform_object_in_place sample_str sample_strftime sample_int
           sample_overflow sample_setitem pd_series true
           "%Y-%m-%d" "%Y-%m-%d %H:%M:%S" w).
  reflexivity.
Defined.

Lemma transform_unknown_tag_witness :
  let w := World (case1_heap I_int32) [] in
  transform_data sample_str sample_strftime sample_int sample_overflow sample_setitem
    (MkSeries (Plain N_object) [0; 1; 2] 0) "FACTOR" false
    "%Y-%m-%d" "%Y-%m-%d %H:%M:%S" w
  = (Raise (PyreadrError "Unkown pyreadr data type"), w).
Proof.
  intros w.
  apply (transform_unknown_tag sample_str sample_strftime sample_int
           sample_overflow sample_setitem).
  unfold semantic_tags. intros Hin.
  repeat (apply elem_of_cons in Hin as [Hin|Hin]; [discriminate Hin|]).
  by apply elem_of_nil in Hin.
Defined.

Lemma transform_without_flag_writes_nothing_witness :
  let w := World numeric_heap [] in
  heap w
  ⊆ heap (transform_data sample_str sample_strftime sample_int
            sample_overflow sample_setitem (MkSeries (Plain N_int32) [0; 1] 1) "INTEGER"
            false "%Y-%m-%d" "%Y-%m-%d %H:%M:%S" w).2.
Proof.
  intros w.
  apply (transform_without_flag_writes_nothing sample_str sample_strftime
           sample_int sample_overflow sample_setitem).
  left.
Defined.

Lemma transform_dates_all_or_nothing_witness :
  let w := World dates_heap [] in
  let pd_series := MkSeries (Plain N_object) [0; 1] 0 in
  ∃ new,
    transform_data sample_str sample_strftime sample_int sample_overflow
      sample_setitem pd_series "DATE" true "%Y-%m-%d" "%Y-%m-%d %H:%M:%S" w
    = (Ok pd_series, World (<[0 := new]> dates_heap) []).
Proof.
  intros w pd_series.
  destruct (transform_dates_all_or_nothing sample_str sample_strftime
              sample_int sample_overflow sample_setitem pd_series "DATE"
              true "%Y-%m-%d" "%Y-%m-%d %H:%M:%S" w (or_introl eq_refl)
              eq_refl)
    as [Hformatted _].
  destruct Hformatted as (new & Hrun & _).
  - unfold w, pd_series, dates_heap, buffer. cbn [heap s_data].
    rewrite lookup_singleton_eq. cbn [default].
    constructor; [right; by eexists|].
    constructor; [by left|constructor].
  - by exists new.
Defined.

Lemma integer_column_delivered_exactly_witness :
  column_delivery sample_str sample_strftime sample_int sample_overflow sample_setitem sample_tolist_item
    numeric_heap [("f", "NUMERIC"); ("i", "INTEGER")] [false; false]
    "%Y-%m-%d" "%Y-%m-%d %H:%M:%S" 1 (Column "i" (Plain N_int32) 1)
  = Ok [VInt I_py 7; VInt I_py 8].
Proof.
  assert (get_pyreadr_column_types numeric_heap numeric_frame
          = Ok ([("f", "NUMERIC"); ("i", "INTEGER")], [false; false]))
    as Hcls by (by vm_compute).
  assert (NoDup (map col_name (df_columns numeric_frame))) as Hnd.
  { apply NoDup_cons. split; [|apply NoDup_singleton].
    intros Hin. by apply list_elem_of_singleton in Hin. }
  assert (buffer numeric_heap 1 = [VInt I_int32 7; VInt I_int32 8]) as Hbuf.
  { unfold buffer, numeric_heap.
    rewrite lookup_insert_ne by done. by rewrite lookup_singleton_eq. }
  destruct (integer_column_delivered_exactly sample_str sample_strftime
              sample_int sample_overflow sample_setitem sample_tolist_item numeric_heap numeric_frame _ _
              "%Y-%m-%d" "%Y-%m-%d %H:%M:%S" 1
              (Column "i" (Plain N_int32) 1) Hnd Hcls eq_refl eq_refl)
    as [_ Hdelivered].
  - cbn [col_data]. rewrite Hbuf. by repeat constructor.
  - rewrite Hdelivered. cbn [col_data]. by rewrite Hbuf.
Defined.

Lemma close_only_after_all_calls_witness :
  let w := World (case1_heap I_int32) [] in
  let run := write_r accepting_writer sample_str sample_strftime sample_int
               sample_overflow sample_setitem sample_tolist_item "out.rds" "rds" case1_frame (AStr "")
               "%Y-%m-%d" "%Y-%m-%d %H:%M:%S" w in
  ∃ issued, calls run.2 = [] ++ issued ∧ last issued = Some c_close.
Proof.
  intros w run.
  assert (frame_wf (heap w) case1_frame) as Hwf
    by (by eapply frame_wf_single).
  assert (get_pyreadr_column_types (heap w) case1_frame
          = Ok ([("x", "INTEGER")], [true])) as Hcls by (by vm_compute).
  assert (run.1 = Ok tt) as Hreturned by (by vm_compute).
  destruct (close_only_after_all_calls accepting_writer sample_str
              sample_strftime sample_int sample_overflow sample_setitem sample_tolist_item "out.rds" "rds"
              case1_frame (AStr "") "%Y-%m-%d" "%Y-%m-%d %H:%M:%S" w _ _
              Hwf Hcls) as (issued & Hcalls & _ & Hlast).
  exists issued. split; [exact Hcalls|exact (Hlast Hreturned)].
Defined.


Lemma returned_write_call_count_witness :
  let w := World (case1_heap I_int32) [] in
  let run := write_r accepting_writer sample_str sample_strftime sample_int
               sample_overflow sample_setitem sample_tolist_item "out.rds" "rds" case1_frame (AStr "")
               "%Y-%m-%d" "%Y-%m-%d %H:%M:%S" w in
  length (calls run.2) = 8.
Proof.
  intros w run.
  assert (frame_wf (heap w) case1_frame) as Hwf
    by (by eapply frame_wf_single).
  assert (get_pyreadr_column_types (heap w) case1_frame
          = Ok ([("x", "INTEGER")], [true])) as Hcls by (by vm_compute).
  assert (run.1 = Ok tt) as Hreturned by (by vm_compute).
  exact (returned_write_call_count accepting_writer sample_str
           sample_strftime sample_int sample_overflow sample_setitem sample_tolist_item "out.rds" "rds"
           case1_frame (AStr "") "%Y-%m-%d" "%Y-%m-%d %H:%M:%S" w _ _
           Hwf Hcls Hreturned).
Defined.

Lemma write_leaves_frame_classified_witness :
  let w := World (case1_heap I_int32) [] in
  let run := write_r refusing_writer sample_str sample_strftime sample_int
               sample_overflow sample_setitem sample_tolist_item "out.rds" "rds" case1_frame (AStr "")
               "%Y-%m-%d" "%Y-%m-%d %H:%M:%S" w in
  get_pyreadr_column_types (heap run.2) case1_frame
  = get_pyreadr_column_types (heap w) case1_frame.
Proof.
  intros w run.
  apply (write_leaves_frame_classified refusing_writer sample_str
           sample_strftime sample_int sample_overflow sample_setitem sample_tolist_item "out.rds" "rds"
           case1_frame (AStr "") "%Y-%m-%d" "%Y-%m-%d %H:%M:%S" w).
  by eapply frame_wf_single.
Defined.

Lemma inserted_values_fit_tag_witness :
  ∃ c tag,
    df_columns case1_frame !! 0 = Some c ∧
    od_get (col_name c) [("x", "INTEGER")] = Ok tag ∧
    fits_tag (col_dtype c) tag (VInt I_py (-2147483648)).
Proof.
  set (w := World (case1_heap I_int32) []).
  assert (frame_wf (heap w) case1_frame) as Hwf
    by (by eapply frame_wf_single).
  assert (get_pyreadr_column_types (heap w) case1_frame
          = Ok ([("x", "INTEGER")], [true])) as Hcls by (by vm_compute).
  apply (inserted_values_fit_tag accepting_writer sample_str
           sample_strftime sample_int sample_overflow sample_setitem sample_tolist_item "out.rds" "rds"
           case1_frame (AStr "") "%Y-%m-%d" "%Y-%m-%d %H:%M:%S" w _ _
           Hwf Hcls 1 0 (VInt I_py (-2147483648)) "INTEGER").
  - assert (calls (write_r accepting_writer sample_str sample_strftime
                     sample_int sample_overflow sample_setitem sample_tolist_item "out.rds" "rds" case1_frame
                     (AStr "") "%Y-%m-%d" "%Y-%m-%d %H:%M:%S" w).2
            = [c_open "out.rds" "rds"; c_set_row_count 3;
               c_set_table_name (AStr ""); c_add_column "x" "INTEGER";
               c_insert_value 0 0 (VInt I_py 1) "INTEGER";
               c_insert_value 1 0 (VInt I_py (-2147483648)) "INTEGER";
               c_insert_value 2 0 (VInt I_py 3) "INTEGER";
               c_close]) as -> by (by vm_compute).
    do 5 right. left.
  - apply not_elem_of_nil.
Defined.

Lemma entry_points_differ_in_open_and_name_witness :
  let w := World (case1_heap I_int32) [] in
  ∃ rest,
    calls (write_rdata accepting_writer sample_str sample_strftime
             sample_int sample_overflow sample_expanduser sample_setitem sample_tolist_item (AStr "out")
             (AFrame case1_frame) (AStr "dataset")
             "%Y-%m-%d" "%Y-%m-%d %H:%M:%S" w).2
    = [] ++ [c_open "out" "rdata"; c_set_row_count 3;
             c_set_table_name (AStr "dataset")] ++ rest ∧
    calls (write_rds accepting_writer sample_str sample_strftime
             sample_int sample_overflow sample_expanduser sample_setitem sample_tolist_item (AStr "out")
             (AFrame case1_frame) "%Y-%m-%d" "%Y-%m-%d %H:%M:%S" w).2
    = [] ++ [c_open "out" "rds"; c_set_row_count 3;
             c_set_table_name (AStr "")] ++ rest.
Proof.
  intros w.
  assert (frame_wf (heap w) case1_frame) as Hwf
    by (by eapply frame_wf_single).
  assert (get_pyreadr_column_types (heap w) case1_frame
          = Ok ([("x", "INTEGER")], [true])) as Hcls by (by vm_compute).
  destruct (entry_points_differ_in_open_and_name accepting_writer sample_str
              sample_strftime sample_int sample_overflow sample_expanduser sample_setitem sample_tolist_item
              "out" "dataset" case1_frame "%Y-%m-%d" "%Y-%m-%d %H:%M:%S" w
              _ _ (fun H => ltac:(discriminate H)) Hwf Hcls
              (fun _ _ => eq_refl))
    as (rest & Hrdata & Hrds & _).
  exists rest. split; [exact Hrdata|exact Hrds].
Defined.

Lemma read_r_checks_path_after_options_witness :
  read_r sample_expanduser nat sample_isfile accepting_parser
    sample_table_data (AOther true) (Some ["a"]) (Some "UTC") []
  = (Raise (PyreadrError "path must be a string!"),
     [p_set_use_objects ["a"]; p_set_timezone "UTC"]).
Proof.
  destruct (read_r_checks_path_after_options sample_expanduser nat
              sample_isfile accepting_parser sample_table_data (AOther true)
              (Some ["a"]) (Some "UTC"))
    as (e & log & Hrun & _ & Haccepted).
  { intros p Hp. discriminate Hp. }
  destruct Haccepted as [-> ->]; [reflexivity|]. exact Hrun.
Defined.

Lemma read_r_returns_last_table_per_name_witness :
  ∃ frames,
    sample_table_data [p_parse "data.rds"]
    = map (fun nf => (nf.1, Ok nf.2)) frames ∧
    dict_get "a" [("a", 3); ("b", 2)]
    = snd <$> last (filter (fun nf => nf.1 = "a") frames).
Proof.
  destruct (read_r_returns_last_table_per_name sample_expanduser nat
              sample_isfile accepting_parser sample_table_data
              (AStr "data.rds") None None [("a", 3); ("b", 2)]
              [p_parse "data.rds"] eq_refl)
    as (p & frames & _ & _ & _ & Htables & _ & _ & Hget).
  exists frames. split; [exact Htables|apply Hget].
Defined.

Lemma read_r_raises_first_failed_conversion_witness :
  read_r sample_expanduser nat sample_isfile accepting_parser
    broken_table_data (AStr "data.rds") None None []
  = (Raise ValueError, [p_parse "data.rds"]).
Proof.
  apply (read_r_raises_first_failed_conversion sample_expanduser nat
           sample_isfile accepting_parser broken_table_data "data.rds"
           None None [("a", 1)] "b" ValueError [("c", Ok 3)]);
    reflexivity.
Defined.

Lemma list_objects_parses_once_witness :
  ∃ p, AStr "data.rds" = AStr p ∧
       sample_isfile (sample_expanduser p) = true ∧
       Ok ["a"; "b"; "a"]
       = match accepting_parser [] (p_parse (sample_expanduser p)) with
         | None => Ok (sample_object_list [p_parse "data.rds"])
         | Some e => Raise e
         end.
Proof.
  destruct (list_objects_parses_once sample_expanduser string sample_isfile
              accepting_parser sample_object_list (AStr "data.rds")
              (Ok ["a"; "b"; "a"]) [p_parse "data.rds"] eq_refl)
    as [(Hlog & _)|(p & Hp & Hfile & _ & Hresult)]; [discriminate Hlog|].
  exists p. split_and!; [exact Hp|exact Hfile|exact Hresult].
Defined.
